(** * Resource synchronisation layer of the Intuitivus Flow Studio client

    A shallow embedding of the hooks, stores and query-client
    configuration that make up the client-side synchronisation layer:

    - [src/hooks/useAbortController.ts]  (modules [UseAbortController] and
      [UseAbortableFetch]),
    - [src/providers/AppProvider.tsx] and the data hooks built on the
      query library (modules [Retryer], [QueryClient], [Hooks],
      [OptimizedData], [AgentsData], [Polling]),
    - [src/stores/useAuthStore.ts], the session hook and
      [src/services/api.ts] (module [Session]),
    - [src/hooks/useOptimizedStore.ts] (module [OptimizedStore]),
    - the fetch coordinator of the specification (module
      [FetchCoordinator]).

    JavaScript numbers that count things or measure milliseconds are [Z]
    (or [nat] where the code only counts up from zero); amounts that are
    divided are [Q]; [undefined] and [null] are [None]. *)

From Stdlib Require Import QArith.
From stdpp Require Import base numbers option list strings gmap fin_maps.

Close Scope Q_scope.
Open Scope Z_scope.

(* ===================================================================== *)
(** * useAbortController.ts: one cancellation-scope holder *)
(* ===================================================================== *)

Module UseAbortController.

(** Every [new AbortController()] executed by one hook instance gets the
    next index of [controllers]; the entry is the controller's
    [signal.aborted] flag.  [current] is [abortControllerRef.current]. *)
Record Holder : Type := mkHolder {
  controllers : list bool;
  current : option nat
}.

(** [useRef<AbortController | null>(null)] *)
Definition initHolder : Holder := mkHolder [] None.

(** [controller.abort()] *)
Definition abortAt (i : nat) (cs : list bool) : list bool := <[i := true]> cs.

(** [new AbortController()]: a fresh, non-aborted controller. *)
Definition newController (cs : list bool) : list bool * nat :=
  (cs ++ [false], length cs).

(** [createController]: abort the previous controller if there is one,
    then store and return a new one. *)
Definition createController (h : Holder) : Holder * nat :=
  let cs := match current h with
            | Some i => abortAt i (controllers h)
            | None => controllers h
            end in
  let '(cs', c) := newController cs in
  (mkHolder cs' (Some c), c).

(** [getSignal]: create a controller only when the ref is empty; the
    result is the controller whose signal is returned. *)
Definition getSignal (h : Holder) : Holder * nat :=
  match current h with
  | Some i => (h, i)
  | None =>
      let '(cs', c) := newController (controllers h) in
      (mkHolder cs' (Some c), c)
  end.

(** [abort]: abort the current controller and clear the ref. *)
Definition abort (h : Holder) : Holder :=
  match current h with
  | Some i => mkHolder (abortAt i (controllers h)) None
  | None => h
  end.

(** The cleanup returned by [useEffect(..., [])]: it runs on unmount and
    aborts the current controller; the ref keeps pointing at it. *)
Definition unmount (h : Holder) : Holder :=
  match current h with
  | Some i => mkHolder (abortAt i (controllers h)) (Some i)
  | None => h
  end.

(** What a component can do with the hook's result. *)
Inductive Op : Type :=
| OpCreateController
| OpGetSignal
| OpAbort
| OpUnmount.

Definition step (h : Holder) (o : Op) : Holder :=
  match o with
  | OpCreateController => fst (createController h)
  | OpGetSignal => fst (getSignal h)
  | OpAbort => abort h
  | OpUnmount => unmount h
  end.

Definition run (ops : list Op) (h : Holder) : Holder := foldl step h ops.

(** Controller [i] exists and its signal is not aborted. *)
Definition live (h : Holder) (i : nat) : Prop := controllers h !! i = Some false.

(** Every live controller is the one the ref points at. *)
Definition only_current_live (h : Holder) : Prop :=
  ∀ i, live h i → current h = Some i.

(** The ref, when set, points at an allocated controller. *)
Definition current_allocated (h : Holder) : Prop :=
  ∀ i, current h = Some i → (i < length (controllers h))%nat.

Definition wf (h : Holder) : Prop := only_current_live h ∧ current_allocated h.

End UseAbortController.

(* ===================================================================== *)
(** * useAbortController.ts: fetches issued through [useAbortableFetch] *)
(* ===================================================================== *)

Module UseAbortableFetch.
Import UseAbortController.

(** One call of [abortableFetch(url)]: the hook instance that issued it,
    the url, the controller whose signal was handed to [fetch], and
    whether the promise has settled. *)
Record Fetch : Type := mkFetch {
  holderOf : nat;
  url : string;
  ctrl : nat;
  settled : bool
}.

(** Each component that calls [useAbortableFetch()] owns a holder of its
    own ([useRef] is per hook instance); [fetches] is every request
    handed to the transport so far, in issue order. *)
Record World : Type := mkWorld {
  holders : gmap nat Holder;
  fetches : list Fetch
}.

Definition initWorld : World := mkWorld ∅ [].

Definition holderAt (w : World) (h : nat) : Holder :=
  default initHolder (holders w !! h).

(** [abortableFetch(url)]: [const controller = createController()] and
    then [fetch(url, { signal: controller.signal })]. *)
Definition abortableFetch (h : nat) (u : string) (w : World) : World :=
  let '(hd, c) := createController (holderAt w h) in
  mkWorld (<[h := hd]> (holders w)) (fetches w ++ [mkFetch h u c false]).

(** The [k]-th request resolves or rejects. *)
Definition settle (k : nat) (w : World) : World :=
  mkWorld (holders w)
          (alter (λ f, mkFetch (holderOf f) (url f) (ctrl f) true) k (fetches w)).

(** The component owning holder [h] unmounts. *)
Definition unmountHolder (h : nat) (w : World) : World :=
  mkWorld (<[h := unmount (holderAt w h)]> (holders w)) (fetches w).

Definition aborted (w : World) (f : Fetch) : bool :=
  default true (controllers (holderAt w (holderOf f)) !! ctrl f).

(** A fetch is in flight and not cancelled. *)
Definition inFlight (w : World) (f : Fetch) : bool :=
  negb (settled f) && negb (aborted w f).

Definition liveFetchesFor (w : World) (u : string) : list Fetch :=
  filter (λ f, inFlight w f = true ∧ url f = u) (fetches w).

Definition liveFetchesOf (w : World) (h : nat) : list Fetch :=
  filter (λ f, inFlight w f = true ∧ holderOf f = h) (fetches w).

Inductive Op : Type :=
| OpFetch (h : nat) (u : string)
| OpSettle (k : nat)
| OpUnmount (h : nat).

Definition step (w : World) (o : Op) : World :=
  match o with
  | OpFetch h u => abortableFetch h u w
  | OpSettle k => settle k w
  | OpUnmount h => unmountHolder h w
  end.

Definition run (ops : list Op) : World := foldl step initWorld ops.

(** The holders are well formed, every fetch holds a controller that
    its holder allocated, and two fetches of one holder never share a
    controller. *)
Record Inv (w : World) : Prop := mkInv {
  inv_wf : ∀ h, wf (holderAt w h);
  inv_alloc : ∀ i f, fetches w !! i = Some f →
                (ctrl f < length (controllers (holderAt w (holderOf f))))%nat;
  inv_inj : ∀ i j f g, fetches w !! i = Some f → fetches w !! j = Some g →
                holderOf f = holderOf g → ctrl f = ctrl g → i = j
}.

End UseAbortableFetch.

(* ===================================================================== *)
(** * Retry options and the loop that interprets them *)
(* ===================================================================== *)

Module Retryer.

(** The error object rejected by [apiService]: [error?.status] (absent on
    errors that are not [ApiError]s, 0 for a network error) and
    [error?.name]. *)
Record ApiError : Type := mkApiError {
  status : option Z;
  name : string
}.

(** The [retry] option: [false]/[true], a number, or
    [(failureCount, error) => boolean]. *)
Inductive RetryValue : Type :=
| RetryBool (b : bool)
| RetryNumber (n : nat)
| RetryFn (f : nat → ApiError → bool).

(** The [retryDelay] option: a number of milliseconds or a function. *)
Inductive RetryDelayValue : Type :=
| DelayNumber (ms : Z)
| DelayFn (f : nat → ApiError → Z).

(** [error?.status >= 400 && error?.status < 500]; a comparison with
    [undefined] is false. *)
Definition isClientError (e : ApiError) : bool :=
  match status e with
  | Some s => (400 <=? s) && (s <? 500)
  | None => false
  end.

(** Modelled from the spec: the backoff used when a hook sets no
    [retryDelay] (the query library's default, a dependency that is not
    under src/): "exponential backoff (base 1s, factor 2)". *)
Definition defaultRetryDelay (failureCount : nat) : Z :=
  1000 * 2 ^ Z.of_nat failureCount.

(** Modelled from the spec: how the retry loop of the fetch coordinator
    and of the mutation executor (the query library, a dependency that is
    not under src/) reads the [retry] option after the [failureCount]-th
    failure: [true] always retries, a number [n] retries while
    [failureCount < n], a function is asked. *)
Definition shouldRetry (r : RetryValue) (failureCount : nat) (e : ApiError) : bool :=
  match r with
  | RetryBool b => b
  | RetryNumber n => bool_decide (failureCount < n)%nat
  | RetryFn f => f failureCount e
  end.

Definition delayFor (d : option RetryDelayValue) (failureCount : nat) (e : ApiError) : Z :=
  match d with
  | None => defaultRetryDelay failureCount
  | Some (DelayNumber ms) => ms
  | Some (DelayFn f) => f failureCount e
  end.

(** What the loop does, in order: it invokes the function, sleeps before
    a retry, and finally resolves or rejects. *)
Inductive Event (T : Type) : Type :=
| EvCall
| EvSleep (ms : Z)
| EvResolve (d : T)
| EvReject (e : ApiError).
Arguments EvCall {T}.
Arguments EvSleep {T} ms.
Arguments EvResolve {T} d.
Arguments EvReject {T} e.

(** Modelled from the spec: the retry loop itself (the query library's, a
    dependency that is not under src/).  [fn k] is the outcome of the
    invocation made after [k] failures.  On a failure the loop asks
    [shouldRetry]; if the answer is no it rejects with that error,
    otherwise it sleeps for the delay and invokes the function again.
    [None] means the fuel ran out before the loop settled. *)
Fixpoint attempt {T : Type} (fuel : nat) (retry : RetryValue)
    (retryDelay : option RetryDelayValue) (fn : nat → ApiError + T)
    (failureCount : nat) : option (list (Event T)) :=
  match fuel with
  | O => None
  | S fuel' =>
      match fn failureCount with
      | inr d => Some [EvCall; EvResolve d]
      | inl e =>
          if shouldRetry retry failureCount e
          then (λ tr, EvCall :: EvSleep (delayFor retryDelay failureCount e) :: tr)
                 <$> attempt fuel' retry retryDelay fn (S failureCount)
          else Some [EvCall; EvReject e]
      end
  end.

Definition isCall {T : Type} (ev : Event T) : bool :=
  match ev with EvCall => true | _ => false end.

(** How many times the function was invoked. *)
Definition calls {T : Type} (tr : list (Event T)) : nat :=
  length (filter (λ ev, isCall ev = true) tr).

(** The delays slept, in order. *)
Definition sleeps {T : Type} (tr : list (Event T)) : list Z :=
  omap (λ ev, match ev with EvSleep ms => Some ms | _ => None end) tr.

(** The error the loop rejected with, if it did. *)
Definition rejection {T : Type} (tr : list (Event T)) : option ApiError :=
  match last tr with
  | Some (EvReject e) => Some e
  | _ => None
  end.

(** Rejections that happen before the trace's last event. *)
Definition earlyRejections {T : Type} (tr : list (Event T)) : list ApiError :=
  omap (λ ev, match ev with EvReject e => Some e | _ => None end)
       (take (length tr - 1) tr).

End Retryer.

(* ===================================================================== *)
(** * Query options of the provider and of the hooks *)
(* ===================================================================== *)

Module Hooks.
Import Retryer.

(** The options object passed to [useQuery] / [new QueryClient]; an
    option the code does not set is [None]. *)
Record QueryOptions : Type := mkQueryOptions {
  staleTime : option Z;
  gcTime : option Z;
  refetchInterval : option Z;
  refetchIntervalInBackground : option bool;
  refetchOnWindowFocus : option bool;
  retry : option RetryValue;
  retryDelay : option RetryDelayValue
}.

Record MutationOptions : Type := mkMutationOptions {
  mutationRetry : option RetryValue;
  mutationRetryDelay : option RetryDelayValue
}.

(** AppProvider.tsx, [defaultOptions.queries.retry], and the identical
    function of [useOptimizedDashboardStats]:
    no retry on a 4xx, otherwise [failureCount < 3]. *)
Definition retryUnless4xx (failureCount : nat) (error : ApiError) : bool :=
  if isClientError error then false else bool_decide (failureCount < 3)%nat.

(** AppProvider.tsx, [defaultOptions.queries]. *)
Definition appProviderQueries : QueryOptions :=
  mkQueryOptions (Some (5 * 60 * 1000)) (Some (10 * 60 * 1000)) None None
                 (Some false) (Some (RetryFn retryUnless4xx)) None.

(** AppProvider.tsx, [defaultOptions.mutations]: [retry: 1]. *)
Definition appProviderMutations : MutationOptions :=
  mkMutationOptions (Some (RetryNumber 1)) None.

(** [useOptimizedDashboardStats]. *)
Definition useOptimizedDashboardStats_options : QueryOptions :=
  mkQueryOptions (Some (1 * 60 * 1000)) (Some (5 * 60 * 1000)) (Some (60 * 1000)) None
                 (Some true) (Some (RetryFn retryUnless4xx)) None.

(** [useOptimizedTasks]. *)
Definition useOptimizedTasks_options : QueryOptions :=
  mkQueryOptions (Some (2 * 60 * 1000)) (Some (5 * 60 * 1000)) (Some (30 * 1000))
                 (Some false) None None None.

(** [useAgents]. *)
Definition useAgents_options : QueryOptions :=
  mkQueryOptions (Some (5 * 60 * 1000)) (Some (10 * 60 * 1000)) None None
                 (Some false) None None.

(** [useApiHealth]: [retry: 3, retryDelay: 1000]. *)
Definition useApiHealth_options : QueryOptions :=
  mkQueryOptions None None (Some 30000) None None
                 (Some (RetryNumber 3)) (Some (DelayNumber 1000)).

(** The variant of [useApiHealth] that threads an abort signal: no retry
    after an abort, otherwise [failureCount < 3]. *)
Definition retryUnlessAborted (failureCount : nat) (error : ApiError) : bool :=
  if String.eqb (name error) "AbortError" then false
  else bool_decide (failureCount < 3)%nat.

Definition useApiHealthAbortable_options : QueryOptions :=
  mkQueryOptions None None (Some 30000) None None
                 (Some (RetryFn retryUnlessAborted)) (Some (DelayNumber 1000)).

(** A hook's own option wins over the provider's default. *)
Definition effectiveRetry (defaults o : QueryOptions) : option RetryValue :=
  match retry o with Some r => Some r | None => retry defaults end.

Definition effectiveRetryDelay (defaults o : QueryOptions) : option RetryDelayValue :=
  match retryDelay o with Some d => Some d | None => retryDelay defaults end.

(** A query function run under a hook's options on top of the
    provider's defaults; [None] when the fuel ran out or no [retry] is
    configured at either level. *)
Definition runQueryFn {T : Type} (fuel : nat) (defaults o : QueryOptions)
    (queryFn : nat → ApiError + T) : option (list (Event T)) :=
  r ← effectiveRetry defaults o;
  attempt fuel r (effectiveRetryDelay defaults o) queryFn 0.

(** A mutation's write function run under the provider's mutation
    options. Modelled from the spec: without a [retry] option a mutation
    is not retried ("do not retry automatically"). *)
Definition runMutationFn {T : Type} (fuel : nat) (o : MutationOptions)
    (writeFn : nat → ApiError + T) : option (list (Event T)) :=
  attempt fuel (default (RetryBool false) (mutationRetry o)) (mutationRetryDelay o) writeFn 0.

End Hooks.

(* ===================================================================== *)
(** * The query cache as the hooks use it *)
(* ===================================================================== *)

Module QueryClient.

(** A query key is an array; an object element (a filters object) stands
    as its canonical string. *)
Definition QueryKey : Type := list string.

Section Cache.
Context {D : Type}.

(** One cache entry: the data, absent while nothing was fetched or set,
    and the invalidation mark. *)
Record QueryState : Type := mkQuery {
  data : option D;
  isInvalidated : bool
}.

(** [{ queryKey: prefix }] matches every key that starts with [prefix]. *)
Definition matchesKey (prefix k : QueryKey) : bool :=
  bool_decide (prefix `prefix_of` k).

(** Modelled from the spec: [get(key)] of the resource cache (the query
    library's [getQueryData], a dependency that is not under src/): the
    data of the entry, [undefined] when there is none. *)
Definition getQueryData (c : gmap QueryKey QueryState) (k : QueryKey) : option D :=
  c !! k ≫= data.

(** Modelled from the spec: [patch(key, fn)] / [set(key, data)] of the
    resource cache (the query library's [setQueryData], a dependency that
    is not under src/): applies [fn(currentData)] synchronously and
    stores the result, creating the entry when it is absent; an updater
    that returns [undefined] writes nothing. *)
Definition setQueryData (k : QueryKey) (updater : option D → option D)
    (c : gmap QueryKey QueryState) : gmap QueryKey QueryState :=
  match updater (getQueryData c k) with
  | Some d => <[k := mkQuery (Some d) false]> c
  | None => c
  end.

(** [setQueryData(key, value)] with a plain value. *)
Definition setQueryDataTo (k : QueryKey) (d : D)
    (c : gmap QueryKey QueryState) : gmap QueryKey QueryState :=
  setQueryData k (λ _, Some d) c.

(** Modelled from the spec: [patch] applied to every existing entry whose
    key matches the prefix (the query library's [setQueriesData], a
    dependency that is not under src/). *)
Definition setQueriesData (prefix : QueryKey) (updater : option D → option D)
    (c : gmap QueryKey QueryState) : gmap QueryKey QueryState :=
  map_imap (λ k q,
    if matchesKey prefix k
    then match updater (data q) with
         | Some d => Some (mkQuery (Some d) false)
         | None => Some q
         end
    else Some q) c.

(** Modelled from the spec: marking every entry under a prefix stale (the
    query library's [invalidateQueries], a dependency that is not under
    src/); the data stays. *)
Definition invalidateQueries (prefix : QueryKey)
    (c : gmap QueryKey QueryState) : gmap QueryKey QueryState :=
  map_imap (λ k q,
    Some (if matchesKey prefix k then mkQuery (data q) true else q)) c.

(** Modelled from the spec: [cache.clear()] (the query library's
    [queryClient.clear()], a dependency that is not under src/). *)
Definition clear (c : gmap QueryKey QueryState) : gmap QueryKey QueryState := ∅.

(** The callbacks of one [useMutation] call. [onMutate] returns the
    context handed to [onError]. *)
Record Mutation (V Ctx : Type) : Type := mkMutation {
  onMutate : V → gmap QueryKey QueryState → gmap QueryKey QueryState * Ctx;
  onSuccess : V → gmap QueryKey QueryState → gmap QueryKey QueryState;
  onError : Retryer.ApiError → V → Ctx → gmap QueryKey QueryState → gmap QueryKey QueryState;
  onSettled : V → gmap QueryKey QueryState → gmap QueryKey QueryState
}.
Arguments onMutate {V Ctx} m.
Arguments onSuccess {V Ctx} m.
Arguments onError {V Ctx} m.
Arguments onSettled {V Ctx} m.

(** Modelled from the spec: the mutation executor up to the rollback
    (the query library's mutation runner, a dependency that is not under
    src/): [onMutate] patches the cache, the write is invoked, and when
    it rejects with [e], [onError] runs with the context. *)
Definition mutateRejected {V Ctx : Type} (m : Mutation V Ctx) (v : V)
    (e : Retryer.ApiError) (c : gmap QueryKey QueryState) : gmap QueryKey QueryState :=
  let '(c1, ctx) := onMutate m v c in
  onError m e v ctx c1.

(** The same run continued through [onSettled]. *)
Definition mutateRejectedSettled {V Ctx : Type} (m : Mutation V Ctx) (v : V)
    (e : Retryer.ApiError) (c : gmap QueryKey QueryState) : gmap QueryKey QueryState :=
  onSettled m v (mutateRejected m v e c).

End Cache.

Arguments QueryState D : clear implicits.
Arguments Mutation D V Ctx : clear implicits.
Arguments mkMutation {D V Ctx} onMutate onSuccess onError onSettled.

End QueryClient.

(* ===================================================================== *)
(** * stores/types.ts *)
(* ===================================================================== *)

Module Types.

(** [interface Agent]; [configuration] (a [Record<string, any>]) stands
    as its canonical string. *)
Record Agent : Type := mkAgent {
  agent_id : string;
  agent_name : string;
  agent_type : string;
  agent_status : string;
  agent_description : option string;
  agent_configuration : string;
  agent_tasksCompleted : Z;
  agent_successRate : Z;
  agent_lastActivity : option string;
  agent_createdAt : string;
  agent_updatedAt : string;
  agent_userId : string
}.

(** [interface Task]; [input] and [output] stand as canonical strings. *)
Record Task : Type := mkTask {
  task_id : string;
  task_agentId : string;
  task_type : string;
  task_status : string;
  task_input : string;
  task_output : option string;
  task_error : option string;
  task_executionTime : option Z;
  task_createdAt : string;
  task_updatedAt : string
}.

(** [interface Campaign]. *)
Record Campaign : Type := mkCampaign {
  campaign_id : string;
  campaign_name : string;
  campaign_platform : string;
  campaign_status : string;
  budget : Q;
  spent : Q;
  impressions : Q;
  clicks : Q;
  conversions : Q;
  campaign_startDate : string;
  campaign_endDate : option string;
  campaign_createdAt : string;
  campaign_updatedAt : string;
  campaign_userId : string
}.

(** [{ ...agent, status }] *)
Definition agentWithStatus (a : Agent) (status : string) : Agent :=
  mkAgent (agent_id a) (agent_name a) (agent_type a) status
          (agent_description a) (agent_configuration a) (agent_tasksCompleted a)
          (agent_successRate a) (agent_lastActivity a) (agent_createdAt a)
          (agent_updatedAt a) (agent_userId a).

(** [{ ...task, status }] *)
Definition taskWithStatus (t : Task) (status : string) : Task :=
  mkTask (task_id t) (task_agentId t) (task_type t) status (task_input t)
         (task_output t) (task_error t) (task_executionTime t)
         (task_createdAt t) (task_updatedAt t).

End Types.

(* ===================================================================== *)
(** * The optimized data hooks ([useOptimizedAgents], [useOptimizedTasks]) *)
(* ===================================================================== *)

Module OptimizedData.
Import Types QueryClient.

(** [QUERY_KEYS] *)
Definition QUERY_KEYS_agents : QueryKey := ["agents"%string].
Definition QUERY_KEYS_tasks : QueryKey := ["tasks"%string].
Definition QUERY_KEYS_dashboardStats : QueryKey := ["dashboard"%string; "stats"%string].

(** [useOptimizedTasks(filters)]: [[...QUERY_KEYS.tasks, filters]]. *)
Definition tasksKey (filters : option string) : QueryKey :=
  match filters with
  | Some f => QUERY_KEYS_tasks ++ [f]
  | None => QUERY_KEYS_tasks
  end.

(** [old?.map(agent => agent.id === agentId ? { ...agent, status } : agent) || []] *)
Definition patchAgents (agentId status : string) (old : option (list Agent)) : option (list Agent) :=
  Some (match old with
        | Some l => (λ agent, if String.eqb (agent_id agent) agentId
                              then agentWithStatus agent status else agent) <$> l
        | None => []
        end).

(** [updateAgentStatusMutation]; the variables are [{ agentId, status }],
    the context is [{ previousAgents }]. *)
Definition updateAgentStatusMutation
    : Mutation (list Agent) (string * string) (option (list Agent)) :=
  mkMutation
    (λ '(agentId, status) c,
       let previousAgents := getQueryData c QUERY_KEYS_agents in
       (setQueryData QUERY_KEYS_agents (patchAgents agentId status) c, previousAgents))
    (λ _ c, c)
    (λ _ _ context c,
       match context with
       | Some previousAgents => setQueryDataTo QUERY_KEYS_agents previousAgents c
       | None => c
       end)
    (λ _ c, invalidateQueries QUERY_KEYS_agents c).

(** [old?.map(task => task.id === taskId ? { ...task, status } : task) || []] *)
Definition patchTasks (taskId status : string) (old : option (list Task)) : option (list Task) :=
  Some (match old with
        | Some l => (λ task, if String.eqb (task_id task) taskId
                             then taskWithStatus task status else task) <$> l
        | None => []
        end).

(** [updateTaskStatusMutation]; the variables are [{ taskId, status }],
    the context is [{ previousTasks }].  The snapshot reads
    [QUERY_KEYS.tasks]; the optimistic update goes through
    [setQueriesData({ queryKey: ['tasks'] }, ...)]. *)
Definition updateTaskStatusMutation
    : Mutation (list Task) (string * string) (option (list Task)) :=
  mkMutation
    (λ '(taskId, status) c,
       let previousTasks := getQueryData c QUERY_KEYS_tasks in
       (setQueriesData ["tasks"%string] (patchTasks taskId status) c, previousTasks))
    (λ _ c, c)
    (λ _ _ context c,
       match context with
       | Some previousTasks => setQueryDataTo QUERY_KEYS_tasks previousTasks c
       | None => c
       end)
    (λ _ c, invalidateQueries ["tasks"%string] c).

End OptimizedData.

(* ===================================================================== *)
(** * The agents data hooks ([useAgents], [useUpdateAgent]) *)
(* ===================================================================== *)

Module AgentsData.
Import QueryClient.

(** The hook file's own [interface Agent]; [config] and [performance]
    stand as canonical strings. *)
Record Agent : Type := mkAgent {
  id : string;
  name : string;
  type : string;
  description : option string;
  status : string;
  avatar : option string;
  tasksCompleted : option Z;
  tasksTotal : option Z;
  lastActivity : option string;
  createdAt : string;
  updatedAt : string;
  config : option string;
  performance : option string
}.

(** [interface UpdateAgentData]: every field may be left out. *)
Record UpdateAgentData : Type := mkUpdateAgentData {
  upd_name : option string;
  upd_type : option string;
  upd_description : option string;
  upd_config : option string;
  upd_status : option string
}.

(** [AGENTS_QUERY_KEYS] *)
Definition AGENTS_QUERY_KEYS_all : QueryKey := ["agents"%string].
Definition AGENTS_QUERY_KEYS_lists : QueryKey := AGENTS_QUERY_KEYS_all ++ ["list"%string].
Definition AGENTS_QUERY_KEYS_list (filters : string) : QueryKey := AGENTS_QUERY_KEYS_lists ++ [filters].
Definition AGENTS_QUERY_KEYS_details : QueryKey := AGENTS_QUERY_KEYS_all ++ ["detail"%string].
Definition AGENTS_QUERY_KEYS_detail (id : string) : QueryKey := AGENTS_QUERY_KEYS_details ++ [id].

(** [{ ...previousAgent, ...data, updatedAt: new Date().toISOString() }] *)
Definition mergeAgent (previousAgent : Agent) (data : UpdateAgentData) (now : string) : Agent :=
  mkAgent (id previousAgent)
          (default (name previousAgent) (upd_name data))
          (default (type previousAgent) (upd_type data))
          (match upd_description data with Some d => Some d | None => description previousAgent end)
          (default (status previousAgent) (upd_status data))
          (avatar previousAgent) (tasksCompleted previousAgent) (tasksTotal previousAgent)
          (lastActivity previousAgent) (createdAt previousAgent)
          now
          (match upd_config data with Some d => Some d | None => config previousAgent end)
          (performance previousAgent).

(** [useUpdateAgent]; the variables are [{ id, data }], the context is
    [{ previousAgent }]; [now] is the clock read by [onMutate]. *)
Definition useUpdateAgent (now : string)
    : Mutation Agent (string * UpdateAgentData) (option Agent) :=
  mkMutation
    (λ '(id, data) c,
       let previousAgent := getQueryData c (AGENTS_QUERY_KEYS_detail id) in
       (match previousAgent with
        | Some a => setQueryDataTo (AGENTS_QUERY_KEYS_detail id) (mergeAgent a data now) c
        | None => c
        end, previousAgent))
    (λ _ c, invalidateQueries AGENTS_QUERY_KEYS_lists c)
    (λ _ variables context c,
       match context with
       | Some previousAgent => setQueryDataTo (AGENTS_QUERY_KEYS_detail variables.1) previousAgent c
       | None => c
       end)
    (λ variables c, invalidateQueries (AGENTS_QUERY_KEYS_detail variables.1) c).

End AgentsData.

(* ===================================================================== *)
(** * Periodic refetch of live resources *)
(* ===================================================================== *)

Module Polling.
Import Hooks.

(** The instants at which an interval timer started at [t] with period
    [interval] fires before [stop]. *)
Fixpoint ticks (fuel : nat) (interval t stop : Z) : list Z :=
  match fuel with
  | O => []
  | S fuel' =>
      let t' := t + interval in
      if t' <? stop then t' :: ticks fuel' interval t' stop else []
  end.

(** Modelled from the spec: the polling scheduler (the query library's
    handling of [refetchInterval], a dependency that is not under src/):
    "while subscriberCount(key) > 0, schedule ensureFresh(key, ...) every
    pollInterval", with one timer per key that is cancelled when the last
    subscriber leaves.  The key gains its first subscriber at
    [subscribedAt] and loses its last one at [unsubscribedAt]; the result
    is the list of instants at which a background refetch is scheduled.
    A hook without a positive [refetchInterval] is not polled. *)
Definition pollSchedule (o : QueryOptions) (subscribedAt unsubscribedAt : Z) : list Z :=
  match refetchInterval o with
  | Some interval =>
      if 0 <? interval
      then ticks (Z.to_nat ((unsubscribedAt - subscribedAt) / interval))
                 interval subscribedAt unsubscribedAt
      else []
  | None => []
  end.

End Polling.

(* ===================================================================== *)
(** * Logout and unauthorized responses *)
(* ===================================================================== *)

Module Session.
Import QueryClient.

(** [interface AuthUser] (and the identical [SessionUser]). *)
Record AuthUser : Type := mkAuthUser {
  user_id : string;
  email : string;
  first_name : string;
  last_name : string;
  company : option string;
  phone : option string;
  user_status : string;
  subscription_type : string;
  subscription_expires_at : option string;
  created_at : string;
  last_login : option string;
  login_count : Z
}.

(** The state part of [AuthState]. *)
Record AuthState : Type := mkAuthState {
  isAuthenticated : bool;
  user : option AuthUser;
  isLoading : bool;
  error : option string
}.

(** [interface SessionState], the [useState] of [useSession]. *)
Record SessionState : Type := mkSessionState {
  session_isLoading : bool;
  session_isAuthenticated : bool;
  session_user : option AuthUser;
  session_error : option string
}.

(** A JSON value: the body of a response as axios has parsed it. *)
#[warnings="-register-all"]
Inductive Json : Type :=
| JNull
| JBool (b : bool)
| JNumber (n : Q)
| JString (s : string)
| JArray (items : list Json)
| JObject (fields : gmap string Json).

(** [error.response]: its [status] and its [data], which is [undefined]
    for a response without a body. *)
Record AxiosResponse : Type := mkAxiosResponse {
  response_status : Z;
  response_data : option Json
}.

(** The [AxiosError] handed to the response interceptor; [response] is
    [undefined] when no response arrived. *)
Record AxiosError : Type := mkAxiosError {
  response : option AxiosResponse
}.

(** A value, or [undefined], used as a condition. *)
Definition truthyJson (v : option Json) : bool :=
  match v with
  | None | Some JNull => false
  | Some (JBool b) => b
  | Some (JNumber n) => negb (Qeq_bool n 0)
  | Some (JString s) => negb (String.eqb s "")
  | Some (JArray _) | Some (JObject _) => true
  end.

(** [v.key] on a value that is neither [null] nor [undefined], for a key
    that no prototype defines ([detail], [msg], [message]): the field of
    an object, [undefined] on anything else. *)
Definition getField (key : string) (v : Json) : option Json :=
  match v with
  | JObject fields => fields !! key
  | _ => None
  end.

(** [v?.key] *)
Definition optField (key : string) (v : option Json) : option Json :=
  match v with
  | None | Some JNull => None
  | Some v => getField key v
  end.

(** [a || b] *)
Definition orElse (a b : option Json) : option Json :=
  if truthyJson a then a else b.

Section ValidationMessage.

(** [String(v)], as [Array.prototype.join] applies it to an element
    that is neither [null] nor [undefined]. *)
Variable toText : Json → string.

Definition elementText (v : option Json) : string :=
  match v with
  | None | Some JNull => ""%string
  | Some v => toText v
  end.

(** api.ts, [extractValidationMessage]. [None] is the [TypeError] thrown
    by [err.msg] when an element of the [detail] array is [null]; a
    [detail] that is not an array is returned as it is. *)
Definition extractValidationMessage (errorData : option Json) : option Json :=
  let detail := optField "detail" errorData in
  if truthyJson detail then
    match detail with
    | Some (JArray items) =>
        parts ← mapM (λ err, match err with
                             | JNull => None
                             | _ => Some (orElse (getField "msg" err) (getField "message" err))
                             end) items;
        Some (JString (String.concat ", " (elementText <$> parts)))
    | _ => detail
    end
  else Some (JString "Dados inválidos fornecidos.").

End ValidationMessage.

Section Client.
Context {D : Type}.

(** Everything the three handlers can reach: the auth store, the session
    hook's state, [localStorage], the query cache of the [QueryClient],
    the titles of the toasts shown and the pending [setTimeout]s
    (delay in ms and the address [window.location.href] is set to). *)
Record Client : Type := mkClient {
  authStore : AuthState;
  sessionState : SessionState;
  localStorage : gmap string string;
  queryCache : gmap QueryKey (QueryState D);
  toasts : list string;
  timeouts : list (Z * string)
}.

(** The three [localStorage.removeItem] calls shared by the handlers. *)
Definition removeAuthItems (ls : gmap string string) : gmap string string :=
  delete "user_data"%string (delete "refresh_token"%string (delete "auth_token"%string ls)).

(** useAuthStore.ts, [actions.logout]. *)
Definition logout (w : Client) : Client :=
  mkClient (mkAuthState false None false None)
           (sessionState w)
           (removeAuthItems (localStorage w))
           (queryCache w) (toasts w) (timeouts w).

(** api.ts, [clearAuthToken]. *)
Definition clearAuthToken (w : Client) : Client :=
  mkClient (authStore w) (sessionState w) (removeAuthItems (localStorage w))
           (queryCache w) (toasts w) (timeouts w).

(** [toast({ title, ... })] *)
Definition toast (title : string) (w : Client) : Client :=
  mkClient (authStore w) (sessionState w) (localStorage w)
           (queryCache w) (toasts w ++ [title]) (timeouts w).

(** The session hook's [logoutSession]. *)
Definition logoutSession (w : Client) : Client :=
  let w1 := mkClient (authStore w) (mkSessionState false false None None)
                     (localStorage w) (queryCache w) (toasts w) (timeouts w) in
  toast "Logout Realizado" (clearAuthToken (logout w1)).

(** api.ts, [handleUnauthorized]. *)
Definition handleUnauthorized (w : Client) : Client :=
  let w1 := clearAuthToken w in
  let w2 := toast "Sessão Expirada" w1 in
  mkClient (authStore w2) (sessionState w2) (localStorage w2)
           (queryCache w2) (toasts w2) (timeouts w2 ++ [(2000, "/login"%string)]).

(** api.ts, the [switch (status)] of [handleGlobalError] with each
    branch's message at hand: the [case 401] calls [handleUnauthorized],
    the other statuses only show a toast. The message of the [case 422]
    comes from [extractValidationMessage], which can throw before the
    toast is shown: [onResponseError] below runs it first. *)
Definition handleGlobalError (status : Z) (w : Client) : Client :=
  if status =? 401 then handleUnauthorized w
  else if status =? 403 then toast "Acesso Negado" w
  else if status =? 404 then toast "Recurso Não Encontrado" w
  else if status =? 422 then toast "Erro de Validação" w
  else if status =? 500 then toast "Erro Interno do Servidor" w
  else if status =? 0 then toast "Erro de Conexão" w
  else toast "Erro" w.

(** api.ts, the error handler that [setupInterceptors] registers,
    [(error) => this.handleGlobalError(error)]: [handleGlobalError] as it
    runs on an [AxiosError], up to its [Promise.reject]. [status] is
    [error.response?.status || 0] and [errorData] is
    [error.response?.data]. The [case 422] computes its message before it
    shows the toast, so [None] is the [TypeError] of
    [extractValidationMessage], thrown before anything was done; no other
    branch can throw. *)
Definition onResponseError (toText : Json → string) (error : AxiosError)
    (w : Client) : option Client :=
  let status := default 0 (response_status <$> response error) in
  let errorData := response error ≫= response_data in
  if status =? 422
  then validationMessage ← extractValidationMessage toText errorData;
       Some (handleGlobalError status w)
  else Some (handleGlobalError status w).

(** [useCacheInvalidation().clearCache]: the one place that calls
    [queryClient.clear()]. *)
Definition clearCache (w : Client) : Client :=
  mkClient (authStore w) (sessionState w) (localStorage w)
           (clear (queryCache w)) (toasts w) (timeouts w).

End Client.
Arguments Client D : clear implicits.

End Session.

(* ===================================================================== *)
(** * useOptimizedStore.ts: derived data of the application store *)
(* ===================================================================== *)

Module OptimizedStore.
Import Types.

(** [Array.prototype.slice(start, end)] on integer indices: a negative
    index counts from the end, and both are clamped to the array. *)
Definition jsSlice {A : Type} (l : list A) (start end_ : Z) : list A :=
  let len := Z.of_nat (length l) in
  let k := if start <? 0 then Z.max (len + start) 0 else Z.min start len in
  let final := if end_ <? 0 then Z.max (len + end_) 0 else Z.min end_ len in
  take (Z.to_nat (final - k)) (drop (Z.to_nat k) l).

(** A string used as a condition: the empty string is falsy. *)
Definition truthy (s : option string) : bool :=
  match s with
  | Some s => negb (String.eqb s "")
  | None => false
  end.

(** [filters.tasks] *)
Record TaskFilters : Type := mkTaskFilters {
  filter_status : option string;
  filter_agentId : option string;
  filter_dateRange : option (string * string)
}.

(** [pagination.tasks], the two fields the hook reads. *)
Record TaskPagination : Type := mkTaskPagination {
  page : Z;
  pageSize : Z
}.

(** The slice of the store read by [useFilteredTasks]. *)
Record TaskSlice : Type := mkTaskSlice {
  tasks : list Task;
  taskFilters : TaskFilters;
  taskPagination : TaskPagination
}.

(** The object returned by [useFilteredTasks]. *)
Record FilteredTasks : Type := mkFilteredTasks {
  pageTasks : list Task;
  total : Z;
  hasNext : bool;
  hasPrevious : bool
}.

Section FilteredTasks.

(** [new Date(s).valueOf()]: the time value, [None] for an invalid date
    (NaN, for which every comparison is false). *)
Variable parseDate : string → option Z.

(** [a < b] on two [Date]s. *)
Definition dateLt (a b : option Z) : bool :=
  match a, b with
  | Some x, Some y => x <? y
  | _, _ => false
  end.

(** The callback of [tasks.filter]. *)
Definition taskPasses (f : TaskFilters) (task : Task) : bool :=
  if truthy (filter_status f) && negb (bool_decide (Some (task_status task) = filter_status f))
  then false
  else if truthy (filter_agentId f) && negb (bool_decide (Some (task_agentId task) = filter_agentId f))
  then false
  else match filter_dateRange f with
       | Some (start, end_) =>
           let taskDate := parseDate (task_createdAt task) in
           let startDate := parseDate start in
           let endDate := parseDate end_ in
           if dateLt taskDate startDate || dateLt endDate taskDate then false else true
       | None => true
       end.

(** The selector of [useFilteredTasks]. *)
Definition useFilteredTasks (state : TaskSlice) : FilteredTasks :=
  let filteredTasks := filter (λ task, taskPasses (taskFilters state) task = true) (tasks state) in
  let startIndex := (page (taskPagination state) - 1) * pageSize (taskPagination state) in
  let endIndex := startIndex + pageSize (taskPagination state) in
  let paginatedTasks := jsSlice filteredTasks startIndex endIndex in
  mkFilteredTasks paginatedTasks
                  (Z.of_nat (length filteredTasks))
                  (endIndex <? Z.of_nat (length filteredTasks))
                  (1 <? page (taskPagination state)).

End FilteredTasks.

(** The accumulator of the [reduce] in [useCampaignMetrics]. *)
Record Totals : Type := mkTotals {
  totalBudget : Q;
  totalSpent : Q;
  totalImpressions : Q;
  totalClicks : Q;
  totalConversions : Q
}.

(** The object returned by [useCampaignMetrics]. *)
Record CampaignMetrics : Type := mkCampaignMetrics {
  metrics : Totals;
  activeCampaigns : nat;
  avgCTR : Q;
  avgCVR : Q;
  budgetUtilization : Q
}.

(** [x > 0] *)
Definition positive (x : Q) : bool := negb (Qle_bool x 0).

(** [a / b], with the division made partial: [None] records that the
    divisor was zero. *)
Definition divide (a b : Q) : option Q :=
  if Qeq_bool b 0 then None else Some (a / b)%Q.

(** [den > 0 ? (num / den) * 100 : 0] *)
Definition percentage (num den : Q) : option Q :=
  if positive den then (λ q, q * 100)%Q <$> divide num den else Some 0%Q.

(** [c.status === 'active'] *)
Definition isActive (c : Campaign) : Prop := campaign_status c = "active"%string.

(** The reducer and its initial value. *)
Definition addCampaign (acc : Totals) (campaign : Campaign) : Totals :=
  mkTotals (totalBudget acc + budget campaign)%Q
           (totalSpent acc + spent campaign)%Q
           (totalImpressions acc + impressions campaign)%Q
           (totalClicks acc + clicks campaign)%Q
           (totalConversions acc + conversions campaign)%Q.

Definition zeroTotals : Totals := mkTotals 0%Q 0%Q 0%Q 0%Q 0%Q.

(** The selector of [useCampaignMetrics]; [None] means that one of the
    three divisions was executed with a zero divisor. *)
Definition useCampaignMetrics (campaigns : list Campaign) : option CampaignMetrics :=
  let activeCampaigns := filter isActive campaigns in
  let metrics := foldl addCampaign zeroTotals activeCampaigns in
  ctr ← percentage (totalClicks metrics) (totalImpressions metrics);
  cvr ← percentage (totalConversions metrics) (totalClicks metrics);
  utilization ← percentage (totalSpent metrics) (totalBudget metrics);
  Some (mkCampaignMetrics metrics (length activeCampaigns) ctr cvr utilization).

End OptimizedStore.

(* ===================================================================== *)
(** * The fetch coordinator of the specification *)
(* ===================================================================== *)

Module FetchCoordinator.

Inductive Status : Type := Idle | Fetching | Success | Error.

Section Entry.
Context {D : Type}.

(** Modelled from the spec: the [CacheEntry] of section 3 together with
    the per-key generation counter of section 4.2 (the entries are kept
    by the query library, a dependency that is not under src/). *)
Record CacheEntry : Type := mkEntry {
  data : option D;
  status : Status;
  error : option Retryer.ApiError;
  fetchedAt : option Z;
  staleAfter : Z;
  gcAfter : Z;
  subscriberCount : nat;
  generation : nat
}.

(** Modelled from the spec: "Entry is stale iff now - fetchedAt >
    staleAfter"; an entry that was never fetched has nothing fresh. *)
Definition isStale (now : Z) (e : CacheEntry) : bool :=
  match fetchedAt e with
  | Some t => staleAfter e <? now - t
  | None => true
  end.

(** What [ensureFresh] did about the network. *)
Inductive Action : Type :=
| JoinInFlight
| ServeCached
| StartFetch (gen : nat).

(** Modelled from the spec: [ensureFresh(key, fetchFn, options)] of
    section 4.2, steps 1 to 3, on the entry of the key (the coordinator
    is the query library, a dependency that is not under src/).  It
    returns what the caller sees at once, the action taken and the entry
    afterwards: a fetching entry is joined; a fresh success is served
    from the cache; otherwise a fetch is started under the next
    generation and the entry is marked fetching, "retaining old data if
    present for stale-while-revalidate display". *)
Definition ensureFresh (now : Z) (e : CacheEntry) : option D * Action * CacheEntry :=
  match status e with
  | Fetching => (data e, JoinInFlight, e)
  | Success =>
      if isStale now e
      then (data e, StartFetch (S (generation e)),
            mkEntry (data e) Fetching (error e) (fetchedAt e) (staleAfter e)
                    (gcAfter e) (subscriberCount e) (S (generation e)))
      else (data e, ServeCached, e)
  | Idle | Error =>
      (data e, StartFetch (S (generation e)),
       mkEntry (data e) Fetching (error e) (fetchedAt e) (staleAfter e)
               (gcAfter e) (subscriberCount e) (S (generation e)))
  end.

(** Modelled from the spec: steps 4 and 5 of section 4.2, the settlement
    of the fetch started under generation [gen]: a completion whose
    generation is not the current one is discarded; a success is
    [cache.set] (success, [fetchedAt = now], error cleared); a failure,
    once the retries are exhausted, is [cache.setError], which keeps the
    last good data. *)
Definition settleFetch (now : Z) (gen : nat) (result : Retryer.ApiError + D)
    (e : CacheEntry) : CacheEntry :=
  if bool_decide (gen = generation e)
  then match result with
       | inr d => mkEntry (Some d) Success None (Some now) (staleAfter e)
                          (gcAfter e) (subscriberCount e) (generation e)
       | inl err => mkEntry (data e) Error (Some err) (fetchedAt e) (staleAfter e)
                            (gcAfter e) (subscriberCount e) (generation e)
       end
  else e.

(** Requests made one after the other at the given instants: what each
    caller saw and did, and the entry at the end. *)
Fixpoint ensureFreshAll (nows : list Z) (e : CacheEntry)
    : list (option D * Action) * CacheEntry :=
  match nows with
  | [] => ([], e)
  | now :: rest =>
      let '(seen, act, e1) := ensureFresh now e in
      let '(log, e2) := ensureFreshAll rest e1 in
      ((seen, act) :: log, e2)
  end.

(** An entry configured by a hook's options: [staleTime] is its
    staleness window and [gcTime] its eviction delay. *)
Definition entryFor (o : Hooks.QueryOptions) (d : option D) (s : Status)
    (fetched : option Z) (subscribers : nat) : option CacheEntry :=
  stale ← Hooks.staleTime o;
  gc ← Hooks.gcTime o;
  Some (mkEntry d s None fetched stale gc subscribers 0).

End Entry.
Arguments CacheEntry D : clear implicits.

End FetchCoordinator.

(* ===================================================================== *)
(** * stores/useAppStore.ts: the application store and its actions *)
(* ===================================================================== *)

Module AppStore.
Import Types.

(** [interface User] *)
Record User : Type := mkUser {
  user_id : string;
  user_email : string;
  firstName : string;
  lastName : string;
  user_company : option string;
  user_status : string;
  subscriptionType : string;
  subscriptionExpiresAt : option string;
  lastLogin : option string;
  loginCount : Z;
  user_createdAt : string;
  user_updatedAt : string
}.

(** [interface Notification] *)
Record Notification : Type := mkNotification {
  notif_id : string;
  notif_type : string;
  notif_title : string;
  notif_message : string;
  read : bool;
  notif_createdAt : string;
  expiresAt : option string
}.

(** [Omit<Notification, 'id' | 'createdAt'>], the argument of
    [addNotification]. *)
Record NewNotification : Type := mkNewNotification {
  new_type : string;
  new_title : string;
  new_message : string;
  new_read : bool;
  new_expiresAt : option string
}.

(** [interface LoadingState] and its keys. *)
Record LoadingState : Type := mkLoadingState {
  loading_user : bool;
  loading_agents : bool;
  loading_tasks : bool;
  loading_campaigns : bool;
  loading_dashboard : bool
}.

Inductive LoadingKey : Type :=
| KeyUser | KeyAgents | KeyTasks | KeyCampaigns | KeyDashboard.

(** [interface PaginationState] *)
Record PaginationState : Type := mkPaginationState {
  page : Z;
  pageSize : Z;
  total : Z;
  hasNext : bool;
  hasPrevious : bool
}.

(** [FilterState['agents']] and [FilterState['campaigns']]. *)
Record AgentFilters : Type := mkAgentFilters {
  agents_status : option string;
  agents_type : option string;
  agents_search : option string
}.

Record CampaignFilters : Type := mkCampaignFilters {
  campaigns_status : option string;
  campaigns_platform : option string;
  campaigns_search : option string
}.

(** [interface AppSettings] *)
Record AppSettings : Type := mkAppSettings {
  theme : string;
  language : string;
  notifyEmail : bool;
  notifyPush : bool;
  notifyDesktop : bool;
  refreshInterval : Z;
  defaultView : string
}.

(** [interface UIState] *)
Record UIState : Type := mkUIState {
  sidebarOpen : bool;
  sidebarCollapsed : bool;
  activeModal : option string;
  activeSheet : option string;
  breadcrumbs : list (string * option string)
}.

(** [interface RealtimeMetrics] *)
Record RealtimeMetrics : Type := mkRealtimeMetrics {
  metrics_activeAgents : Z;
  metrics_runningTasks : Z;
  metrics_todayTasks : Z;
  metrics_todayRevenue : Q;
  lastUpdated : string
}.

(** [interface AppState] without its [actions]; [filters] and
    [pagination] are laid out field by field. *)
Record AppState : Type := mkAppState {
  user : option User;
  isAuthenticated : bool;
  agents : list Agent;
  tasks : list Task;
  campaigns : list Campaign;
  notifications : list Notification;
  loading : LoadingState;
  errors : gmap string string;
  agentFilters : AgentFilters;
  taskFilters : OptimizedStore.TaskFilters;
  campaignFilters : CampaignFilters;
  agentPagination : PaginationState;
  taskPagination : PaginationState;
  campaignPagination : PaginationState;
  settings : AppSettings;
  ui : UIState;
  metrics : RealtimeMetrics
}.

(** Assignment to one field of the draft state. *)
Definition with_user (f : option User → option User) (s : AppState) : AppState :=
  mkAppState (f (user s)) (isAuthenticated s) (agents s) (tasks s) (campaigns s) (notifications s) (loading s) (errors s) (agentFilters s) (taskFilters s) (campaignFilters s) (agentPagination s) (taskPagination s) (campaignPagination s) (settings s) (ui s) (metrics s).

Definition with_isAuthenticated (f : bool → bool) (s : AppState) : AppState :=
  mkAppState (user s) (f (isAuthenticated s)) (agents s) (tasks s) (campaigns s) (notifications s) (loading s) (errors s) (agentFilters s) (taskFilters s) (campaignFilters s) (agentPagination s) (taskPagination s) (campaignPagination s) (settings s) (ui s) (metrics s).

Definition with_agents (f : list Agent → list Agent) (s : AppState) : AppState :=
  mkAppState (user s) (isAuthenticated s) (f (agents s)) (tasks s) (campaigns s) (notifications s) (loading s) (errors s) (agentFilters s) (taskFilters s) (campaignFilters s) (agentPagination s) (taskPagination s) (campaignPagination s) (settings s) (ui s) (metrics s).

Definition with_tasks (f : list Task → list Task) (s : AppState) : AppState :=
  mkAppState (user s) (isAuthenticated s) (agents s) (f (tasks s)) (campaigns s) (notifications s) (loading s) (errors s) (agentFilters s) (taskFilters s) (campaignFilters s) (agentPagination s) (taskPagination s) (campaignPagination s) (settings s) (ui s) (metrics s).

Definition with_campaigns (f : list Campaign → list Campaign) (s : AppState) : AppState :=
  mkAppState (user s) (isAuthenticated s) (agents s) (tasks s) (f (campaigns s)) (notifications s) (loading s) (errors s) (agentFilters s) (taskFilters s) (campaignFilters s) (agentPagination s) (taskPagination s) (campaignPagination s) (settings s) (ui s) (metrics s).

Definition with_notifications (f : list Notification → list Notification) (s : AppState) : AppState :=
  mkAppState (user s) (isAuthenticated s) (agents s) (tasks s) (campaigns s) (f (notifications s)) (loading s) (errors s) (agentFilters s) (taskFilters s) (campaignFilters s) (agentPagination s) (taskPagination s) (campaignPagination s) (settings s) (ui s) (metrics s).

Definition with_loading (f : LoadingState → LoadingState) (s : AppState) : AppState :=
  mkAppState (user s) (isAuthenticated s) (agents s) (tasks s) (campaigns s) (notifications s) (f (loading s)) (errors s) (agentFilters s) (taskFilters s) (campaignFilters s) (agentPagination s) (taskPagination s) (campaignPagination s) (settings s) (ui s) (metrics s).

Definition with_errors (f : gmap string string → gmap string string) (s : AppState) : AppState :=
  mkAppState (user s) (isAuthenticated s) (agents s) (tasks s) (campaigns s) (notifications s) (loading s) (f (errors s)) (agentFilters s) (taskFilters s) (campaignFilters s) (agentPagination s) (taskPagination s) (campaignPagination s) (settings s) (ui s) (metrics s).

Definition with_agentFilters (f : AgentFilters → AgentFilters) (s : AppState) : AppState :=
  mkAppState (user s) (isAuthenticated s) (agents s) (tasks s) (campaigns s) (notifications s) (loading s) (errors s) (f (agentFilters s)) (taskFilters s) (campaignFilters s) (agentPagination s) (taskPagination s) (campaignPagination s) (settings s) (ui s) (metrics s).

Definition with_taskFilters (f : OptimizedStore.TaskFilters → OptimizedStore.TaskFilters) (s : AppState) : AppState :=
  mkAppState (user s) (isAuthenticated s) (agents s) (tasks s) (campaigns s) (notifications s) (loading s) (errors s) (agentFilters s) (f (taskFilters s)) (campaignFilters s) (agentPagination s) (taskPagination s) (campaignPagination s) (settings s) (ui s) (metrics s).

Definition with_campaignFilters (f : CampaignFilters → CampaignFilters) (s : AppState) : AppState :=
  mkAppState (user s) (isAuthenticated s) (agents s) (tasks s) (campaigns s) (notifications s) (loading s) (errors s) (agentFilters s) (taskFilters s) (f (campaignFilters s)) (agentPagination s) (taskPagination s) (campaignPagination s) (settings s) (ui s) (metrics s).

Definition with_agentPagination (f : PaginationState → PaginationState) (s : AppState) : AppState :=
  mkAppState (user s) (isAuthenticated s) (agents s) (tasks s) (campaigns s) (notifications s) (loading s) (errors s) (agentFilters s) (taskFilters s) (campaignFilters s) (f (agentPagination s)) (taskPagination s) (campaignPagination s) (settings s) (ui s) (metrics s).

Definition with_taskPagination (f : PaginationState → PaginationState) (s : AppState) : AppState :=
  mkAppState (user s) (isAuthenticated s) (agents s) (tasks s) (campaigns s) (notifications s) (loading s) (errors s) (agentFilters s) (taskFilters s) (campaignFilters s) (agentPagination s) (f (taskPagination s)) (campaignPagination s) (settings s) (ui s) (metrics s).

Definition with_campaignPagination (f : PaginationState → PaginationState) (s : AppState) : AppState :=
  mkAppState (user s) (isAuthenticated s) (agents s) (tasks s) (campaigns s) (notifications s) (loading s) (errors s) (agentFilters s) (taskFilters s) (campaignFilters s) (agentPagination s) (taskPagination s) (f (campaignPagination s)) (settings s) (ui s) (metrics s).

Definition with_settings (f : AppSettings → AppSettings) (s : AppState) : AppState :=
  mkAppState (user s) (isAuthenticated s) (agents s) (tasks s) (campaigns s) (notifications s) (loading s) (errors s) (agentFilters s) (taskFilters s) (campaignFilters s) (agentPagination s) (taskPagination s) (campaignPagination s) (f (settings s)) (ui s) (metrics s).

Definition with_ui (f : UIState → UIState) (s : AppState) : AppState :=
  mkAppState (user s) (isAuthenticated s) (agents s) (tasks s) (campaigns s) (notifications s) (loading s) (errors s) (agentFilters s) (taskFilters s) (campaignFilters s) (agentPagination s) (taskPagination s) (campaignPagination s) (settings s) (f (ui s)) (metrics s).

Definition with_metrics (f : RealtimeMetrics → RealtimeMetrics) (s : AppState) : AppState :=
  mkAppState (user s) (isAuthenticated s) (agents s) (tasks s) (campaigns s) (notifications s) (loading s) (errors s) (agentFilters s) (taskFilters s) (campaignFilters s) (agentPagination s) (taskPagination s) (campaignPagination s) (settings s) (ui s) (f (metrics s)).

(** [initialState]; [loadedAt] is the clock read when the module is
    loaded. *)
Definition initialState (loadedAt : string) : AppState :=
  mkAppState None false [] [] [] []
             (mkLoadingState false false false false false) ∅
             (mkAgentFilters None None None)
             (OptimizedStore.mkTaskFilters None None None)
             (mkCampaignFilters None None None)
             (mkPaginationState 1 20 0 false false)
             (mkPaginationState 1 20 0 false false)
             (mkPaginationState 1 20 0 false false)
             (mkAppSettings "system" "en" true true false 30000 "overview")
             (mkUIState true false None None [])
             (mkRealtimeMetrics 0 0 0 0%Q loadedAt).

(** [const index = list.findIndex(p); if (index !== -1)
    Object.assign(list[index], updates)]; [updates] stands as the
    function [Object.assign(_, updates)]. *)
Definition assignFirst {A : Type} (P : A → Prop) `{!∀ x, Decision (P x)}
    (updates : A → A) (l : list A) : list A :=
  match list_find P l with
  | Some (index, _) => alter updates index l
  | None => l
  end.

(** [setUser]: [state.isAuthenticated = !!user]. *)
Definition setUser (u : option User) (s : AppState) : AppState :=
  with_isAuthenticated (λ _, match u with Some _ => true | None => false end)
    (with_user (λ _, u) s).

(** [updateUser]: [if (state.user) Object.assign(state.user, updates)]. *)
Definition updateUser (updates : User → User) (s : AppState) : AppState :=
  with_user (fmap updates) s.

(** [logout] *)
Definition logout (s : AppState) : AppState :=
  with_notifications (λ _, [])
    (with_campaigns (λ _, [])
       (with_tasks (λ _, [])
          (with_agents (λ _, [])
             (with_isAuthenticated (λ _, false) (with_user (λ _, None) s))))).

Definition setAgents (l : list Agent) (s : AppState) : AppState := with_agents (λ _, l) s.

(** [state.agents.push(agent)] *)
Definition addAgent (agent : Agent) (s : AppState) : AppState :=
  with_agents (λ l, l ++ [agent]) s.

Definition updateAgent (id : string) (updates : Agent → Agent) (s : AppState) : AppState :=
  with_agents (assignFirst (λ a, agent_id a = id) updates) s.

(** [state.agents.filter((a) => a.id !== id)] *)
Definition removeAgent (id : string) (s : AppState) : AppState :=
  with_agents (filter (λ a, agent_id a ≠ id)) s.

Definition setTasks (l : list Task) (s : AppState) : AppState := with_tasks (λ _, l) s.

(** [state.tasks.unshift(task)] *)
Definition addTask (task : Task) (s : AppState) : AppState :=
  with_tasks (λ l, task :: l) s.

Definition updateTask (id : string) (updates : Task → Task) (s : AppState) : AppState :=
  with_tasks (assignFirst (λ t, task_id t = id) updates) s.

Definition removeTask (id : string) (s : AppState) : AppState :=
  with_tasks (filter (λ t, task_id t ≠ id)) s.

Definition setCampaigns (l : list Campaign) (s : AppState) : AppState :=
  with_campaigns (λ _, l) s.

Definition addCampaign (campaign : Campaign) (s : AppState) : AppState :=
  with_campaigns (λ l, l ++ [campaign]) s.

Definition updateCampaign (id : string) (updates : Campaign → Campaign) (s : AppState) : AppState :=
  with_campaigns (assignFirst (λ c, campaign_id c = id) updates) s.

Definition removeCampaign (id : string) (s : AppState) : AppState :=
  with_campaigns (filter (λ c, campaign_id c ≠ id)) s.

(** [{ ...notification, id: crypto.randomUUID(), read: false,
    createdAt: new Date().toISOString() }] *)
Definition newNotification (n : NewNotification) (uuid now : string) : Notification :=
  mkNotification uuid (new_type n) (new_title n) (new_message n) false now (new_expiresAt n).

(** [addNotification]: unshift, then keep the first 50 when there are
    more. [uuid] and [now] are the random id and the clock it reads. *)
Definition addNotification (n : NewNotification) (uuid now : string) (s : AppState) : AppState :=
  with_notifications
    (λ l, let l' := newNotification n uuid now :: l in
          if 50 <? Z.of_nat (length l') then OptimizedStore.jsSlice l' 0 50 else l') s.

(** [notification.read = true] *)
Definition markRead (n : Notification) : Notification :=
  mkNotification (notif_id n) (notif_type n) (notif_title n) (notif_message n) true
                 (notif_createdAt n) (expiresAt n).

(** [markNotificationRead]: [find] the first notification with the id
    and mark it. *)
Definition markNotificationRead (id : string) (s : AppState) : AppState :=
  with_notifications (assignFirst (λ n, notif_id n = id) markRead) s.

Definition removeNotification (id : string) (s : AppState) : AppState :=
  with_notifications (filter (λ n, notif_id n ≠ id)) s.

Definition clearNotifications (s : AppState) : AppState := with_notifications (λ _, []) s.

(** [state.loading[key] = value] *)
Definition setLoading (key : LoadingKey) (value : bool) (s : AppState) : AppState :=
  with_loading
    (λ l, match key with
          | KeyUser => mkLoadingState value (loading_agents l) (loading_tasks l)
                                      (loading_campaigns l) (loading_dashboard l)
          | KeyAgents => mkLoadingState (loading_user l) value (loading_tasks l)
                                        (loading_campaigns l) (loading_dashboard l)
          | KeyTasks => mkLoadingState (loading_user l) (loading_agents l) value
                                       (loading_campaigns l) (loading_dashboard l)
          | KeyCampaigns => mkLoadingState (loading_user l) (loading_agents l) (loading_tasks l)
                                           value (loading_dashboard l)
          | KeyDashboard => mkLoadingState (loading_user l) (loading_agents l) (loading_tasks l)
                                           (loading_campaigns l) value
          end) s.

(** [setError]: a truthy error is stored under the key, anything else
    deletes the key. *)
Definition setError (key : string) (error : option string) (s : AppState) : AppState :=
  with_errors
    (λ m, match error with
          | Some e => if OptimizedStore.truthy (Some e) then <[key := e]> m else delete key m
          | None => delete key m
          end) s.

Definition clearErrors (s : AppState) : AppState := with_errors (λ _, ∅) s.

(** [Object.assign(state.filters.tasks, filters)] and its siblings. *)
Definition setAgentFilters (filters : AgentFilters → AgentFilters) (s : AppState) : AppState :=
  with_agentFilters filters s.

Definition setTaskFilters (filters : OptimizedStore.TaskFilters → OptimizedStore.TaskFilters)
    (s : AppState) : AppState :=
  with_taskFilters filters s.

Definition setCampaignFilters (filters : CampaignFilters → CampaignFilters)
    (s : AppState) : AppState :=
  with_campaignFilters filters s.

Definition clearFilters (s : AppState) : AppState :=
  with_campaignFilters (λ _, mkCampaignFilters None None None)
    (with_taskFilters (λ _, OptimizedStore.mkTaskFilters None None None)
       (with_agentFilters (λ _, mkAgentFilters None None None) s)).

Definition setAgentPagination (pagination : PaginationState → PaginationState)
    (s : AppState) : AppState :=
  with_agentPagination pagination s.

Definition setTaskPagination (pagination : PaginationState → PaginationState)
    (s : AppState) : AppState :=
  with_taskPagination pagination s.

Definition setCampaignPagination (pagination : PaginationState → PaginationState)
    (s : AppState) : AppState :=
  with_campaignPagination pagination s.

Definition updateSettings (updates : AppSettings → AppSettings) (s : AppState) : AppState :=
  with_settings updates s.

Definition toggleSidebar (s : AppState) : AppState :=
  with_ui (λ u, mkUIState (negb (sidebarOpen u)) (sidebarCollapsed u) (activeModal u)
                          (activeSheet u) (breadcrumbs u)) s.

Definition setSidebarCollapsed (collapsed : bool) (s : AppState) : AppState :=
  with_ui (λ u, mkUIState (sidebarOpen u) collapsed (activeModal u)
                          (activeSheet u) (breadcrumbs u)) s.

Definition openModal (modalId : string) (s : AppState) : AppState :=
  with_ui (λ u, mkUIState (sidebarOpen u) (sidebarCollapsed u) (Some modalId)
                          (activeSheet u) (breadcrumbs u)) s.

Definition closeModal (s : AppState) : AppState :=
  with_ui (λ u, mkUIState (sidebarOpen u) (sidebarCollapsed u) None
                          (activeSheet u) (breadcrumbs u)) s.

(** [updateMetrics]: the update, then [lastUpdated] from the clock. *)
Definition updateMetrics (updates : RealtimeMetrics → RealtimeMetrics) (now : string)
    (s : AppState) : AppState :=
  with_metrics (λ m, let m' := updates m in
                     mkRealtimeMetrics (metrics_activeAgents m') (metrics_runningTasks m')
                                       (metrics_todayTasks m') (metrics_todayRevenue m') now) s.

(** [reset] *)
Definition reset (loadedAt : string) (s : AppState) : AppState := initialState loadedAt.

(** The calls a component can make on the store. *)
Inductive Action : Type :=
| ASetUser (u : option User)
| AUpdateUser (updates : User → User)
| ALogout
| ASetAgents (l : list Agent)
| AAddAgent (a : Agent)
| AUpdateAgent (id : string) (updates : Agent → Agent)
| ARemoveAgent (id : string)
| ASetTasks (l : list Task)
| AAddTask (t : Task)
| AUpdateTask (id : string) (updates : Task → Task)
| ARemoveTask (id : string)
| ASetCampaigns (l : list Campaign)
| AAddCampaign (c : Campaign)
| AUpdateCampaign (id : string) (updates : Campaign → Campaign)
| ARemoveCampaign (id : string)
| AAddNotification (n : NewNotification) (uuid now : string)
| AMarkNotificationRead (id : string)
| ARemoveNotification (id : string)
| AClearNotifications
| ASetLoading (key : LoadingKey) (value : bool)
| ASetError (key : string) (error : option string)
| AClearErrors
| ASetAgentFilters (f : AgentFilters → AgentFilters)
| ASetTaskFilters (f : OptimizedStore.TaskFilters → OptimizedStore.TaskFilters)
| ASetCampaignFilters (f : CampaignFilters → CampaignFilters)
| AClearFilters
| ASetAgentPagination (f : PaginationState → PaginationState)
| ASetTaskPagination (f : PaginationState → PaginationState)
| ASetCampaignPagination (f : PaginationState → PaginationState)
| AUpdateSettings (f : AppSettings → AppSettings)
| AToggleSidebar
| ASetSidebarCollapsed (collapsed : bool)
| AOpenModal (modalId : string)
| ACloseModal
| AUpdateMetrics (f : RealtimeMetrics → RealtimeMetrics) (now : string)
| AReset.

Definition step (loadedAt : string) (s : AppState) (a : Action) : AppState :=
  match a with
  | ASetUser u => setUser u s
  | AUpdateUser f => updateUser f s
  | ALogout => logout s
  | ASetAgents l => setAgents l s
  | AAddAgent a => addAgent a s
  | AUpdateAgent id f => updateAgent id f s
  | ARemoveAgent id => removeAgent id s
  | ASetTasks l => setTasks l s
  | AAddTask t => addTask t s
  | AUpdateTask id f => updateTask id f s
  | ARemoveTask id => removeTask id s
  | ASetCampaigns l => setCampaigns l s
  | AAddCampaign c => addCampaign c s
  | AUpdateCampaign id f => updateCampaign id f s
  | ARemoveCampaign id => removeCampaign id s
  | AAddNotification n uuid now => addNotification n uuid now s
  | AMarkNotificationRead id => markNotificationRead id s
  | ARemoveNotification id => removeNotification id s
  | AClearNotifications => clearNotifications s
  | ASetLoading key value => setLoading key value s
  | ASetError key error => setError key error s
  | AClearErrors => clearErrors s
  | ASetAgentFilters f => setAgentFilters f s
  | ASetTaskFilters f => setTaskFilters f s
  | ASetCampaignFilters f => setCampaignFilters f s
  | AClearFilters => clearFilters s
  | ASetAgentPagination f => setAgentPagination f s
  | ASetTaskPagination f => setTaskPagination f s
  | ASetCampaignPagination f => setCampaignPagination f s
  | AUpdateSettings f => updateSettings f s
  | AToggleSidebar => toggleSidebar s
  | ASetSidebarCollapsed c => setSidebarCollapsed c s
  | AOpenModal m => openModal m s
  | ACloseModal => closeModal s
  | AUpdateMetrics f now => updateMetrics f now s
  | AReset => reset loadedAt s
  end.

Definition run (loadedAt : string) (actions : list Action) : AppState :=
  foldl (step loadedAt) (initialState loadedAt) actions.

(** [!!state.user] *)
Definition signedIn (s : AppState) : bool :=
  match user s with Some _ => true | None => false end.

(** The part of the state read by [useFilteredTasks]. *)
Definition taskSlice (s : AppState) : OptimizedStore.TaskSlice :=
  OptimizedStore.mkTaskSlice (tasks s) (taskFilters s)
    (OptimizedStore.mkTaskPagination (page (taskPagination s)) (pageSize (taskPagination s))).

Section ExpiredNotifications.

(** [new Date(s).valueOf()], [None] for an invalid date. *)
Variable parseDate : string → option Z.

(** [notification.expiresAt && new Date(notification.expiresAt) < now] *)
Definition expired (now : option Z) (n : Notification) : bool :=
  match expiresAt n with
  | Some e => OptimizedStore.truthy (Some e) && OptimizedStore.dateLt (parseDate e) now
  | None => false
  end.

(** AppProvider.tsx, the body of the one-minute interval: it walks the
    notifications read at the start and calls [removeNotification] for
    each expired one. *)
Definition cleanupExpired (now : option Z) (s : AppState) : AppState :=
  foldl (λ s' n, if expired now n then removeNotification (notif_id n) s' else s')
        s (notifications s).

End ExpiredNotifications.

End AppStore.

(* ===================================================================== *)
(** * useOptimizedStore.ts: the other selectors *)
(* ===================================================================== *)

Module StoreSelectors.
Import Types.

(** [s.includes(sub)] *)
Fixpoint includes (s sub : string) : bool :=
  if String.prefix sub s then true
  else match s with
       | EmptyString => false
       | String _ rest => includes rest sub
       end.

Section FilteredAgents.

(** [String.prototype.toLowerCase] *)
Variable toLowerCase : string → string.

(** The callback of [agents.filter] in [useFilteredAgents]. *)
Definition agentPasses (f : AppStore.AgentFilters) (agent : Agent) : bool :=
  if OptimizedStore.truthy (AppStore.agents_status f)
     && negb (bool_decide (Some (agent_status agent) = AppStore.agents_status f))
  then false
  else if OptimizedStore.truthy (AppStore.agents_type f)
          && negb (bool_decide (Some (agent_type agent) = AppStore.agents_type f))
  then false
  else match AppStore.agents_search f with
       | Some search =>
           if OptimizedStore.truthy (Some search)
           then let searchLower := toLowerCase search in
                includes (toLowerCase (agent_name agent)) searchLower
                || includes (toLowerCase (agent_type agent)) searchLower
                || match agent_description agent with
                   | Some d => includes (toLowerCase d) searchLower
                   | None => false
                   end
           else true
       | None => true
       end.

(** The selector of [useFilteredAgents]. *)
Definition useFilteredAgents (state : AppStore.AppState) : list Agent :=
  filter (λ agent, agentPasses (AppStore.agentFilters state) agent = true)
         (AppStore.agents state).

End FilteredAgents.

(** The object returned by [useUnreadNotifications]. *)
Record UnreadNotifications : Type := mkUnreadNotifications {
  unread : list AppStore.Notification;
  count : nat;
  hasUnread : bool
}.

Definition useUnreadNotifications (state : AppStore.AppState) : UnreadNotifications :=
  let unread := filter (λ n, AppStore.read n = false) (AppStore.notifications state) in
  mkUnreadNotifications unread (length unread) (bool_decide (0 < length unread)%nat).

(** The object returned by [useErrorState(keys)]: the error of each
    requested key and [hasAnyError]. *)
Record ErrorStates : Type := mkErrorStates {
  errorStates : list (string * option string);
  hasAnyError : bool
}.

Definition useErrorState (keys : list string) (state : AppStore.AppState) : ErrorStates :=
  let errorStates := (λ key, (key, AppStore.errors state !! key)) <$> keys in
  mkErrorStates errorStates (existsb (λ kv, OptimizedStore.truthy kv.2) errorStates).

(** The object returned by [useAgentPerformance]. *)
Record AgentPerformance : Type := mkAgentPerformance {
  perf_agent : Agent;
  totalTasks : nat;
  completedTasks : nat;
  failedTasks : nat;
  successRate : Q;
  avgExecutionTime : Q;
  isActive : bool;
  perf_lastActivity : option string
}.

(** [completedTasks.reduce((sum, task) => sum + (task.executionTime || 0), 0)] *)
Definition sumExecutionTime (l : list Task) : Q :=
  foldl (λ sum task, sum + inject_Z (default 0%Z (task_executionTime task)))%Q 0%Q l.

(** [n > 0 ? total / n : 0], with the division made partial as in
    [OptimizedStore.divide]. *)
Definition average (total : Q) (n : nat) : option Q :=
  if bool_decide (0 < n)%nat
  then OptimizedStore.divide total (inject_Z (Z.of_nat n))
  else Some 0%Q.

(** The selector of [useAgentPerformance(agentId)]. The outer [None]
    means that a division was executed with a zero divisor; the inner
    [None] is the [null] the selector returns. *)
Definition useAgentPerformance (agentId : option string) (state : AppStore.AppState)
    : option (option AgentPerformance) :=
  match agentId with
  | None => Some None
  | Some id =>
      if negb (OptimizedStore.truthy (Some id)) then Some None
      else match list_find (λ a, agent_id a = id) (AppStore.agents state) with
           | None => Some None
           | Some (_, agent) =>
               let agentTasks := filter (λ t, task_agentId t = id) (AppStore.tasks state) in
               let completedTasks := filter (λ t, task_status t = "completed"%string) agentTasks in
               let failedTasks := filter (λ t, task_status t = "failed"%string) agentTasks in
               avgExecutionTime ← average (sumExecutionTime completedTasks) (length completedTasks);
               successRate ← OptimizedStore.percentage
                                (inject_Z (Z.of_nat (length completedTasks)))
                                (inject_Z (Z.of_nat (length agentTasks)));
               Some (Some (mkAgentPerformance agent (length agentTasks) (length completedTasks)
                             (length failedTasks) successRate avgExecutionTime
                             (bool_decide (agent_status agent = "active"%string))
                             (agent_lastActivity agent)))
           end
  end.

End StoreSelectors.

(* ===================================================================== *)
(** * stores/useAuthStore.ts: the other actions and selectors *)
(* ===================================================================== *)

Module AuthStore.
Import Session.

(** [initialState] *)
Definition initialState : AuthState := mkAuthState false None false None.

(** [setUser]: stores the user and clears the error. *)
Definition setUser (u : AuthUser) (s : AuthState) : AuthState :=
  mkAuthState (isAuthenticated s) (Some u) (isLoading s) None.

(** [setIsAuthenticated]: signing out also drops the user. *)
Definition setIsAuthenticated (b : bool) (s : AuthState) : AuthState :=
  mkAuthState b (if b then user s else None) (isLoading s) (error s).

Definition setLoading (b : bool) (s : AuthState) : AuthState :=
  mkAuthState (isAuthenticated s) (user s) b (error s).

Definition setError (e : option string) (s : AuthState) : AuthState :=
  mkAuthState (isAuthenticated s) (user s) (isLoading s) e.

(** [updateUser]; [updates] stands as [Object.assign(_, updates)]. *)
Definition updateUser (updates : AuthUser → AuthUser) (s : AuthState) : AuthState :=
  mkAuthState (isAuthenticated s) (updates <$> user s) (isLoading s) (error s).

(** [reset]: [Object.assign(state, initialState)]. *)
Definition reset (s : AuthState) : AuthState := initialState.

(** The object returned by [useUserPermissions]. *)
Record Permissions : Type := mkPermissions {
  canCreateAgents : bool;
  canCreateCampaigns : bool;
  canAccessAnalytics : bool;
  canManageTeam : bool;
  maxAgents : Z;
  maxCampaigns : Z
}.

(** [['pro', 'enterprise'].includes(subscriptionType || '')] *)
Definition proOrEnterprise (subscriptionType : option string) : bool :=
  let t := default ""%string subscriptionType in
  String.eqb t "pro" || String.eqb t "enterprise".

(** The selector of [useUserPermissions]. *)
Definition useUserPermissions (s : AuthState) : Permissions :=
  let subscriptionType := subscription_type <$> user s in
  let isType (t : string) := bool_decide (subscriptionType = Some t) in
  mkPermissions
    (negb (isType "free"%string))
    (proOrEnterprise subscriptionType)
    (proOrEnterprise subscriptionType)
    (isType "enterprise"%string)
    (if isType "free"%string then 1 else if isType "basic"%string then 5
     else if isType "pro"%string then 20 else 100)
    (if isType "free"%string then 0 else if isType "basic"%string then 2
     else if isType "pro"%string then 10 else 50).

(** [partialize]: what is written to storage. *)
Definition partialize (s : AuthState) : bool * option AuthUser :=
  (isAuthenticated s, user s).

End AuthStore.

(* ===================================================================== *)
(** * The agents data hooks: quick status actions *)
(* ===================================================================== *)

Module AgentStatusActions.
Import AgentsData.

(** [{ status }] as an [UpdateAgentData]. *)
Definition statusOnly (status : string) : UpdateAgentData :=
  mkUpdateAgentData None None None None (Some status).

(** [toggleStatus(id, currentStatus)]: the variables handed to
    [updateAgent.mutate]. *)
Definition toggleStatus (id currentStatus : string) : string * UpdateAgentData :=
  let newStatus := if String.eqb currentStatus "active" then "inactive"%string
                   else "active"%string in
  (id, statusOnly newStatus).

Definition activateAgent (id : string) : string * UpdateAgentData :=
  (id, statusOnly "active").

Definition deactivateAgent (id : string) : string * UpdateAgentData :=
  (id, statusOnly "inactive").

End AgentStatusActions.

(* ===================================================================== *)
(** * The session hook ([useSession]) *)
(* ===================================================================== *)

Module UseSession.
Import Session.

(** A response that is not 2xx, or no response at all (status 0), with
    the message of the standardised [ApiError]. *)
Record Failure : Type := mkFailure {
  fail_status : Z;
  fail_message : string
}.

(** What a [catch (error: any)] block can read: [error.message] and
    [error.status]. *)
Record Exn : Type := mkExn {
  exn_message : string;
  exn_status : option Z
}.

(** The body of the refresh response. *)
Record Tokens : Type := mkTokens {
  access_token : string;
  refresh_token : string
}.

(** The body of the login response: the tokens and the user fields. *)
Record LoginData : Type := mkLoginData {
  login_tokens : Tokens;
  login_user : AuthUser
}.

(** The backend as the hook sees it. Each answer may depend on how many
    requests were made before and on what was sent. *)
Record Server : Type := mkServer {
  me : nat → Failure + AuthUser;
  refresh : nat → string → Failure + Tokens;
  authenticate : nat → string → string → Failure + LoginData
}.

Section Hook.
Context {D : Type}.

(** [JSON.stringify(userData)] *)
Variable stringify : AuthUser → string.

Variable server : Server.

(** The client together with the requests sent so far (method, path). *)
Record Run : Type := mkRun {
  client : Client D;
  requests : list (string * string)
}.

(** An asynchronous function body: it changes the run and either throws
    or returns. *)
Definition Async (A : Type) : Type := Run → Run * (Exn + A).

Definition ret {A : Type} (a : A) : Async A := λ r, (r, inr a).

Definition throw {A : Type} (e : Exn) : Async A := λ r, (r, inl e).

Definition bind {A B : Type} (m : Async A) (k : A → Async B) : Async B :=
  λ r, match m r with
       | (r', inr a) => k a r'
       | (r', inl e) => (r', inl e)
       end.

(** [try { body } catch (error) { handler }] *)
Definition tryCatch {A : Type} (body : Async A) (handler : Exn → Async A) : Async A :=
  λ r, match body r with
       | (r', inl e) => handler e r'
       | ok => ok
       end.

(** A synchronous statement acting on the client. *)
Definition act (f : Client D → Client D) : Async unit :=
  λ r, (mkRun (f (client r)) (requests r), inr tt).

Definition getItem (key : string) : Async (option string) :=
  λ r, (r, inr (localStorage (client r) !! key)).

Definition setItem (key value : string) (w : Client D) : Client D :=
  mkClient (authStore w) (sessionState w) (<[key := value]> (localStorage w))
           (queryCache w) (toasts w) (timeouts w).

Definition setSessionState (f : SessionState → SessionState) (w : Client D) : Client D :=
  mkClient (authStore w) (f (sessionState w)) (localStorage w)
           (queryCache w) (toasts w) (timeouts w).

Definition onAuthStore (f : AuthState → AuthState) (w : Client D) : Client D :=
  mkClient (f (authStore w)) (sessionState w) (localStorage w)
           (queryCache w) (toasts w) (timeouts w).

(** One call of [apiService]: the request is sent; a failure goes
    through the response interceptor ([handleGlobalError]) and is then
    rejected as an [ApiError]. *)
Definition apiRequest {A : Type} (method path : string)
    (answer : nat → Failure + A) : Async A :=
  λ r, let r1 := mkRun (client r) (requests r ++ [(method, path)]) in
       match answer (length (requests r)) with
       | inr a => (r1, inr a)
       | inl f => (mkRun (handleGlobalError (fail_status f) (client r1)) (requests r1),
                   inl (mkExn (fail_message f) (Some (fail_status f))))
       end.

(** [error.message || fallback] *)
Definition messageOr (e : Exn) (fallback : string) : string :=
  if OptimizedStore.truthy (Some (exn_message e)) then exn_message e else fallback.

(** [validateSession] *)
Definition validateSession : Async unit :=
  tryCatch
    (bind (act (setSessionState (λ prev,
             mkSessionState true (session_isAuthenticated prev) (session_user prev) None))) (λ _,
     bind (getItem "auth_token") (λ token,
     bind (if OptimizedStore.truthy token then ret tt
           else throw (mkExn "No token found" None)) (λ _,
     bind (apiRequest "GET" "/api/v1/auth/me" (me server)) (λ userData,
     bind (act (setSessionState (λ _, mkSessionState false true (Some userData) None))) (λ _,
     bind (act (onAuthStore (AuthStore.setUser userData))) (λ _,
     bind (act (onAuthStore (AuthStore.setIsAuthenticated true))) (λ _,
     act (setItem "user_data" (stringify userData))))))))))
    (λ error,
     bind (act logout) (λ _,
     bind (act clearAuthToken) (λ _,
     act (setSessionState (λ _,
       mkSessionState false false None
                      (Some (messageOr error "Session validation failed"))))))).

(** [refreshSession] *)
Definition refreshSession : Async unit :=
  tryCatch
    (bind (getItem "refresh_token") (λ refreshToken,
     bind (match refreshToken with
           | Some t => if OptimizedStore.truthy (Some t) then ret t
                       else throw (mkExn "No refresh token found" None)
           | None => throw (mkExn "No refresh token found" None)
           end) (λ t,
     bind (apiRequest "POST" "/api/v1/auth/refresh" (λ n, refresh server n t)) (λ tokens,
     bind (act (setItem "auth_token" (access_token tokens))) (λ _,
     bind (act (setItem "refresh_token" (refresh_token tokens))) (λ _,
     bind (act (setItem "auth_token" (access_token tokens))) (λ _,
     bind validateSession (λ _,
     act (toast "Sessão Renovada")))))))))
    (λ error,
     bind (act logout) (λ _,
     bind (act clearAuthToken) (λ _,
     bind (act (setSessionState (λ _,
             mkSessionState false false None (Some "Session expired"%string)))) (λ _,
     act (toast "Sessão Expirada"))))).

(** [initializeSession] *)
Definition initializeSession : Async unit :=
  tryCatch validateSession
    (λ error,
     if bool_decide (exn_status error = Some 401) then refreshSession
     else
       bind (act logout) (λ _,
       bind (act clearAuthToken) (λ _,
       act (setSessionState (λ _,
         mkSessionState false false None (Some (exn_message error))))))).

(** What [login] returns: [{ success: true, user }] or
    [{ success: false, error }]. *)
Definition login (email password : string) : Async (string + AuthUser) :=
  tryCatch
    (bind (act (setSessionState (λ prev,
             mkSessionState true (session_isAuthenticated prev) (session_user prev) None))) (λ _,
     bind (apiRequest "POST" "/api/v1/auth/login"
             (λ n, authenticate server n email password)) (λ response,
     let tokens := login_tokens response in
     let userData := login_user response in
     bind (act (setItem "auth_token" (access_token tokens))) (λ _,
     bind (act (setItem "refresh_token" (refresh_token tokens))) (λ _,
     bind (act (setItem "user_data" (stringify userData))) (λ _,
     bind (act (setItem "auth_token" (access_token tokens))) (λ _,
     bind (act (setSessionState (λ _, mkSessionState false true (Some userData) None))) (λ _,
     bind (act (onAuthStore (AuthStore.setUser userData))) (λ _,
     bind (act (onAuthStore (AuthStore.setIsAuthenticated true))) (λ _,
     bind (act (toast (D := D) "Login Realizado")) (λ _,
     ret (inr userData))))))))))))
    (λ error,
     bind (act (setSessionState (λ prev,
             mkSessionState false (session_isAuthenticated prev) (session_user prev)
                            (Some (exn_message error))))) (λ _,
     ret (inl (exn_message error)))).

(** The hook's [logout]. *)
Definition logoutHook : Async unit := act logoutSession.

(** The client is signed out in both stores, the session shows the
    message, and the tokens and the stored user are gone. *)
Definition loggedOutWith (message : string) (c : Client D) : Prop :=
  authStore c = mkAuthState false None false None
  ∧ sessionState c = mkSessionState false false None (Some message)
  ∧ localStorage c !! "auth_token"%string = None
  ∧ localStorage c !! "refresh_token"%string = None
  ∧ localStorage c !! "user_data"%string = None.

End Hook.
Arguments Run D : clear implicits.

End UseSession.

(* ===================================================================== *)
(** * useAbortController.ts: [useAbortableInterval] *)
(* ===================================================================== *)

Module UseAbortableInterval.
Import UseAbortController.

(** One instance of the hook: its holder, [intervalRef.current], every
    interval created so far (whether it is still scheduled, and the
    controller whose signal its callback captured), and the controllers
    on whose signal an 'abort' listener was registered, one entry per
    [addEventListener]. *)
Record IntervalHook : Type := mkIntervalHook {
  holder : Holder;
  intervalRef : option nat;
  timers : list (bool * nat);
  listeners : list nat
}.

(** [clearInterval(id)] *)
Definition clearTimer (id : nat) (ts : list (bool * nat)) : list (bool * nat) :=
  alter (λ t, (false, t.2)) id ts.

(** The hook body at render: [useAbortController()] evaluates
    [signal: getSignal()]. *)
Definition render (s : IntervalHook) : IntervalHook :=
  mkIntervalHook (getSignal (holder s)).1 (intervalRef s) (timers s) (listeners s).

(** The state after the first render. *)
Definition mounted : IntervalHook := render (mkIntervalHook initHolder None [] []).

(** The body of each 'abort' listener and of [clearAbortableInterval]:
    [if (intervalRef.current) { clearInterval(intervalRef.current);
    intervalRef.current = null }]. *)
Definition clearCurrent (s : IntervalHook) : IntervalHook :=
  match intervalRef s with
  | Some id => mkIntervalHook (holder s) None (clearTimer id (timers s)) (listeners s)
  | None => s
  end.

(** [setAbortableInterval(callback, delay)]: clear the previous interval,
    take the signal, schedule the new interval and register the
    listener. *)
Definition setAbortableInterval (s : IntervalHook) : IntervalHook :=
  let ts := match intervalRef s with
            | Some id => clearTimer id (timers s)
            | None => timers s
            end in
  let '(h, c) := getSignal (holder s) in
  mkIntervalHook h (Some (length ts)) (ts ++ [(true, c)]) (listeners s ++ [c]).

Definition clearAbortableInterval (s : IntervalHook) : IntervalHook := clearCurrent s.

(** The 'abort' event of controller [c]: every listener registered on
    its signal runs. *)
Definition dispatchAbort (c : nat) (s : IntervalHook) : IntervalHook :=
  foldl (λ s' _, clearCurrent s') s (filter (λ c', c' = c) (listeners s)).

(** The cleanup of [useAbortController]: [abort()] on the current
    controller; the event is dispatched only if the signal was not
    aborted before. *)
Definition holderCleanup (s : IntervalHook) : IntervalHook :=
  match current (holder s) with
  | Some c =>
      let s' := mkIntervalHook (unmount (holder s)) (intervalRef s) (timers s) (listeners s) in
      if bool_decide (controllers (holder s) !! c = Some false)
      then dispatchAbort c s' else s'
  | None => s
  end.

(** The cleanup of [useAbortableInterval]: [clearInterval] without
    resetting the ref. *)
Definition intervalCleanup (s : IntervalHook) : IntervalHook :=
  match intervalRef s with
  | Some id => mkIntervalHook (holder s) (Some id) (clearTimer id (timers s)) (listeners s)
  | None => s
  end.

(** Unmounting runs both cleanups, in the order the effects were
    declared. *)
Definition unmountHook (s : IntervalHook) : IntervalHook :=
  intervalCleanup (holderCleanup s).

(** Whether interval [id], when its delay elapses, runs the callback:
    it must still be scheduled, and [wrappedCallback] returns early when
    its signal is aborted. *)
Definition callbackRuns (s : IntervalHook) (id : nat) : bool :=
  match timers s !! id with
  | Some (true, c) => bool_decide (controllers (holder s) !! c = Some false)
  | _ => false
  end.

(** Interval [id] is still scheduled. *)
Definition scheduled (s : IntervalHook) (id : nat) : Prop :=
  ∃ c, timers s !! id = Some (true, c).

Inductive Op : Type :=
| OpRender
| OpSetInterval
| OpClearInterval
| OpUnmountHook.

Definition step (s : IntervalHook) (o : Op) : IntervalHook :=
  match o with
  | OpRender => render s
  | OpSetInterval => setAbortableInterval s
  | OpClearInterval => clearAbortableInterval s
  | OpUnmountHook => unmountHook s
  end.

Definition run (ops : list Op) (s : IntervalHook) : IntervalHook := foldl step s ops.

(** Only the interval the ref points at can be scheduled. *)
Definition only_current_scheduled (s : IntervalHook) : Prop :=
  ∀ id, scheduled s id → intervalRef s = Some id.

(** The hook has been torn down: its controller is aborted and stays the
    current one, and every interval that is still scheduled captured an
    aborted signal. *)
Definition torn_down (s : IntervalHook) : Prop :=
  (∃ c, current (holder s) = Some c ∧ controllers (holder s) !! c = Some true)
  ∧ ∀ id c, timers s !! id = Some (true, c) → controllers (holder s) !! c = Some true.

(** The holder of a mounted hook is well formed and always has a
    current controller. *)
Definition holder_ready (s : IntervalHook) : Prop :=
  wf (holder s) ∧ is_Some (current (holder s)).

End UseAbortableInterval.

(* ===================================================================== *)
(** * Concrete inputs used in the examples below *)
(* ===================================================================== *)

Module RollbackExample.
Import Types QueryClient OptimizedData.

Definition t1 : Task :=
  mkTask "t1" "a1" "Campaign Analysis" "pending" "{}" None None None
         "2024-12-20T10:00:00Z" "2024-12-20T10:00:00Z".

Definition pendingFilter : string := "{status:pending}".

(** The unfiltered task list and a filtered one, both showing [t1]. *)
Definition cachedTasks : gmap QueryKey (QueryState (list Task)) :=
  <[tasksKey (Some pendingFilter) := mkQuery (Some [t1]) false]>
    (<[tasksKey None := mkQuery (Some [t1]) false]> ∅).

Definition serverError : Retryer.ApiError := Retryer.mkApiError (Some 500) "Error".

End RollbackExample.

Module SessionExample.
Import Types QueryClient Session.

Definition agent1 : Agent :=
  mkAgent "1" "Marketing Specialist" "Marketing" "active"
          (Some "AI agent specialized in marketing campaigns"%string) "{}" 45 94
          (Some "2 min ago"%string) "2024-12-20T10:00:00Z" "2024-12-20T10:00:00Z" "1".

Definition john : AuthUser :=
  mkAuthUser "1" "user@example.com" "John" "Doe" None None "active" "pro" None
             "2024-12-20T10:00:00Z" None 42.

(** A signed-in client whose query cache holds the agents list. *)
Definition signedIn : Client (list Agent) :=
  mkClient (mkAuthState true (Some john) false None)
           (mkSessionState false true (Some john) None)
           (<["auth_token"%string := "access"%string]>
              (<["refresh_token"%string := "refresh"%string]> ∅))
           (<[OptimizedData.QUERY_KEYS_agents := mkQuery (Some [agent1]) false]> ∅)
           [] [].

End SessionExample.

Module StaleExample.
Import FetchCoordinator.

(** The agents list fetched at instant 0 under the options of
    [useAgents], with one subscriber. *)
Definition agentsEntry : option (CacheEntry (list Types.Agent)) :=
  entryFor Hooks.useAgents_options (Some [SessionExample.agent1]) Success (Some 0) 1.

End StaleExample.

Module StoreExample.
Import Types OptimizedStore.

(** An active campaign that has not been shown yet, and a paused one. *)
Definition fresh : Campaign :=
  mkCampaign "1" "Summer Sale Campaign" "google_ads" "active" 5000 0 0 0 0
             "2024-12-13T10:00:00Z" None "2024-12-20T10:00:00Z" "2024-12-20T10:00:00Z" "1".

Definition paused : Campaign :=
  mkCampaign "2" "Brand Awareness" "meta_ads" "paused" 3000 1800 89000 1200 45
             "2024-12-15T10:00:00Z" None "2024-12-20T10:00:00Z" "2024-12-20T10:00:00Z" "1".

Definition task (id status : string) : Task :=
  mkTask id "1" "Campaign Analysis" status "{}" None None None
         "2024-12-20T10:00:00Z" "2024-12-20T10:00:00Z".

(** Three tasks, no filter, first page of two. *)
Definition firstPage : TaskSlice :=
  mkTaskSlice [task "1" "completed"; task "2" "running"; task "3" "failed"]
              (mkTaskFilters None None None) (mkTaskPagination 1 2).

Definition noDates : string → option Z := λ _, None.

End StoreExample.

Module ExtraExample.
Import Types.

(** A freshly created application store. *)
Definition emptyStore : AppStore.AppState := AppStore.initialState "2024-12-20T10:00:00Z".

(** Two notifications, the first with an expiry date in the past of the
    clock used below. *)
Definition stale : AppStore.Notification :=
  AppStore.mkNotification "n1" "info" "Task finished" "Campaign Analysis finished" false
                          "2024-12-20T10:00:00Z" (Some "2024-12-20T11:00:00Z"%string).

Definition lasting : AppStore.Notification :=
  AppStore.mkNotification "n2" "warning" "Budget" "Budget almost spent" false
                          "2024-12-20T10:00:00Z" None.

Definition notified : AppStore.AppState :=
  AppStore.with_notifications (λ _, [stale; lasting]) emptyStore.

(** A clock that knows two instants. *)
Definition clock (s : string) : option Z :=
  if String.eqb s "2024-12-20T11:00:00Z" then Some 1000
  else if String.eqb s "2024-12-20T12:00:00Z" then Some 2000
  else None.

Definition tokens : UseSession.Tokens := UseSession.mkTokens "access-2" "refresh-2".

(** A backend that accepts everything. *)
Definition accepting : UseSession.Server :=
  UseSession.mkServer (λ _, inr SessionExample.john)
                      (λ _ _, inr tokens)
                      (λ _ _ _, inr (UseSession.mkLoginData tokens SessionExample.john)).

Definition stringify (u : Session.AuthUser) : string := Session.email u.

(** The signed-in client before any request. *)
Definition started : UseSession.Run (list Agent) :=
  UseSession.mkRun SessionExample.signedIn [].

End ExtraExample.

(* ===================================================================== *)
(** * Properties of the cancellation-scope holder *)
(* ===================================================================== *)

Section HolderFacts.
Import UseAbortController.

Lemma abortAt_length i cs : length (abortAt i cs) = length cs.
Proof. apply length_insert. Qed.

Lemma abortAt_lookup_false i j cs :
  abortAt i cs !! j = Some false → cs !! j = Some false ∧ j ≠ i.
Proof.
  unfold abortAt. intros H.
  destruct (decide (i = j)) as [->|Hne].
  - destruct (decide (j < length cs)%nat) as [Hlt|Hge].
    + rewrite list_lookup_insert_eq in H by done. discriminate.
    + rewrite list_insert_ge in H by lia.
      apply lookup_lt_Some in H. lia.
  - rewrite list_lookup_insert_ne in H by done. split; [done | congruence].
Qed.

Lemma abortAt_lookup_current i cs :
  (i < length cs)%nat → abortAt i cs !! i = Some true.
Proof. intros. unfold abortAt. by rewrite list_lookup_insert_eq. Qed.

Lemma abortAt_kills_only_live i cs :
  (∀ j, cs !! j = Some false → j = i) → ∀ j, abortAt i cs !! j ≠ Some false.
Proof.
  intros Hcs j Hj. apply abortAt_lookup_false in Hj as [Hj Hne].
  apply Hcs in Hj. congruence.
Qed.

Lemma newController_live cs : (cs ++ [false]) !! length cs = Some false.
Proof. rewrite lookup_app_r by lia. by rewrite Nat.sub_diag. Qed.

Lemma newController_only_live cs j :
  (∀ k, cs !! k ≠ Some false) → (cs ++ [false]) !! j = Some false → j = length cs.
Proof.
  intros Hdead Hj.
  destruct (decide (j < length cs)%nat) as [Hlt|Hge].
  - rewrite lookup_app_l in Hj by done. by apply Hdead in Hj.
  - apply lookup_lt_Some in Hj. rewrite length_app in Hj. simpl in Hj. lia.
Qed.

Lemma wf_init : wf initHolder.
Proof. split; intros i; unfold live; simpl; [by rewrite lookup_nil | done]. Qed.

Lemma wf_dead_after_abort h i :
  wf h → current h = Some i → ∀ j, abortAt i (controllers h) !! j ≠ Some false.
Proof.
  intros [Hlive _] Hcur. apply abortAt_kills_only_live.
  intros j Hj. apply Hlive in Hj. congruence.
Qed.

Lemma wf_dead_without_current h :
  wf h → current h = None → ∀ j, controllers h !! j ≠ Some false.
Proof. intros [Hlive _] Hcur j Hj. apply Hlive in Hj. congruence. Qed.

Lemma wf_createController h : wf h → wf (createController h).1.
Proof.
  intros Hwf. unfold createController, newController.
  destruct (current h) as [i|] eqn:Hcur; simpl; split; intros j; unfold live; simpl.
  - intros Hj. apply newController_only_live in Hj; [by subst|].
    by apply wf_dead_after_abort.
  - intros [= <-]. rewrite length_app. simpl. lia.
  - intros Hj. apply newController_only_live in Hj; [by subst|].
    by apply wf_dead_without_current.
  - intros [= <-]. rewrite length_app. simpl. lia.
Qed.

Lemma wf_getSignal h : wf h → wf (getSignal h).1.
Proof.
  intros Hwf. unfold getSignal, newController.
  destruct (current h) as [i|] eqn:Hcur; simpl; [done|].
  split; intros j; unfold live; simpl.
  - intros Hj. apply newController_only_live in Hj; [by subst|].
    by apply wf_dead_without_current.
  - intros [= <-]. rewrite length_app. simpl. lia.
Qed.

Lemma wf_abort h : wf h → wf (abort h).
Proof.
  intros Hwf. unfold abort.
  destruct (current h) as [i|] eqn:Hcur; [|done].
  split; intros j; unfold live; simpl; [|done].
  intros Hj. by apply (wf_dead_after_abort h i Hwf Hcur) in Hj.
Qed.

Lemma wf_unmount h : wf h → wf (unmount h).
Proof.
  intros Hwf. unfold unmount.
  destruct (current h) as [i|] eqn:Hcur; [|done].
  split; intros j; unfold live; simpl.
  - intros Hj. by apply (wf_dead_after_abort h i Hwf Hcur) in Hj.
  - intros [= <-]. rewrite abortAt_length. by apply Hwf.
Qed.

Lemma wf_step h o : wf h → wf (step h o).
Proof.
  intros Hwf. destruct o; unfold step.
  - by apply wf_createController.
  - by apply wf_getSignal.
  - by apply wf_abort.
  - by apply wf_unmount.
Qed.

Lemma wf_run ops h : wf h → wf (run ops h).
Proof.
  revert h. induction ops as [|o ops IH]; intros h Hwf; [done|].
  simpl. apply IH. by apply wf_step.
Qed.

Lemma unmount_no_live h : wf h → ∀ i, ¬ live (unmount h) i.
Proof.
  intros Hwf i. unfold unmount, live.
  destruct (current h) as [c|] eqn:Hcur; simpl.
  - by apply wf_dead_after_abort.
  - by apply wf_dead_without_current.
Qed.

Lemma unmount_aborts_current h i :
  wf h → current h = Some i → controllers (unmount h) !! i = Some true.
Proof.
  intros [_ Halloc] Hcur. unfold unmount. rewrite Hcur. simpl.
  by apply abortAt_lookup_current, Halloc.
Qed.

Lemma unmount_length h : length (controllers (unmount h)) = length (controllers h).
Proof. unfold unmount. destruct (current h); simpl; [apply abortAt_length | done]. Qed.

Lemma unmount_aborts_all h i :
  wf h → (i < length (controllers h))%nat → controllers (unmount h) !! i = Some true.
Proof.
  intros Hwf Hi. rewrite <- unmount_length in Hi.
  apply lookup_lt_is_Some in Hi as [[|] Hb]; [done|].
  by destruct (unmount_no_live h Hwf i).
Qed.

Lemma createController_aborts_previous h i :
  wf h → current h = Some i → controllers (createController h).1 !! i = Some true.
Proof.
  intros [_ Halloc] Hcur. unfold createController, newController.
  rewrite Hcur. simpl. specialize (Halloc i Hcur).
  rewrite lookup_app_l by (by rewrite abortAt_length).
  by apply abortAt_lookup_current.
Qed.

Lemma createController_fresh h :
  live (createController h).1 (createController h).2
  ∧ current (createController h).1 = Some (createController h).2.
Proof.
  unfold createController, newController, live.
  destruct (current h); simpl; split; try done; apply newController_live.
Qed.

End HolderFacts.

(** C8. Within one holder, whatever sequence of [createController],
    [getSignal], [abort] and unmount calls has run: a further
    [createController] leaves the previously current controller aborted
    and returns a new, non-aborted controller that becomes current;
    unmounting aborts the current controller, so that every controller
    the holder ever created is then aborted and none is non-aborted; and
    at any time at most one controller of the holder is non-aborted. *)
Theorem createController_at_most_one_live (ops : list UseAbortController.Op) :
  let h := UseAbortController.run ops UseAbortController.initHolder in
  (∀ i, UseAbortController.current h = Some i →
        UseAbortController.controllers (UseAbortController.createController h).1 !! i = Some true)
  ∧ (UseAbortController.live (UseAbortController.createController h).1
                             (UseAbortController.createController h).2
     ∧ UseAbortController.current (UseAbortController.createController h).1
       = Some (UseAbortController.createController h).2)
  ∧ ((∀ i, UseAbortController.current h = Some i →
          UseAbortController.controllers (UseAbortController.unmount h) !! i = Some true)
     ∧ (∀ i, (i < length (UseAbortController.controllers h))%nat →
          UseAbortController.controllers (UseAbortController.unmount h) !! i = Some true)
     ∧ (∀ i, ¬ UseAbortController.live (UseAbortController.unmount h) i))
  ∧ (∀ i j, UseAbortController.live h i → UseAbortController.live h j → i = j).
Proof.
  intros h.
  assert (Hwf : UseAbortController.wf h) by apply wf_run, wf_init.
  split; [|split; [|split]].
  - intros i. by apply createController_aborts_previous.
  - apply createController_fresh.
  - split; [|split].
    + intros i. by apply unmount_aborts_current.
    + intros i. by apply unmount_aborts_all.
    + by apply unmount_no_live.
  - intros i j Hi Hj. apply Hwf in Hi, Hj. congruence.
Qed.

(* ===================================================================== *)
(** * Properties of the fetches issued through holders *)
(* ===================================================================== *)

Section AbortableFetchFacts.
Import UseAbortController UseAbortableFetch.

Lemma createController_ctrl h : (createController h).2 = length (controllers h).
Proof.
  unfold createController, newController.
  destruct (current h); simpl; [apply abortAt_length | done].
Qed.

Lemma createController_length h :
  length (controllers (createController h).1) = S (length (controllers h)).
Proof.
  unfold createController, newController.
  destruct (current h); simpl; rewrite length_app, ?abortAt_length; simpl; lia.
Qed.

Lemma holderAt_insert w h hd fs h' :
  holderAt (mkWorld (<[h := hd]> (holders w)) fs) h'
  = if decide (h = h') then hd else holderAt w h'.
Proof.
  unfold holderAt. simpl. case_decide as Hh.
  - subst. by rewrite lookup_insert_eq.
  - by rewrite lookup_insert_ne.
Qed.

Lemma Inv_init : Inv initWorld.
Proof.
  split.
  - intros h. unfold holderAt. simpl. rewrite lookup_empty. apply wf_init.
  - intros i f. simpl. by rewrite lookup_nil.
  - intros i j f g. simpl. by rewrite lookup_nil.
Qed.

Lemma Inv_abortableFetch h u w : Inv w → Inv (abortableFetch h u w).
Proof.
  intros [Hwf Halloc Hinj]. unfold abortableFetch.
  pose proof (createController_ctrl (holderAt w h)) as Hc.
  pose proof (createController_length (holderAt w h)) as Hlen.
  pose proof (wf_createController _ (Hwf h)) as Hwf'.
  destruct (createController (holderAt w h)) as [hd c]. simpl in *.
  assert (Hgrow : ∀ i f, fetches w !! i = Some f →
            (ctrl f < length (controllers
               (holderAt (mkWorld (<[h := hd]> (holders w))
                                  (fetches w ++ [mkFetch h u c false])) (holderOf f))))%nat).
  { intros i f Hf. rewrite holderAt_insert. specialize (Halloc i f Hf).
    case_decide as Hh; [rewrite Hlen; subst; lia | done]. }
  split.
  - intros h'. rewrite holderAt_insert. case_decide; [done | apply Hwf].
  - intros i f. simpl. rewrite lookup_app_Some. intros [Hf | [_ Hf]].
    + by eapply Hgrow.
    + apply list_lookup_singleton_Some in Hf as [_ <-]. simpl.
      rewrite holderAt_insert. rewrite decide_True by done. lia.
  - intros i j f g. simpl. rewrite !lookup_app_Some.
    intros [Hf | [Hi Hf]] [Hg | [Hj Hg]] Hh Hcg.
    + by eapply Hinj.
    + apply list_lookup_singleton_Some in Hg as [_ <-]. simpl in *.
      specialize (Halloc i f Hf). rewrite Hh in Halloc. lia.
    + apply list_lookup_singleton_Some in Hf as [_ <-]. simpl in *.
      specialize (Halloc j g Hg). rewrite <- Hh in Halloc. lia.
    + apply list_lookup_singleton_Some in Hf as [Hi' _].
      apply list_lookup_singleton_Some in Hg as [Hj' _]. lia.
Qed.

Lemma settle_lookup k w i f :
  fetches (settle k w) !! i = Some f →
  ∃ f0, fetches w !! i = Some f0 ∧ holderOf f = holderOf f0 ∧ ctrl f = ctrl f0
        ∧ url f = url f0 ∧ (settled f = false → settled f0 = false).
Proof.
  unfold settle. simpl. rewrite list_lookup_alter. case_decide as Hk.
  - subst. destruct (fetches w !! i) as [f0|]; simpl; [|done].
    intros [= <-]. exists f0. simpl. done.
  - intros Hf. exists f. done.
Qed.

Lemma Inv_settle k w : Inv w → Inv (settle k w).
Proof.
  intros [Hwf Halloc Hinj]. split.
  - apply Hwf.
  - intros i f Hf. apply settle_lookup in Hf as (f0 & Hf0 & Hh & Hc & _).
    rewrite Hh, Hc. by eapply Halloc.
  - intros i j f g Hf Hg.
    apply settle_lookup in Hf as (f0 & Hf0 & Hh & Hc & _).
    apply settle_lookup in Hg as (g0 & Hg0 & Hh' & Hc' & _).
    rewrite Hh, Hc, Hh', Hc'. by eapply Hinj.
Qed.

Lemma Inv_unmountHolder h w : Inv w → Inv (unmountHolder h w).
Proof.
  intros [Hwf Halloc Hinj]. unfold unmountHolder. split.
  - intros h'. rewrite holderAt_insert. case_decide; [by apply wf_unmount | apply Hwf].
  - intros i f Hf. simpl in Hf. rewrite holderAt_insert.
    specialize (Halloc i f Hf).
    case_decide; [rewrite unmount_length; by subst | done].
  - intros i j f g Hf Hg. simpl in *. by eapply Hinj.
Qed.

Lemma Inv_step w o : Inv w → Inv (UseAbortableFetch.step w o).
Proof.
  intros HI. destruct o; unfold UseAbortableFetch.step.
  - by apply Inv_abortableFetch.
  - by apply Inv_settle.
  - by apply Inv_unmountHolder.
Qed.

Lemma Inv_foldl ops w : Inv w → Inv (foldl UseAbortableFetch.step w ops).
Proof.
  revert w. induction ops as [|o ops IH]; intros w HI; [done|].
  simpl. apply IH. by apply Inv_step.
Qed.

Lemma inFlight_current w f :
  Inv w → inFlight w f = true →
  current (holderAt w (holderOf f)) = Some (ctrl f).
Proof.
  intros [Hwf _ _] Hf. unfold inFlight, aborted in Hf.
  apply andb_true_iff in Hf as [_ Hf]. apply negb_true_iff in Hf.
  apply (Hwf (holderOf f)). unfold live.
  destruct (controllers (holderAt w (holderOf f)) !! ctrl f) as [[]|]; simpl in *; done.
Qed.

Lemma abortableFetch_last_in_flight h u w :
  ∃ f, last (fetches (abortableFetch h u w)) = Some f
       ∧ holderOf f = h ∧ url f = u ∧ inFlight (abortableFetch h u w) f = true.
Proof.
  unfold abortableFetch.
  pose proof (createController_fresh (holderAt w h)) as [Hlive _].
  destruct (createController (holderAt w h)) as [hd c]. simpl in Hlive.
  exists (mkFetch h u c false). simpl. rewrite last_snoc. repeat split.
  unfold inFlight, aborted. simpl. rewrite holderAt_insert, decide_True by done.
  unfold live in Hlive. by rewrite Hlive.
Qed.

End AbortableFetchFacts.




(* ===================================================================== *)
(** * Properties of the retry options *)
(* ===================================================================== *)

Section RetryFacts.
Import Retryer Hooks.
Context {T : Type}.

(** Closes a goal [∃ tr, Some _ = Some tr ∧ calls tr ≤ n ∧ earlyRejections tr = []]
    once the trace is explicit. *)
Ltac settles :=
  eexists; split; [reflexivity | split; [cbv; lia | reflexivity]].

(** The three delays slept under the default backoff. *)
Lemma defaultRetryDelay_values :
  defaultRetryDelay 0 = 1000 ∧ defaultRetryDelay 1 = 2000 ∧ defaultRetryDelay 2 = 4000.
Proof. done. Qed.

Lemma retryUnless4xx_client_error fc e :
  isClientError e = true → retryUnless4xx fc e = false.
Proof. intros H. unfold retryUnless4xx. by rewrite H. Qed.

Lemma retryUnless4xx_transient fc e :
  isClientError e = false → retryUnless4xx fc e = bool_decide (fc < 3)%nat.
Proof. intros H. unfold retryUnless4xx. by rewrite H. Qed.

(** A response status is a client error exactly in the 4xx range; 429 is
    one of them. *)
Lemma isClientError_status e s :
  status e = Some s → (isClientError e = true ↔ 400 ≤ s < 500).
Proof. intros H. unfold isClientError. rewrite H. rewrite andb_true_iff. lia. Qed.

(** Under [retryUnless4xx] with the default backoff the loop settles
    within four invocations, and it rejects only as its last step. *)
Lemma attempt_retryUnless4xx_settles (fn : nat → ApiError + T) (k : nat) :
  ∃ tr, attempt (4 + k) (RetryFn retryUnless4xx) None fn 0 = Some tr
        ∧ (calls tr ≤ 4)%nat ∧ earlyRejections tr = [].
Proof.
  simpl. unfold retryUnless4xx.
  destruct (fn 0%nat) as [e0|d0]; [|settles].
  destruct (isClientError e0); [settles|]. simpl.
  destruct (fn 1%nat) as [e1|d1]; [|settles].
  destruct (isClientError e1); [settles|]. simpl.
  destruct (fn 2%nat) as [e2|d2]; [|settles].
  destruct (isClientError e2); [settles|]. simpl.
  destruct (fn 3%nat) as [e3|d3]; [|settles].
  destruct (isClientError e3); settles.
Qed.

Lemma attempt_retryUnless4xx_client_error (fn : nat → ApiError + T) (k : nat) e :
  fn 0%nat = inl e → isClientError e = true →
  attempt (4 + k) (RetryFn retryUnless4xx) None fn 0 = Some [EvCall; EvReject e].
Proof. intros Hfn He. simpl. rewrite Hfn. unfold retryUnless4xx. by rewrite He. Qed.

Lemma attempt_retryUnless4xx_transient (fn : nat → ApiError + T) (k : nat) e0 e1 e2 e3 :
  fn 0%nat = inl e0 → fn 1%nat = inl e1 → fn 2%nat = inl e2 → fn 3%nat = inl e3 →
  isClientError e0 = false → isClientError e1 = false → isClientError e2 = false →
  attempt (4 + k) (RetryFn retryUnless4xx) None fn 0
  = Some [EvCall; EvSleep 1000; EvCall; EvSleep 2000; EvCall; EvSleep 4000;
          EvCall; EvReject e3].
Proof.
  intros H0 H1 H2 H3 He0 He1 He2. simpl.
  rewrite H0, H1, H2, H3. unfold retryUnless4xx.
  rewrite He0, He1, He2. simpl. by destruct (isClientError e3).
Qed.

Lemma attempt_number3_fixed_delay (fn : nat → ApiError + T) (k : nat) e0 e1 e2 e3 :
  fn 0%nat = inl e0 → fn 1%nat = inl e1 → fn 2%nat = inl e2 → fn 3%nat = inl e3 →
  attempt (4 + k) (RetryNumber 3) (Some (DelayNumber 1000)) fn 0
  = Some [EvCall; EvSleep 1000; EvCall; EvSleep 1000; EvCall; EvSleep 1000;
          EvCall; EvReject e3].
Proof. intros H0 H1 H2 H3. simpl. by rewrite H0, H1, H2, H3. Qed.

Lemma calls_cons_call (tr : list (Event T)) : calls (EvCall :: tr) = S (calls tr).
Proof. done. Qed.

Lemma calls_cons_sleep ms (tr : list (Event T)) : calls (EvSleep ms :: tr) = calls tr.
Proof. done. Qed.

(** The loop never invokes the function again after an invocation whose
    failure the [retry] option refuses, whatever happened before; and if
    the loop got as far as that invocation, it rejects with its error. *)
Lemma attempt_stops_at fuel r d (fn : nat → ApiError + T) fc n e tr :
  attempt fuel r d fn fc = Some tr → (fc ≤ n)%nat →
  fn n = inl e → shouldRetry r n e = false →
  (calls tr ≤ S (n - fc))%nat ∧ (calls tr = S (n - fc) → rejection tr = Some e).
Proof.
  revert fc tr. induction fuel as [|fuel IH]; intros fc tr Hrun Hle Hfn Hno; [done|].
  simpl in Hrun. destruct (fn fc) as [e'|v] eqn:Hfc.
  - destruct (shouldRetry r fc e') eqn:Hretry.
    + destruct (attempt fuel r d fn (S fc)) as [tr'|] eqn:Hrest; [|done].
      simpl in Hrun. injection Hrun as <-.
      assert (fc ≠ n) as Hne by (intros ->; congruence).
      destruct (IH (S fc) tr' Hrest ltac:(lia) Hfn Hno) as [Hc Hr].
      rewrite calls_cons_call, calls_cons_sleep. split; [lia|].
      intros Heq. rewrite <- Hr by lia.
      destruct tr' as [|x tr'']; [|done].
      change (calls (T := T) []) with 0%nat in Heq. lia.
    + injection Hrun as <-.
      change (calls [EvCall; EvReject e']) with 1%nat.
      split; [lia|]. intros Heq. assert (n = fc) as -> by lia.
      rewrite Hfc in Hfn. by injection Hfn as ->.
  - injection Hrun as <-.
    change (calls [EvCall; EvResolve v]) with 1%nat.
    split; [lia|]. intros Heq. assert (n = fc) as -> by lia. congruence.
Qed.

Lemma attempt_number1_settles (fn : nat → ApiError + T) (k : nat) :
  ∃ tr, attempt (2 + k) (RetryNumber 1) None fn 0 = Some tr
        ∧ (calls tr ≤ 2)%nat ∧ earlyRejections tr = [].
Proof.
  simpl.
  destruct (fn 0%nat) as [e0|d0]; [|settles]. simpl.
  destruct (fn 1%nat) as [e1|d1]; settles.
Qed.

End RetryFacts.

(** C3, as the code has it. For the provider's default query options and
    for every hook that keeps or repeats them (dashboard stats, agents,
    tasks): the retry loop settles within at most three retries (four
    invocations of the fetch), and the error is handed on only as the
    loop's last step; a failure with any 4xx status, 429 included, is
    never retried, whether it is the first failure or follows others:
    the retry predicate refuses it at every failure count, the fetch is
    never invoked again after the invocation that met it, and the loop
    rejects with that error; failures that are not client errors
    (network error, 5xx) are retried after 1 s, 2 s and 4 s, and the
    fourth failure is the one recorded.  The health-check hook has a
    policy of its own: three retries for any error, each after a fixed
    1 s. *)
Theorem query_retry_policy {T : Type} (queryFn : nat → Retryer.ApiError + T)
    (k : nat) (o : Hooks.QueryOptions) :
  o = Hooks.appProviderQueries ∨ o = Hooks.useOptimizedDashboardStats_options
  ∨ o = Hooks.useAgents_options ∨ o = Hooks.useOptimizedTasks_options →
  (∃ tr, Hooks.runQueryFn (4 + k) Hooks.appProviderQueries o queryFn = Some tr
         ∧ (Retryer.calls tr ≤ 4)%nat ∧ Retryer.earlyRejections tr = [])
  ∧ ((∃ r, Hooks.effectiveRetry Hooks.appProviderQueries o = Some r
            ∧ ∀ failureCount e, Retryer.isClientError e = true →
                Retryer.shouldRetry r failureCount e = false)
     ∧ (∀ n e, queryFn n = inl e → Retryer.isClientError e = true →
          ∃ tr, Hooks.runQueryFn (4 + k) Hooks.appProviderQueries o queryFn = Some tr
                ∧ (Retryer.calls tr ≤ S n)%nat
                ∧ (Retryer.calls tr = S n → Retryer.rejection tr = Some e))
     ∧ (∀ e, queryFn 0%nat = inl e → Retryer.isClientError e = true →
          Hooks.runQueryFn (4 + k) Hooks.appProviderQueries o queryFn
          = Some [Retryer.EvCall; Retryer.EvReject e]))
  ∧ (∀ e0 e1 e2 e3,
       queryFn 0%nat = inl e0 → queryFn 1%nat = inl e1 →
       queryFn 2%nat = inl e2 → queryFn 3%nat = inl e3 →
       Retryer.isClientError e0 = false → Retryer.isClientError e1 = false →
       Retryer.isClientError e2 = false →
       Hooks.runQueryFn (4 + k) Hooks.appProviderQueries o queryFn
       = Some [Retryer.EvCall; Retryer.EvSleep 1000; Retryer.EvCall; Retryer.EvSleep 2000;
               Retryer.EvCall; Retryer.EvSleep 4000; Retryer.EvCall; Retryer.EvReject e3])
  ∧ (∀ e0 e1 e2 e3,
       queryFn 0%nat = inl e0 → queryFn 1%nat = inl e1 →
       queryFn 2%nat = inl e2 → queryFn 3%nat = inl e3 →
       Hooks.runQueryFn (4 + k) Hooks.appProviderQueries Hooks.useApiHealth_options queryFn
       = Some [Retryer.EvCall; Retryer.EvSleep 1000; Retryer.EvCall; Retryer.EvSleep 1000;
               Retryer.EvCall; Retryer.EvSleep 1000; Retryer.EvCall; Retryer.EvReject e3]).
Proof.
  intros Ho.
  assert (Hrun : Hooks.runQueryFn (4 + k) Hooks.appProviderQueries o queryFn
                 = Retryer.attempt (4 + k) (Retryer.RetryFn Hooks.retryUnless4xx) None queryFn 0).
  { destruct Ho as [->|[->|[->| ->]]]; reflexivity. }
  assert (Hretry : Hooks.effectiveRetry Hooks.appProviderQueries o
                   = Some (Retryer.RetryFn Hooks.retryUnless4xx)).
  { destruct Ho as [->|[->|[->| ->]]]; reflexivity. }
  rewrite Hrun. split; [|split; [|split]].
  - apply attempt_retryUnless4xx_settles.
  - split; [|split].
    + eexists. split; [exact Hretry|].
      intros failureCount e. apply retryUnless4xx_client_error.
    + intros n e Hfn He.
      destruct (attempt_retryUnless4xx_settles queryFn k) as (tr & Htr & _).
      exists tr. split; [done|].
      pose proof (attempt_stops_at _ _ _ _ _ n e tr Htr (Nat.le_0_l n) Hfn
                    (retryUnless4xx_client_error n e He)) as Hstop.
      by rewrite Nat.sub_0_r in Hstop.
    + intros e. apply attempt_retryUnless4xx_client_error.
  - intros e0 e1 e2 e3. apply attempt_retryUnless4xx_transient.
  - intros e0 e1 e2 e3. apply attempt_number3_fixed_delay.
Qed.

(** C3 at concrete inputs: the provider's defaults with a server that
    answers 503 every time, and with one that answers 503 and then 404. *)
Lemma query_retry_policy_witness :
  let e := Retryer.mkApiError (Some 503) "Error" in
  let notFound := Retryer.mkApiError (Some 404) "Error" in
  Hooks.runQueryFn 4 Hooks.appProviderQueries Hooks.appProviderQueries
                   (λ _, inl e : Retryer.ApiError + unit)
  = Some [Retryer.EvCall; Retryer.EvSleep 1000; Retryer.EvCall; Retryer.EvSleep 2000;
          Retryer.EvCall; Retryer.EvSleep 4000; Retryer.EvCall; Retryer.EvReject e]
  ∧ ∃ tr, Hooks.runQueryFn 4 Hooks.appProviderQueries Hooks.appProviderQueries
            (λ n, match n with O => inl e | S _ => inl notFound end : Retryer.ApiError + unit)
          = Some tr
          ∧ (Retryer.calls tr ≤ 2)%nat
          ∧ (Retryer.calls tr = 2%nat → Retryer.rejection tr = Some notFound).
Proof.
  intros e notFound. split.
  - exact (proj1 (proj2 (proj2
             (query_retry_policy (λ _, inl e : Retryer.ApiError + unit) 0
                                 Hooks.appProviderQueries (or_introl eq_refl))))
             e e e e eq_refl eq_refl eq_refl eq_refl eq_refl eq_refl eq_refl).
  - exact (proj1 (proj2 (proj1 (proj2
             (query_retry_policy
                (λ n, match n with O => inl e | S _ => inl notFound end : Retryer.ApiError + unit)
                0 Hooks.appProviderQueries (or_introl eq_refl)))))
             1%nat notFound eq_refl eq_refl).
Defined.

(** C3 as stated fails on the health-check hook: a 404, a 4xx that is
    not 429, is retried three times, and the delays are 1 s each, not
    1 s, 2 s, 4 s. *)
Lemma useApiHealth_retries_404_fixed_delay :
  let e := Retryer.mkApiError (Some 404) "Error" in
  ∃ tr, Hooks.runQueryFn 4 Hooks.appProviderQueries Hooks.useApiHealth_options
                         (λ _, inl e : Retryer.ApiError + unit) = Some tr
        ∧ Retryer.isClientError e = true
        ∧ Retryer.calls tr = 4%nat
        ∧ Retryer.sleeps tr = [1000; 1000; 1000]
        ∧ Retryer.sleeps tr ≠ [1000; 2000; 4000].
Proof. intros e. eexists. split; [reflexivity|]. repeat split. discriminate. Qed.

(** C1, as the code has it. Under the provider's mutation options a
    write function is invoked at most twice, the error is handed to the
    caller only as the loop's last step, a write that fails twice is
    rejected with the second error after one retry, and a write that
    fails once and then succeeds resolves; this is so for every error,
    whatever its kind. *)
Theorem mutation_retried_once {T : Type} (writeFn : nat → Retryer.ApiError + T) (k : nat) :
  (∃ tr, Hooks.runMutationFn (2 + k) Hooks.appProviderMutations writeFn = Some tr
         ∧ (Retryer.calls tr ≤ 2)%nat ∧ Retryer.earlyRejections tr = [])
  ∧ (∀ e0 e1, writeFn 0%nat = inl e0 → writeFn 1%nat = inl e1 →
       Hooks.runMutationFn (2 + k) Hooks.appProviderMutations writeFn
       = Some [Retryer.EvCall; Retryer.EvSleep 1000; Retryer.EvCall; Retryer.EvReject e1])
  ∧ (∀ e0 d, writeFn 0%nat = inl e0 → writeFn 1%nat = inr d →
       Hooks.runMutationFn (2 + k) Hooks.appProviderMutations writeFn
       = Some [Retryer.EvCall; Retryer.EvSleep 1000; Retryer.EvCall; Retryer.EvResolve d]).
Proof.
  split; [|split].
  - apply attempt_number1_settles.
  - intros e0 e1 H0 H1. unfold Hooks.runMutationFn. simpl. by rewrite H0, H1.
  - intros e0 d H0 H1. unfold Hooks.runMutationFn. simpl. by rewrite H0, H1.
Qed.

(** C1 at a concrete input: a write that is rejected with a 422 both
    times. *)
Lemma mutation_retried_once_witness :
  let e := Retryer.mkApiError (Some 422) "Error" in
  Hooks.runMutationFn 2 Hooks.appProviderMutations (λ _, inl e : Retryer.ApiError + unit)
  = Some [Retryer.EvCall; Retryer.EvSleep 1000; Retryer.EvCall; Retryer.EvReject e].
Proof.
  intros e.
  exact (proj1 (proj2 (mutation_retried_once (λ _, inl e : Retryer.ApiError + unit) 0))
           e e eq_refl eq_refl).
Defined.

(** C1 as stated fails: with the provider's [retry: 1] a write function
    that rejects is invoked a second time. *)
Lemma mutation_writeFn_invoked_twice :
  ¬ (∀ (writeFn : nat → Retryer.ApiError + unit) (fuel : nat) tr,
       Hooks.runMutationFn fuel Hooks.appProviderMutations writeFn = Some tr →
       (Retryer.calls tr ≤ 1)%nat).
Proof.
  intros H.
  specialize (H (λ _, inl (Retryer.mkApiError (Some 500) "Error")) 2%nat _ eq_refl).
  vm_compute in H. lia.
Qed.

(* ===================================================================== *)
(** * Optimistic updates and their rollback *)
(* ===================================================================== *)

Section RollbackFacts.
Import QueryClient.
Context {D : Type}.

Lemma getQueryData_setQueryDataTo (c : gmap QueryKey (QueryState D)) k d k' :
  getQueryData (setQueryDataTo k d c) k'
  = if decide (k = k') then Some d else getQueryData c k'.
Proof.
  unfold setQueryDataTo, setQueryData, getQueryData.
  rewrite lookup_insert. by case_decide.
Qed.

Lemma getQueryData_setQueryData (c : gmap QueryKey (QueryState D)) k f k' :
  getQueryData (setQueryData k f c) k'
  = if decide (k = k')
    then match f (getQueryData c k) with Some d => Some d | None => getQueryData c k end
    else getQueryData c k'.
Proof.
  unfold setQueryData.
  destruct (f (getQueryData c k)) as [d|] eqn:Hf.
  - unfold getQueryData at 1. rewrite lookup_insert. by case_decide.
  - case_decide; by subst.
Qed.

End RollbackFacts.

(** The sibling path: [useUpdateAgent] restores every key it patched.
    After a rejected write and the rollback, every query key reads what
    it read before the mutation started. *)
Lemma useUpdateAgent_rollback (now id : string) (data : AgentsData.UpdateAgentData)
    (e : Retryer.ApiError) (c : gmap QueryClient.QueryKey (QueryClient.QueryState AgentsData.Agent))
    (k : QueryClient.QueryKey) :
  QueryClient.getQueryData
    (QueryClient.mutateRejected (AgentsData.useUpdateAgent now) (id, data) e c) k
  = QueryClient.getQueryData c k.
Proof.
  unfold QueryClient.mutateRejected. simpl.
  destruct (QueryClient.getQueryData c (AgentsData.AGENTS_QUERY_KEYS_detail id))
    as [a|] eqn:Hprev; [|done].
  rewrite !getQueryData_setQueryDataTo. case_decide; [by subst | done].
Qed.

(** [updateAgentStatusMutation] restores the agents list whenever the
    list was in the cache when the mutation started. *)
Lemma updateAgentStatus_rollback_when_cached (agentId status : string)
    (e : Retryer.ApiError)
    (c : gmap QueryClient.QueryKey (QueryClient.QueryState (list Types.Agent)))
    (previousAgents : list Types.Agent) (k : QueryClient.QueryKey) :
  QueryClient.getQueryData c OptimizedData.QUERY_KEYS_agents = Some previousAgents →
  QueryClient.getQueryData
    (QueryClient.mutateRejected OptimizedData.updateAgentStatusMutation (agentId, status) e c) k
  = QueryClient.getQueryData c k.
Proof.
  intros Hprev. unfold QueryClient.mutateRejected. simpl. rewrite Hprev.
  rewrite getQueryData_setQueryDataTo, getQueryData_setQueryData.
  case_decide; [by subst | done].
Qed.

(** C2 at the failing inputs. (1) With the unfiltered and a filtered
    task list cached, [updateTaskStatusMutation] patches both, and after
    the write is rejected the rollback restores only the unfiltered one:
    the filtered list still shows the optimistic status, also after
    [onSettled].  (2) With an empty cache, [updateAgentStatusMutation]
    writes an empty agents list and the rollback leaves it there, where
    the snapshot had no data. *)
Theorem rollback_misses_patched_keys :
  let c := RollbackExample.cachedTasks in
  let after := QueryClient.mutateRejected OptimizedData.updateTaskStatusMutation
                 ("t1"%string, "completed"%string) RollbackExample.serverError c in
  let filtered := OptimizedData.tasksKey (Some RollbackExample.pendingFilter) in
  (QueryClient.getQueryData c filtered = Some [RollbackExample.t1]
   ∧ QueryClient.getQueryData after filtered
     = Some [Types.taskWithStatus RollbackExample.t1 "completed"]
   ∧ QueryClient.getQueryData
       (QueryClient.mutateRejectedSettled OptimizedData.updateTaskStatusMutation
          ("t1"%string, "completed"%string) RollbackExample.serverError c) filtered
     = Some [Types.taskWithStatus RollbackExample.t1 "completed"]
   ∧ QueryClient.getQueryData after OptimizedData.QUERY_KEYS_tasks
     = QueryClient.getQueryData c OptimizedData.QUERY_KEYS_tasks)
  ∧ (QueryClient.getQueryData (∅ : gmap _ (QueryClient.QueryState (list Types.Agent)))
       OptimizedData.QUERY_KEYS_agents = None
     ∧ QueryClient.getQueryData
         (QueryClient.mutateRejected OptimizedData.updateAgentStatusMutation
            ("a1"%string, "paused"%string) RollbackExample.serverError ∅)
         OptimizedData.QUERY_KEYS_agents = Some []).
Proof. vm_compute. repeat split. Qed.

(* ===================================================================== *)
(** * Logout and the query cache *)
(* ===================================================================== *)

Section SessionFacts.
Import Session.
Context {D : Type}.

Lemma removeAuthItems_lookup (ls : gmap string string) :
  removeAuthItems ls !! "auth_token"%string = None
  ∧ removeAuthItems ls !! "refresh_token"%string = None
  ∧ removeAuthItems ls !! "user_data"%string = None.
Proof.
  unfold removeAuthItems. repeat split.
  - rewrite !lookup_delete_ne by done. apply lookup_delete_eq.
  - rewrite lookup_delete_ne by done. apply lookup_delete_eq.
  - apply lookup_delete_eq.
Qed.

Lemma removeAuthItems_idemp (ls : gmap string string) :
  removeAuthItems (removeAuthItems ls) = removeAuthItems ls.
Proof.
  apply map_eq. intros k. unfold removeAuthItems.
  rewrite !lookup_delete. repeat case_decide; done.
Qed.

Lemma logoutSession_unfold (w : Client D) :
  logoutSession w
  = mkClient (mkAuthState false None false None) (mkSessionState false false None None)
             (removeAuthItems (localStorage w)) (queryCache w)
             (toasts w ++ ["Logout Realizado"%string]) (timeouts w).
Proof.
  unfold logoutSession, toast, clearAuthToken, logout. simpl.
  by rewrite removeAuthItems_idemp.
Qed.

Lemma handleUnauthorized_unfold (w : Client D) :
  handleUnauthorized w
  = mkClient (authStore w) (sessionState w)
             (removeAuthItems (localStorage w)) (queryCache w)
             (toasts w ++ ["Sessão Expirada"%string])
             (timeouts w ++ [(2000, "/login"%string)]).
Proof. reflexivity. Qed.

End SessionFacts.

(** C4, as the code has it. The logout action of the auth store, the
    session hook's logout and the handler of a 401 response each remove
    the access token, the refresh token and the stored user from
    [localStorage] at once; the two logouts reset the auth state; the 401
    handler schedules the redirect to the login page 2 s later.  None of
    them touches the query cache: every entry reads afterwards what it
    read before.  Only [clearCache] empties it. *)
Theorem logout_keeps_query_cache {D : Type} (w : Session.Client D) :
  (∀ handler,
     handler = Session.logout ∨ handler = Session.logoutSession
     ∨ handler = Session.handleUnauthorized ∨ handler = Session.handleGlobalError 401 →
     Session.queryCache (handler w) = Session.queryCache w
     ∧ Session.localStorage (handler w) !! "auth_token"%string = None
     ∧ Session.localStorage (handler w) !! "refresh_token"%string = None
     ∧ Session.localStorage (handler w) !! "user_data"%string = None)
  ∧ Session.authStore (Session.logout w) = Session.mkAuthState false None false None
  ∧ Session.authStore (Session.logoutSession w) = Session.mkAuthState false None false None
  ∧ Session.timeouts (Session.handleUnauthorized w)
    = Session.timeouts w ++ [(2000, "/login"%string)]
  ∧ Session.queryCache (Session.clearCache w) = ∅.
Proof.
  split; [|done].
  intros handler [->|[->|[->| ->]]].
  - split; [done|]. apply removeAuthItems_lookup.
  - rewrite logoutSession_unfold. split; [done|]. apply removeAuthItems_lookup.
  - rewrite handleUnauthorized_unfold. split; [done|]. apply removeAuthItems_lookup.
  - change (Session.handleGlobalError 401 w) with (Session.handleUnauthorized w).
    rewrite handleUnauthorized_unfold. split; [done|]. apply removeAuthItems_lookup.
Qed.

(* ===================================================================== *)
(** * The polling schedule *)
(* ===================================================================== *)

Section PollingFacts.
Import Hooks Polling.

Lemma elem_of_ticks fuel interval t stop x :
  0 < interval →
  x ∈ ticks fuel interval t stop
  ↔ ∃ k, 1 ≤ k ≤ Z.of_nat fuel ∧ x = t + k * interval ∧ x < stop.
Proof.
  intros Hpos. revert t. induction fuel as [|fuel IH]; intros t; simpl.
  - split; [by intros ?%elem_of_nil | intros (k & ? & _); lia].
  - destruct (Z.ltb_spec (t + interval) stop) as [Hlt|Hge].
    + rewrite elem_of_cons, IH. split.
      * intros [-> | (k & Hk & -> & Hx)].
        -- exists 1. lia.
        -- exists (k + 1). lia.
      * intros (k & Hk & -> & Hx).
        destruct (decide (k = 1)) as [->|Hne]; [left; lia|].
        right. exists (k - 1). lia.
    + split; [by intros ?%elem_of_nil|].
      intros (k & Hk & -> & Hx). nia.
Qed.

Lemma elem_of_pollSchedule o interval subscribedAt unsubscribedAt x :
  refetchInterval o = Some interval → 0 < interval →
  x ∈ pollSchedule o subscribedAt unsubscribedAt
  ↔ ∃ k, 1 ≤ k ∧ x = subscribedAt + k * interval ∧ x < unsubscribedAt.
Proof.
  intros Ho Hpos. unfold pollSchedule. rewrite Ho.
  destruct (Z.ltb_spec 0 interval) as [_|?]; [|lia].
  rewrite elem_of_ticks by done. split.
  - intros (k & Hk & Hx & Hlt). exists k. lia.
  - intros (k & Hk & Hx & Hlt). exists k. split; [|done].
    assert (k ≤ (unsubscribedAt - subscribedAt) / interval)
      by (apply Z.div_le_lower_bound; lia).
    lia.
Qed.

End PollingFacts.

(** C7, as the code has it. While a live key has a subscriber, from
    [subscribedAt] until [unsubscribedAt], a background refetch is
    scheduled at every whole multiple of the hook's period after the
    subscription and at no other instant; the period is 60 s for the
    dashboard stats and 30 s for the task lists. *)
Theorem live_resources_polled (subscribedAt unsubscribedAt t : Z) :
  (t ∈ Polling.pollSchedule Hooks.useOptimizedDashboardStats_options subscribedAt unsubscribedAt
   ↔ ∃ k, 1 ≤ k ∧ t = subscribedAt + k * 60000 ∧ t < unsubscribedAt)
  ∧ (t ∈ Polling.pollSchedule Hooks.useOptimizedTasks_options subscribedAt unsubscribedAt
     ↔ ∃ k, 1 ≤ k ∧ t = subscribedAt + k * 30000 ∧ t < unsubscribedAt).
Proof. split; by apply elem_of_pollSchedule. Qed.

(** C7 at a concrete subscription: stats watched for 100 s are refetched
    at 60 s. *)
Lemma live_resources_polled_witness :
  60000 ∈ Polling.pollSchedule Hooks.useOptimizedDashboardStats_options 0 100000.
Proof.
  apply (proj1 (live_resources_polled 0 100000 60000)).
  exists 1. lia.
Defined.

(** C7 as stated fails: the dashboard stats are not refetched every 30 s;
    over the first 100 s the only refetch is the one at 60 s. *)
Lemma dashboardStats_not_polled_every_30s :
  Hooks.refetchInterval Hooks.useOptimizedDashboardStats_options ≠ Some 30000
  ∧ Polling.pollSchedule Hooks.useOptimizedDashboardStats_options 0 100000 = [60000]
  ∧ 30000 ∉ Polling.pollSchedule Hooks.useOptimizedDashboardStats_options 0 100000.
Proof.
  split; [discriminate|]. split; [reflexivity|].
  change (Polling.pollSchedule Hooks.useOptimizedDashboardStats_options 0 100000)
    with [60000].
  intros [?|?%elem_of_nil]%elem_of_cons; done.
Qed.

(* ===================================================================== *)
(** * Stale-while-revalidate *)
(* ===================================================================== *)

Section FetchCoordinatorFacts.
Import FetchCoordinator.
Context {D : Type}.

Lemma ensureFresh_fetching now (e : CacheEntry D) :
  status e = Fetching → ensureFresh now e = (data e, JoinInFlight, e).
Proof. intros H. unfold ensureFresh. by rewrite H. Qed.

Lemma ensureFreshAll_fetching nows (e : CacheEntry D) :
  status e = Fetching →
  ensureFreshAll nows e = (replicate (length nows) (data e, JoinInFlight), e).
Proof.
  intros H. induction nows as [|now nows IH]; [done|].
  simpl. rewrite ensureFresh_fetching by done. by rewrite IH.
Qed.

Lemma ensureFresh_stale now (e : CacheEntry D) t :
  status e = Success → fetchedAt e = Some t → staleAfter e < now - t →
  ensureFresh now e
  = (data e, StartFetch (S (generation e)),
     mkEntry (data e) Fetching (error e) (fetchedAt e) (staleAfter e)
             (gcAfter e) (subscriberCount e) (S (generation e))).
Proof.
  intros Hs Hf Hlt. unfold ensureFresh, isStale. rewrite Hs, Hf.
  destruct (Z.ltb_spec (staleAfter e) (now - t)); [done | lia].
Qed.

End FetchCoordinatorFacts.

(** C6. An entry with status Success whose age exceeds its staleness
    window: [ensureFresh] returns the cached data at once and starts one
    fetch under the next generation, leaving the entry fetching with the
    same data; every request made before that fetch settles is served
    the same data and joins the fetch in flight, the entry unchanged;
    when the fetch succeeds its result replaces the data. *)
Theorem stale_entry_served_while_revalidating {D : Type}
    (e : FetchCoordinator.CacheEntry D) (now t : Z) (d : D) (later : list Z) :
  FetchCoordinator.status e = FetchCoordinator.Success →
  FetchCoordinator.data e = Some d →
  FetchCoordinator.fetchedAt e = Some t →
  now - t > FetchCoordinator.staleAfter e →
  let r := FetchCoordinator.ensureFresh now e in
  r.1.1 = Some d
  ∧ r.1.2 = FetchCoordinator.StartFetch (S (FetchCoordinator.generation e))
  ∧ FetchCoordinator.status r.2 = FetchCoordinator.Fetching
  ∧ FetchCoordinator.data r.2 = Some d
  ∧ FetchCoordinator.ensureFreshAll later r.2
    = (replicate (length later) (Some d, FetchCoordinator.JoinInFlight), r.2)
  ∧ (∀ now' d',
       let e' := FetchCoordinator.settleFetch now' (S (FetchCoordinator.generation e))
                   (inr d') r.2 in
       FetchCoordinator.data e' = Some d'
       ∧ FetchCoordinator.status e' = FetchCoordinator.Success
       ∧ FetchCoordinator.fetchedAt e' = Some now').
Proof.
  intros Hs Hd Hf Hlt r. subst r.
  rewrite (ensureFresh_stale now e t) by (done || lia). simpl.
  split; [done|]. split; [done|]. split; [done|]. split; [done|]. split.
  - rewrite ensureFreshAll_fetching by done. simpl. by rewrite Hd.
  - intros now' d'. unfold FetchCoordinator.settleFetch. simpl.
    by rewrite bool_decide_true.
Qed.

(* ===================================================================== *)
(** * Derived data of the application store *)
(* ===================================================================== *)

Section OptimizedStoreFacts.
Import Types OptimizedStore.

Lemma positive_nonzero den : positive den = true → Qeq_bool den 0 = false.
Proof.
  unfold positive. intros Hpos. apply negb_true_iff in Hpos.
  destruct (Qeq_bool den 0) eqn:Heq; [|done].
  apply Qeq_bool_iff in Heq.
  assert (Qle_bool den 0 = true) as Hle
    by (apply Qle_bool_iff; rewrite Heq; apply Qle_refl).
  congruence.
Qed.

Lemma positive_zero den : (den == 0)%Q → positive den = false.
Proof.
  intros Heq. unfold positive. apply negb_false_iff.
  apply Qle_bool_iff. rewrite Heq. apply Qle_refl.
Qed.

(** The guarded ratio always has a value, and it is 0 when the divisor
    is 0. *)
Lemma percentage_total num den :
  ∃ q, percentage num den = Some q ∧ ((den == 0)%Q → q = 0%Q).
Proof.
  unfold percentage, divide.
  destruct (positive den) eqn:Hpos.
  - rewrite (positive_nonzero den Hpos). simpl. eexists. split; [done|].
    intros Heq. apply positive_zero in Heq. congruence.
  - by eexists.
Qed.

Lemma filter_inactive (l1 l2 : list Campaign) c :
  ¬ isActive c → filter isActive (l1 ++ c :: l2) = filter isActive (l1 ++ l2).
Proof. intros Hc. rewrite !filter_app. by rewrite filter_cons_False. Qed.

Lemma jsSlice_length {A : Type} (l : list A) (start end_ : Z) :
  0 ≤ start → start ≤ end_ → Z.of_nat (length (jsSlice l start end_)) ≤ end_ - start.
Proof.
  intros Hs He. unfold jsSlice.
  destruct (Z.ltb_spec start 0); [lia|].
  destruct (Z.ltb_spec end_ 0); [lia|].
  rewrite length_take. lia.
Qed.

End OptimizedStoreFacts.

(** C9. For every list of campaigns the metrics are computed without any
    division by zero; the totals are those of the campaigns whose status
    is 'active', so that removing a campaign that is not active changes
    nothing; a zero total of impressions gives avgCTR 0, a zero total of
    clicks gives avgCVR 0, and a zero total budget gives
    budgetUtilization 0. *)
Theorem useCampaignMetrics_never_divides_by_zero (campaigns : list Types.Campaign) :
  ∃ m, OptimizedStore.useCampaignMetrics campaigns = Some m
    ∧ OptimizedStore.metrics m
      = foldl OptimizedStore.addCampaign OptimizedStore.zeroTotals
              (filter OptimizedStore.isActive campaigns)
    ∧ OptimizedStore.activeCampaigns m = length (filter OptimizedStore.isActive campaigns)
    ∧ ((OptimizedStore.totalImpressions (OptimizedStore.metrics m) == 0)%Q →
       OptimizedStore.avgCTR m = 0%Q)
    ∧ ((OptimizedStore.totalClicks (OptimizedStore.metrics m) == 0)%Q →
       OptimizedStore.avgCVR m = 0%Q)
    ∧ ((OptimizedStore.totalBudget (OptimizedStore.metrics m) == 0)%Q →
       OptimizedStore.budgetUtilization m = 0%Q)
    ∧ (∀ l1 c l2, campaigns = l1 ++ c :: l2 → ¬ OptimizedStore.isActive c →
         OptimizedStore.useCampaignMetrics (l1 ++ l2) = Some m).
Proof.
  assert (Hrun : ∀ cs, ∃ m, OptimizedStore.useCampaignMetrics cs = Some m
      ∧ OptimizedStore.metrics m
        = foldl OptimizedStore.addCampaign OptimizedStore.zeroTotals
                (filter OptimizedStore.isActive cs)
      ∧ OptimizedStore.activeCampaigns m = length (filter OptimizedStore.isActive cs)
      ∧ ((OptimizedStore.totalImpressions (OptimizedStore.metrics m) == 0)%Q →
         OptimizedStore.avgCTR m = 0%Q)
      ∧ ((OptimizedStore.totalClicks (OptimizedStore.metrics m) == 0)%Q →
         OptimizedStore.avgCVR m = 0%Q)
      ∧ ((OptimizedStore.totalBudget (OptimizedStore.metrics m) == 0)%Q →
         OptimizedStore.budgetUtilization m = 0%Q)).
  { intros cs. unfold OptimizedStore.useCampaignMetrics.
    set (t := foldl OptimizedStore.addCampaign OptimizedStore.zeroTotals
                    (filter OptimizedStore.isActive cs)).
    destruct (percentage_total (OptimizedStore.totalClicks t)
                               (OptimizedStore.totalImpressions t)) as (ctr & -> & Hctr).
    destruct (percentage_total (OptimizedStore.totalConversions t)
                               (OptimizedStore.totalClicks t)) as (cvr & -> & Hcvr).
    destruct (percentage_total (OptimizedStore.totalSpent t)
                               (OptimizedStore.totalBudget t)) as (bu & -> & Hbu).
    simpl. eexists. split; [reflexivity|]. simpl. done. }
  destruct (Hrun campaigns) as (m & Hm & Hmetrics & Hcount & Hctr & Hcvr & Hbu).
  exists m. repeat (split; [done|]).
  intros l1 c l2 -> Hc. rewrite <- Hm.
  unfold OptimizedStore.useCampaignMetrics. by rewrite filter_inactive.
Qed.

(** C10. With [page ≥ 1] and [pageSize ≥ 0] the page returned holds at
    most [pageSize] tasks, [total] is the number of tasks that pass the
    filters, [hasNext] holds exactly when [page * pageSize < total], and
    [hasPrevious] exactly when [page > 1]. *)
Theorem useFilteredTasks_pagination (parseDate : string → option Z)
    (state : OptimizedStore.TaskSlice) :
  1 ≤ OptimizedStore.page (OptimizedStore.taskPagination state) →
  0 ≤ OptimizedStore.pageSize (OptimizedStore.taskPagination state) →
  let r := OptimizedStore.useFilteredTasks parseDate state in
  let passing := filter (λ task, OptimizedStore.taskPasses parseDate
                                   (OptimizedStore.taskFilters state) task = true)
                        (OptimizedStore.tasks state) in
  Z.of_nat (length (OptimizedStore.pageTasks r))
    ≤ OptimizedStore.pageSize (OptimizedStore.taskPagination state)
  ∧ OptimizedStore.total r = Z.of_nat (length passing)
  ∧ (OptimizedStore.hasNext r = true
     ↔ OptimizedStore.page (OptimizedStore.taskPagination state)
       * OptimizedStore.pageSize (OptimizedStore.taskPagination state)
       < OptimizedStore.total r)
  ∧ (OptimizedStore.hasPrevious r = true
     ↔ OptimizedStore.page (OptimizedStore.taskPagination state) > 1).
Proof.
  intros Hpage Hsize r passing. subst r passing.
  unfold OptimizedStore.useFilteredTasks. simpl.
  split; [|split; [done|split]].
  - etrans; [apply jsSlice_length; nia|]. lia.
  - rewrite Z.ltb_lt. lia.
  - rewrite Z.ltb_lt. lia.
Qed.

(* ===================================================================== *)
(** * The theorems at concrete inputs *)
(* ===================================================================== *)

(** C4 at a concrete client: the session hook's logout on a signed-in
    client leaves the cache as it was and removes the tokens. *)
Lemma logout_keeps_query_cache_witness :
  Session.queryCache (Session.logoutSession SessionExample.signedIn)
  = Session.queryCache SessionExample.signedIn
  ∧ Session.localStorage (Session.logoutSession SessionExample.signedIn) !! "auth_token"%string = None
  ∧ Session.localStorage (Session.logoutSession SessionExample.signedIn) !! "refresh_token"%string = None
  ∧ Session.localStorage (Session.logoutSession SessionExample.signedIn) !! "user_data"%string = None.
Proof.
  exact (proj1 (logout_keeps_query_cache SessionExample.signedIn)
               Session.logoutSession (or_intror (or_introl eq_refl))).
Defined.

(** C4 as stated fails: after the logout handler, and after the 401
    handler, the agents list cached during the previous session is still
    readable. *)
Lemma logout_leaves_cached_entry_readable :
  QueryClient.getQueryData
    (Session.queryCache (Session.logoutSession SessionExample.signedIn))
    OptimizedData.QUERY_KEYS_agents = Some [SessionExample.agent1]
  ∧ QueryClient.getQueryData
      (Session.queryCache (Session.logout SessionExample.signedIn))
      OptimizedData.QUERY_KEYS_agents = Some [SessionExample.agent1]
  ∧ QueryClient.getQueryData
      (Session.queryCache (Session.handleGlobalError 401 SessionExample.signedIn))
      OptimizedData.QUERY_KEYS_agents = Some [SessionExample.agent1].
Proof. vm_compute. repeat split. Qed.

(** C6 at a concrete entry: the agents list fetched at instant 0 is
    requested one millisecond after its five minutes have passed, and
    twice more while the refetch is in flight. *)
Lemma stale_entry_served_while_revalidating_witness :
  ∃ e, StaleExample.agentsEntry = Some e
       ∧ (FetchCoordinator.ensureFresh 300001 e).1.1 = Some [SessionExample.agent1]
       ∧ (FetchCoordinator.ensureFresh 300001 e).1.2 = FetchCoordinator.StartFetch 1
       ∧ (FetchCoordinator.ensureFreshAll [300002; 300500]
            (FetchCoordinator.ensureFresh 300001 e).2).1
         = [(Some [SessionExample.agent1], FetchCoordinator.JoinInFlight);
            (Some [SessionExample.agent1], FetchCoordinator.JoinInFlight)].
Proof.
  eexists. split; [reflexivity|].
  pose proof (stale_entry_served_while_revalidating
                (FetchCoordinator.mkEntry (Some [SessionExample.agent1])
                   FetchCoordinator.Success None (Some 0) (5 * 60 * 1000)
                   (10 * 60 * 1000) 1 0)
                300001 0 [SessionExample.agent1] [300002; 300500]
                eq_refl eq_refl eq_refl eq_refl) as (Hseen & Hact & _ & _ & Hlater & _).
  split; [exact Hseen|]. split; [exact Hact|].
  exact (f_equal fst Hlater).
Defined.

(** C8 at a concrete run: two controllers created in a row; the first is
    aborted and the second is the only live one, and unmounting aborts
    the second. *)
Lemma createController_at_most_one_live_witness :
  let h := UseAbortController.run
             [UseAbortController.OpCreateController; UseAbortController.OpCreateController]
             UseAbortController.initHolder in
  UseAbortController.controllers h = [true; false]
  ∧ (∀ i, UseAbortController.live h i → i = 1%nat)
  ∧ UseAbortController.controllers (UseAbortController.unmount h) !! 1%nat = Some true.
Proof.
  intros h. split; [reflexivity|]. split.
  - intros i Hi.
    exact (proj2 (proj2 (proj2 (createController_at_most_one_live
             [UseAbortController.OpCreateController; UseAbortController.OpCreateController])))
             i 1%nat Hi eq_refl).
  - exact (proj1 (proj1 (proj2 (proj2 (createController_at_most_one_live
             [UseAbortController.OpCreateController; UseAbortController.OpCreateController]))))
             1%nat eq_refl).
Defined.

(** C9 at a concrete store: one active campaign without impressions,
    clicks or spend, and one paused campaign. *)
Lemma useCampaignMetrics_never_divides_by_zero_witness :
  ∃ m, OptimizedStore.useCampaignMetrics [StoreExample.fresh; StoreExample.paused] = Some m
       ∧ OptimizedStore.activeCampaigns m = 1%nat
       ∧ OptimizedStore.avgCTR m = 0%Q
       ∧ OptimizedStore.avgCVR m = 0%Q
       ∧ OptimizedStore.useCampaignMetrics [StoreExample.fresh] = Some m.
Proof.
  destruct (useCampaignMetrics_never_divides_by_zero [StoreExample.fresh; StoreExample.paused])
    as (m & Hm & Hmetrics & Hcount & Hctr & Hcvr & _ & Hinactive).
  exists m. split; [exact Hm|]. split; [exact Hcount|].
  split; [apply Hctr; rewrite Hmetrics; reflexivity|].
  split; [apply Hcvr; rewrite Hmetrics; reflexivity|].
  apply (Hinactive [StoreExample.fresh] StoreExample.paused []); [reflexivity|discriminate].
Defined.

(** C10 at a concrete store: three tasks, first page of two. *)
Lemma useFilteredTasks_pagination_witness :
  let r := OptimizedStore.useFilteredTasks StoreExample.noDates StoreExample.firstPage in
  Z.of_nat (length (OptimizedStore.pageTasks r)) ≤ 2
  ∧ OptimizedStore.total r = 3
  ∧ (OptimizedStore.hasNext r = true ↔ 1 * 2 < OptimizedStore.total r)
  ∧ (OptimizedStore.hasPrevious r = true ↔ 1 > 1).
Proof.
  exact (useFilteredTasks_pagination StoreExample.noDates StoreExample.firstPage
           ltac:(simpl; lia) ltac:(simpl; lia)).
Defined.

(* ===================================================================== *)
(** * The application store *)
(* ===================================================================== *)

Section AppStoreFacts.
Import Types AppStore.

Lemma jsSlice_take {A : Type} (l : list A) (n : Z) :
  0 ≤ n → OptimizedStore.jsSlice l 0 n = take (Z.to_nat n) l.
Proof.
  intros Hn. unfold OptimizedStore.jsSlice.
  destruct (Z.ltb_spec 0 0); [lia|]. destruct (Z.ltb_spec n 0); [lia|].
  rewrite (Z.min_l 0) by lia. simpl. rewrite drop_0, Z.sub_0_r.
  destruct (Z.le_gt_cases n (Z.of_nat (length l))).
  - by rewrite Z.min_l by lia.
  - rewrite Z.min_r by lia. rewrite Nat2Z.id.
    rewrite (take_ge l (length l)) by lia. by rewrite (take_ge l (Z.to_nat n)) by lia.
Qed.

Lemma addNotification_take n uuid now s :
  notifications (addNotification n uuid now s)
  = take 50 (newNotification n uuid now :: notifications s).
Proof.
  unfold addNotification. simpl.
  destruct (Z.ltb_spec 50 (Z.of_nat (S (length (notifications s))))).
  - rewrite jsSlice_take by lia. reflexivity.
  - f_equal. symmetry. apply take_ge. lia.
Qed.

Section AssignFirst.
Context {A : Type} (P : A → Prop) `{!∀ x, Decision (P x)} (f : A → A).

Lemma assignFirst_absent l : Forall (λ x, ¬ P x) l → assignFirst P f l = l.
Proof. intros Hno. unfold assignFirst. by rewrite (proj2 (list_find_None P l) Hno). Qed.

Lemma assignFirst_first l1 x l2 :
  Forall (λ y, ¬ P y) l1 → P x → assignFirst P f (l1 ++ x :: l2) = l1 ++ f x :: l2.
Proof.
  intros Hl1 Hx. unfold assignFirst.
  rewrite list_find_app_r by (by apply list_find_None).
  simpl. rewrite decide_True by done. simpl.
  induction l1 as [|y l1 IH]; [done|].
  simpl. f_equal. apply IH. by inversion Hl1.
Qed.

Lemma assignFirst_length l : length (assignFirst P f l) = length l.
Proof.
  unfold assignFirst. destruct (list_find P l) as [[i x]|]; [|done].
  apply length_alter.
Qed.

End AssignFirst.

Lemma with_agents_id f s : f (agents s) = agents s → with_agents f s = s.
Proof. intros H. destruct s. unfold with_agents. simpl in *. by rewrite H. Qed.

Lemma with_tasks_id f s : f (tasks s) = tasks s → with_tasks f s = s.
Proof. intros H. destruct s. unfold with_tasks. simpl in *. by rewrite H. Qed.

Lemma filter_all {A : Type} (P : A → Prop) `{!∀ x, Decision (P x)} (l : list A) :
  Forall P l → filter P l = l.
Proof.
  induction 1 as [|x l Hx _ IH]; [done|].
  rewrite filter_cons_True by done. by rewrite IH.
Qed.

(** The number of unread notifications. *)
Lemma unread_count_app (l1 l2 : list Notification) :
  length (filter (λ n, read n = false) (l1 ++ l2))
  = (length (filter (λ n, read n = false) l1)
     + length (filter (λ n, read n = false) l2))%nat.
Proof. by rewrite filter_app, length_app. Qed.

Lemma auth_step loadedAt s a :
  isAuthenticated s = signedIn s →
  isAuthenticated (step loadedAt s a) = signedIn (step loadedAt s a).
Proof.
  intros H. destruct s as [u ? ? ? ? ? ? ? ? ? ? ? ? ? ? ? ?].
  unfold signedIn in *. simpl in H. subst.
  destruct a; simpl; try done; by destruct u.
Qed.

Lemma notifications_step loadedAt s a :
  (length (notifications s) ≤ 50)%nat →
  (length (notifications (step loadedAt s a)) ≤ 50)%nat.
Proof.
  intros H. destruct a; unfold step;
    try (rewrite addNotification_take, length_take; lia);
    try (simpl; rewrite assignFirst_length; done);
    try (simpl; etrans; [apply length_filter|done]);
    try (simpl; lia); done.
Qed.

End AppStoreFacts.

Lemma foldl_invariant {S A : Type} (I : S → Prop) (f : S → A → S) (l : list A) (s : S) :
  (∀ s a, I s → I (f s a)) → I s → I (foldl f s l).
Proof.
  intros Hstep. revert s. induction l as [|a l IH]; intros s Hs; [done|].
  simpl. apply IH. by apply Hstep.
Qed.

Lemma filter_ext_in {A : Type} (P Q : A → Prop) `{!∀ x, Decision (P x)}
    `{!∀ x, Decision (Q x)} (l : list A) :
  (∀ x, x ∈ l → P x ↔ Q x) → filter P l = filter Q l.
Proof.
  induction l as [|x l IH]; intros Hl; [done|].
  assert (filter P l = filter Q l) as IH'
    by (apply IH; intros y Hy; apply Hl; by right).
  destruct (decide (P x)) as [Hp|Hp].
  - rewrite !filter_cons_True; [by rewrite IH' | by apply Hl; [left|] | done].
  - rewrite !filter_cons_False; [done | | done].
    intros Hq. apply Hp. by apply Hl; [left|].
Qed.

(** X1. Whatever actions have been dispatched on the application store
    since it was created, [isAuthenticated] is true exactly when a user
    is stored. *)
Theorem store_auth_flag_tracks_user (loadedAt : string) (actions : list AppStore.Action) :
  AppStore.isAuthenticated (AppStore.run loadedAt actions) = true
  ↔ is_Some (AppStore.user (AppStore.run loadedAt actions)).
Proof.
  assert (H : AppStore.isAuthenticated (AppStore.run loadedAt actions)
              = AppStore.signedIn (AppStore.run loadedAt actions)).
  { unfold AppStore.run. apply foldl_invariant; [apply auth_step | done]. }
  rewrite H. unfold AppStore.signedIn.
  destruct (AppStore.user (AppStore.run loadedAt actions)); split;
    try done; try (by eexists); by intros [? ?].
Qed.

(** X2. [addNotification] puts the new, unread notification first and
    keeps the first 50 entries of the list; so whatever actions have been
    dispatched since the store was created, it holds at most 50
    notifications. *)
Theorem store_keeps_at_most_50_notifications :
  (∀ n uuid now s,
     AppStore.notifications (AppStore.addNotification n uuid now s)
     = take 50 (AppStore.newNotification n uuid now :: AppStore.notifications s)
     ∧ AppStore.read (AppStore.newNotification n uuid now) = false)
  ∧ (∀ loadedAt actions,
       (length (AppStore.notifications (AppStore.run loadedAt actions)) ≤ 50)%nat).
Proof.
  split.
  - intros n uuid now s. split; [apply addNotification_take | done].
  - intros loadedAt actions. unfold AppStore.run.
    apply (foldl_invariant (λ s, (length (AppStore.notifications s) ≤ 50)%nat)).
    + apply notifications_step.
    + simpl. lia.
Qed.

(** X3. [removeAgent] drops every agent with the given id and keeps the
    others; adding an agent whose id is not yet in the store and removing
    it again gives back the store as it was. *)
Theorem removeAgent_round_trip (a : Types.Agent) (id : string) (s : AppStore.AppState) :
  (∀ b, b ∈ AppStore.agents (AppStore.removeAgent id s)
        ↔ b ∈ AppStore.agents s ∧ Types.agent_id b ≠ id)
  ∧ (Forall (λ b, Types.agent_id b ≠ Types.agent_id a) (AppStore.agents s) →
     AppStore.removeAgent (Types.agent_id a) (AppStore.addAgent a s) = s).
Proof.
  split.
  - intros b. simpl. rewrite list_elem_of_filter. tauto.
  - intros Hfresh. destruct s. unfold AppStore.removeAgent, AppStore.addAgent,
      AppStore.with_agents. simpl in *. f_equal.
    rewrite filter_app, filter_cons_False, filter_nil, app_nil_r by (by intros ?).
    by apply filter_all.
Qed.

(** X4. [updateTask] never changes the number of tasks; when no task has
    the id the store is unchanged; otherwise exactly the first task with
    that id receives the update. *)
Theorem updateTask_first_match (id : string) (updates : Types.Task → Types.Task)
    (s : AppStore.AppState) :
  length (AppStore.tasks (AppStore.updateTask id updates s)) = length (AppStore.tasks s)
  ∧ (Forall (λ t, Types.task_id t ≠ id) (AppStore.tasks s) →
     AppStore.updateTask id updates s = s)
  ∧ (∀ l1 t l2,
       AppStore.tasks s = l1 ++ t :: l2 →
       Forall (λ x, Types.task_id x ≠ id) l1 → Types.task_id t = id →
       AppStore.tasks (AppStore.updateTask id updates s) = l1 ++ updates t :: l2).
Proof.
  split; [|split].
  - simpl. apply assignFirst_length.
  - intros Habsent. apply with_tasks_id. by apply assignFirst_absent.
  - intros l1 t l2 Hs Hl1 Ht. simpl. rewrite Hs. by apply assignFirst_first.
Qed.

(** X5. [markNotificationRead] marks the first notification with the
    id: the unread count drops by one when that notification was unread
    and stays the same when it was already read or when no notification
    has the id. *)
Theorem markNotificationRead_unread_count (id : string) (s : AppStore.AppState) :
  (Forall (λ n, AppStore.notif_id n ≠ id) (AppStore.notifications s) →
   AppStore.markNotificationRead id s = s)
  ∧ (∀ l1 n l2,
       AppStore.notifications s = l1 ++ n :: l2 →
       Forall (λ x, AppStore.notif_id x ≠ id) l1 → AppStore.notif_id n = id →
       StoreSelectors.count (StoreSelectors.useUnreadNotifications
                               (AppStore.markNotificationRead id s))
       = (StoreSelectors.count (StoreSelectors.useUnreadNotifications s)
          - (if AppStore.read n then 0 else 1))%nat).
Proof.
  split.
  - intros Habsent. unfold AppStore.markNotificationRead.
    destruct s. unfold AppStore.with_notifications. simpl in *.
    by rewrite assignFirst_absent.
  - intros l1 n l2 Hs Hl1 Hn. simpl. rewrite Hs.
    rewrite assignFirst_first by done.
    rewrite !unread_count_app.
    destruct (AppStore.read n) eqn:Hread.
    + rewrite (filter_cons_False _ (AppStore.markRead n)) by done.
      rewrite (filter_cons_False _ n) by (by rewrite Hread). lia.
    + rewrite (filter_cons_False _ (AppStore.markRead n)) by done.
      rewrite (filter_cons_True _ n) by done. simpl. lia.
Qed.

Section ErrorFacts.
Import AppStore StoreSelectors.

Lemma hasAnyError_spec keys s :
  hasAnyError (useErrorState keys s) = true
  ↔ ∃ key, key ∈ keys ∧ OptimizedStore.truthy (errors s !! key) = true.
Proof.
  unfold useErrorState. simpl. rewrite existsb_exists. split.
  - intros (kv & Hin & Ht). apply list_elem_of_In, list_elem_of_fmap in Hin
      as (key & -> & Hkey). by exists key.
  - intros (key & Hkey & Ht). exists (key, errors s !! key). split; [|done].
    apply list_elem_of_In, list_elem_of_fmap. by exists key.
Qed.

End ErrorFacts.

(** X6. [setError] with a non-empty message makes [useErrorState] report
    an error for every list of keys that contains the key; with an empty
    message or none it deletes the key; other keys are never touched; and
    after [clearErrors] no list of keys reports an error. *)
Theorem setError_useErrorState (key : string) (s : AppStore.AppState) :
  (∀ e keys, OptimizedStore.truthy (Some e) = true → key ∈ keys →
     AppStore.errors (AppStore.setError key (Some e) s) !! key = Some e
     ∧ StoreSelectors.hasAnyError
         (StoreSelectors.useErrorState keys (AppStore.setError key (Some e) s)) = true)
  ∧ AppStore.errors (AppStore.setError key (Some ""%string) s) !! key = None
  ∧ AppStore.errors (AppStore.setError key None s) !! key = None
  ∧ (∀ e other, other ≠ key →
       AppStore.errors (AppStore.setError key e s) !! other = AppStore.errors s !! other)
  ∧ (∀ keys, StoreSelectors.hasAnyError
               (StoreSelectors.useErrorState keys (AppStore.clearErrors s)) = false).
Proof.
  split; [|split; [|split; [|split]]].
  - intros e keys He Hkey.
    assert (Hlook : AppStore.errors (AppStore.setError key (Some e) s) !! key = Some e).
    { simpl in He |- *. rewrite He. apply lookup_insert_eq. }
    split; [done|]. apply hasAnyError_spec. exists key. split; [done|]. by rewrite Hlook.
  - simpl. apply lookup_delete_eq.
  - simpl. apply lookup_delete_eq.
  - intros e other Hne. simpl. destruct e as [e|].
    + destruct (negb (e =? ""))%string.
      * by rewrite lookup_insert_ne.
      * by rewrite lookup_delete_ne.
    + by rewrite lookup_delete_ne.
  - intros keys. apply not_true_is_false. intros H.
    apply hasAnyError_spec in H as (k & _ & Hk). simpl in Hk.
    by rewrite lookup_empty in Hk.
Qed.

(** X7. After the store's [logout] the derived views are empty: no task
    passes to any page, the campaign metrics are all zero, no agent is
    listed and nothing is unread; the task filters, the pagination, the
    settings and the recorded errors stay as they were. *)
Theorem logout_empties_derived_data (parseDate : string → option Z)
    (toLowerCase : string → string) (s : AppStore.AppState) :
  let s' := AppStore.logout s in
  OptimizedStore.pageTasks (OptimizedStore.useFilteredTasks parseDate (AppStore.taskSlice s')) = []
  ∧ OptimizedStore.total (OptimizedStore.useFilteredTasks parseDate (AppStore.taskSlice s')) = 0
  ∧ OptimizedStore.useCampaignMetrics (AppStore.campaigns s')
    = Some (OptimizedStore.mkCampaignMetrics OptimizedStore.zeroTotals 0 0%Q 0%Q 0%Q)
  ∧ StoreSelectors.useFilteredAgents toLowerCase s' = []
  ∧ StoreSelectors.count (StoreSelectors.useUnreadNotifications s') = 0%nat
  ∧ AppStore.taskFilters s' = AppStore.taskFilters s
  ∧ AppStore.taskPagination s' = AppStore.taskPagination s
  ∧ AppStore.settings s' = AppStore.settings s
  ∧ AppStore.errors s' = AppStore.errors s.
Proof.
  intros s'. subst s'. repeat split.
  unfold OptimizedStore.useFilteredTasks, OptimizedStore.jsSlice. simpl.
  by rewrite filter_nil, drop_nil, take_nil.
Qed.

Section CleanupFacts.
Import AppStore.
Variable parseDate : string → option Z.
Variable now : option Z.

Lemma with_notifications_compose f g s :
  with_notifications f (with_notifications g s) = with_notifications (λ l, f (g l)) s.
Proof. by destruct s. Qed.

Lemma with_notifications_id s : with_notifications (λ l, l) s = s.
Proof. by destruct s. Qed.

Lemma with_notifications_ext f g s :
  f (notifications s) = g (notifications s) → with_notifications f s = with_notifications g s.
Proof. intros H. destruct s. unfold with_notifications. simpl in *. by rewrite H. Qed.

(** Walking any list of notifications removes from the store exactly
    the entries that share an id with an expired one of the list. *)
Lemma cleanup_foldl (l : list Notification) (s : AppState) :
  foldl (λ s' n, if expired parseDate now n then removeNotification (notif_id n) s' else s') s l
  = with_notifications
      (filter (λ n, notif_id n ∉ notif_id <$> filter (λ m, expired parseDate now m = true) l)) s.
Proof.
  revert s. induction l as [|x l IH]; intros s.
  - simpl. rewrite <- (with_notifications_id s) at 1.
    apply with_notifications_ext. symmetry. apply filter_all.
    apply Forall_forall. intros n _ Hn. by apply elem_of_nil in Hn.
  - simpl. rewrite IH. destruct (expired parseDate now x) eqn:Hx.
    + rewrite filter_cons_True by done. unfold removeNotification.
      rewrite with_notifications_compose. apply with_notifications_ext.
      rewrite list_filter_filter. apply list_filter_iff. intros n.
      rewrite fmap_cons, not_elem_of_cons. tauto.
    + rewrite filter_cons_False by (by rewrite Hx). done.
Qed.

End CleanupFacts.

(** X8. The provider's clean-up of expired notifications removes a
    notification exactly when an expired notification carries its id, and
    changes nothing else in the store; when the ids are pairwise distinct
    it removes exactly the expired notifications. *)
Theorem cleanupExpired_removes_expired (parseDate : string → option Z) (now : option Z)
    (s : AppStore.AppState) :
  AppStore.cleanupExpired parseDate now s
  = AppStore.with_notifications
      (filter (λ n, AppStore.notif_id n
                    ∉ AppStore.notif_id <$> filter (λ m, AppStore.expired parseDate now m = true)
                                              (AppStore.notifications s))) s
  ∧ (NoDup (AppStore.notif_id <$> AppStore.notifications s) →
     AppStore.notifications (AppStore.cleanupExpired parseDate now s)
     = filter (λ n, AppStore.expired parseDate now n = false) (AppStore.notifications s)).
Proof.
  assert (Heq := cleanup_foldl parseDate now (AppStore.notifications s) s).
  split; [exact Heq|].
  intros Hnodup. unfold AppStore.cleanupExpired. rewrite Heq. simpl.
  apply filter_ext_in. intros n Hn. split.
  - intros Hnot. apply not_true_is_false. intros Hexp. apply Hnot.
    apply list_elem_of_fmap. exists n. split; [done|]. by apply list_elem_of_filter.
  - intros Hexp (m & Hid & Hm)%list_elem_of_fmap.
    apply list_elem_of_filter in Hm as [Hmexp Hm].
    assert (n = m) as ->; [|congruence].
    apply list_elem_of_lookup in Hn as [i Hi]. apply list_elem_of_lookup in Hm as [j Hj].
    assert (i = j) as ->; [|congruence].
    eapply NoDup_lookup; [exact Hnodup| |].
    + by rewrite list_lookup_fmap, Hi.
    + by rewrite list_lookup_fmap, Hj, Hid.
Qed.

(* ===================================================================== *)
(** * The other selectors of the application store *)
(* ===================================================================== *)

Section SelectorFacts.
Import Types StoreSelectors.

Lemma jsSlice_window {A : Type} (l : list A) (start end_ : Z) :
  0 ≤ start → start ≤ end_ →
  OptimizedStore.jsSlice l start end_
  = take (Z.to_nat (end_ - start)) (drop (Z.to_nat start) l).
Proof.
  intros Hs He. unfold OptimizedStore.jsSlice.
  destruct (Z.ltb_spec start 0); [lia|]. destruct (Z.ltb_spec end_ 0); [lia|].
  destruct (Z.le_gt_cases start (Z.of_nat (length l))) as [Hin|Hout].
  - rewrite (Z.min_l start) by lia.
    destruct (Z.le_gt_cases end_ (Z.of_nat (length l))).
    + by rewrite Z.min_l by lia.
    + rewrite Z.min_r by lia. rewrite !take_ge; [done | |]; rewrite length_drop; lia.
  - rewrite !Z.min_r by lia. rewrite Z.sub_diag. simpl.
    rewrite (drop_ge l (Z.to_nat start)) by lia. by rewrite take_nil.
Qed.

Lemma disjoint_filters_length {A : Type} (P Q : A → Prop) `{!∀ x, Decision (P x)}
    `{!∀ x, Decision (Q x)} (l : list A) :
  (∀ x, P x → Q x → False) →
  (length (filter P l) + length (filter Q l) ≤ length l)%nat.
Proof.
  intros Hdisj. induction l as [|x l IH]; [done|].
  destruct (decide (P x)) as [Hp|Hp]; destruct (decide (Q x)) as [Hq|Hq].
  - by destruct (Hdisj x).
  - rewrite filter_cons_True, filter_cons_False by done. simpl. lia.
  - rewrite filter_cons_False, filter_cons_True by done. simpl. lia.
  - rewrite !filter_cons_False by done. simpl. lia.
Qed.

Lemma average_total total n :
  ∃ q, average total n = Some q ∧ (n = 0%nat → q = 0%Q).
Proof.
  unfold average. case_bool_decide as Hn.
  - unfold OptimizedStore.divide.
    destruct (Qeq_bool (inject_Z (Z.of_nat n)) 0) eqn:Heq.
    + apply Qeq_bool_iff in Heq. unfold Qeq in Heq. simpl in Heq. lia.
    + eexists. split; [done|]. lia.
  - by eexists.
Qed.

End SelectorFacts.

(** X9. [useFilteredAgents] returns agents of the store in their order;
    every agent returned has the status and the type asked for, when
    those filters are set, and matches a set search term in its name,
    type or description, compared in lower case; with no filter set, or
    only empty ones, every agent is returned. *)
Theorem useFilteredAgents_filters (toLowerCase : string → string) (s : AppStore.AppState) :
  let f := AppStore.agentFilters s in
  StoreSelectors.useFilteredAgents toLowerCase s `sublist_of` AppStore.agents s
  ∧ (∀ a, a ∈ StoreSelectors.useFilteredAgents toLowerCase s →
       (∀ st, AppStore.agents_status f = Some st → st ≠ ""%string → Types.agent_status a = st)
       ∧ (∀ ty, AppStore.agents_type f = Some ty → ty ≠ ""%string → Types.agent_type a = ty)
       ∧ (∀ q, AppStore.agents_search f = Some q → q ≠ ""%string →
            StoreSelectors.includes (toLowerCase (Types.agent_name a)) (toLowerCase q) = true
            ∨ StoreSelectors.includes (toLowerCase (Types.agent_type a)) (toLowerCase q) = true
            ∨ ∃ d, Types.agent_description a = Some d
                   ∧ StoreSelectors.includes (toLowerCase d) (toLowerCase q) = true))
  ∧ (OptimizedStore.truthy (AppStore.agents_status f) = false →
     OptimizedStore.truthy (AppStore.agents_type f) = false →
     OptimizedStore.truthy (AppStore.agents_search f) = false →
     StoreSelectors.useFilteredAgents toLowerCase s = AppStore.agents s).
Proof.
  intros f. subst f. unfold StoreSelectors.useFilteredAgents. split; [|split].
  - apply sublist_filter.
  - intros a [Hpass _]%list_elem_of_filter.
    unfold StoreSelectors.agentPasses in Hpass.
    destruct (AppStore.agentFilters s) as [st ty q]. simpl in *.
    split; [|split].
    + intros st' -> Hne. apply String.eqb_neq in Hne. simpl in Hpass. rewrite Hne in Hpass.
      simpl in Hpass. case_bool_decide as Hst; [by injection Hst | done].
    + intros ty' -> Hne. apply String.eqb_neq in Hne.
      destruct (OptimizedStore.truthy st && _); [done|].
      simpl in Hpass. rewrite Hne in Hpass. simpl in Hpass.
      case_bool_decide as Hty; [by injection Hty | done].
    + intros q' -> Hne. apply String.eqb_neq in Hne.
      destruct (OptimizedStore.truthy st && _); [done|].
      destruct (OptimizedStore.truthy ty && _); [done|].
      simpl in Hpass. rewrite Hne in Hpass. simpl in Hpass.
      apply orb_true_iff in Hpass as [Hpass|Hpass];
        [apply orb_true_iff in Hpass as [?|?]; auto|].
      right. right. destruct (Types.agent_description a); [by eexists | done].
  - intros Hst Hty Hq. apply filter_all. apply Forall_forall. intros a _.
    unfold StoreSelectors.agentPasses. rewrite Hst, Hty. simpl.
    destruct (AppStore.agents_search (AppStore.agentFilters s)) as [q|]; [|done].
    simpl in Hq |- *. by rewrite Hq.
Qed.

(** X10. [useAgentPerformance] never divides by zero. It returns null
    exactly when no id is given (or an empty one) or no agent has the id;
    otherwise it reports the first agent with the id (no agent before it
    in the store has the id), its completed and failed tasks together
    never exceed its tasks, and the success rate and the average
    execution time are 0 when there is nothing to divide by. *)
Theorem useAgentPerformance_total (agentId : option string) (s : AppStore.AppState) :
  ∃ r, StoreSelectors.useAgentPerformance agentId s = Some r
    ∧ (r = None ↔ OptimizedStore.truthy agentId = false
                  ∨ ∃ id, agentId = Some id
                          ∧ Forall (λ a, Types.agent_id a ≠ id) (AppStore.agents s))
    ∧ (∀ p, r = Some p →
         Some (Types.agent_id (StoreSelectors.perf_agent p)) = agentId
         ∧ StoreSelectors.perf_agent p ∈ AppStore.agents s
         ∧ (∃ i, AppStore.agents s !! i = Some (StoreSelectors.perf_agent p)
                 ∧ ∀ j b, AppStore.agents s !! j = Some b → (j < i)%nat →
                     Some (Types.agent_id b) ≠ agentId)
         ∧ (StoreSelectors.completedTasks p + StoreSelectors.failedTasks p
            ≤ StoreSelectors.totalTasks p)%nat
         ∧ (StoreSelectors.totalTasks p = 0%nat → StoreSelectors.successRate p = 0%Q)
         ∧ (StoreSelectors.completedTasks p = 0%nat → StoreSelectors.avgExecutionTime p = 0%Q)).
Proof.
  unfold StoreSelectors.useAgentPerformance.
  destruct agentId as [id|]; [|exists None; split; [done|]; split; [|done]; split; auto].
  destruct (OptimizedStore.truthy (Some id)) eqn:Hid; simpl;
    [|exists None; split; [done|]; split; [|done]; split; auto].
  destruct (list_find (λ a, Types.agent_id a = id) (AppStore.agents s))
    as [[i agent]|] eqn:Hfind.
  - apply list_find_Some in Hfind as (Hi & Hagent & Hfirst).
    set (agentTasks := filter (λ t, Types.task_agentId t = id) (AppStore.tasks s)).
    set (completed := filter (λ t, Types.task_status t = "completed"%string) agentTasks).
    destruct (average_total (StoreSelectors.sumExecutionTime completed) (length completed))
      as (avg & -> & Havg).
    destruct (percentage_total (inject_Z (Z.of_nat (length completed)))
                               (inject_Z (Z.of_nat (length agentTasks))))
      as (rate & -> & Hrate).
    simpl. eexists. split; [done|]. split.
    + split; [done|]. intros [?|(id' & [= <-] & Hno)]; [done|].
      apply list_elem_of_lookup_2 in Hi. rewrite Forall_forall in Hno.
      by destruct (Hno agent Hi).
    + intros p [= <-]. simpl. split; [by rewrite Hagent|].
      split; [by eapply list_elem_of_lookup_2|]. split; [|split; [|split]].
      * exists i. split; [done|]. intros j b Hj Hlt [= Hb]. by apply (Hfirst j b).
      * apply disjoint_filters_length. intros t Hc Hf. rewrite Hc in Hf. done.
      * intros Hzero. apply Hrate. fold agentTasks in Hzero. by rewrite Hzero.
      * done.
  - exists None. split; [done|]. split; [|done]. split; [|done].
    intros _. right. exists id. split; [done|].
    by apply (proj1 (list_find_None _ _)).
Qed.

(** X11. With [page ≥ 1] and [pageSize ≥ 0] the page returned by
    [useFilteredTasks] is the window of [pageSize] tasks that starts
    after the earlier pages; when [hasNext] is false no passing task
    lies beyond the page, and when it is true the page is full. *)
Theorem useFilteredTasks_pages (parseDate : string → option Z)
    (state : OptimizedStore.TaskSlice) :
  1 ≤ OptimizedStore.page (OptimizedStore.taskPagination state) →
  0 ≤ OptimizedStore.pageSize (OptimizedStore.taskPagination state) →
  let r := OptimizedStore.useFilteredTasks parseDate state in
  let p := OptimizedStore.page (OptimizedStore.taskPagination state) in
  let n := OptimizedStore.pageSize (OptimizedStore.taskPagination state) in
  let passing := filter (λ task, OptimizedStore.taskPasses parseDate
                                   (OptimizedStore.taskFilters state) task = true)
                        (OptimizedStore.tasks state) in
  OptimizedStore.pageTasks r = take (Z.to_nat n) (drop (Z.to_nat ((p - 1) * n)) passing)
  ∧ (OptimizedStore.hasNext r = false → drop (Z.to_nat (p * n)) passing = [])
  ∧ (OptimizedStore.hasNext r = true → length (OptimizedStore.pageTasks r) = Z.to_nat n).
Proof.
  intros Hp Hn r p n passing. subst r p n.
  unfold OptimizedStore.useFilteredTasks. simpl. fold passing.
  set (p := OptimizedStore.page (OptimizedStore.taskPagination state)) in *.
  set (n := OptimizedStore.pageSize (OptimizedStore.taskPagination state)) in *.
  rewrite jsSlice_window by nia.
  replace ((p - 1) * n + n - (p - 1) * n) with n by lia.
  split; [done|split].
  - intros Hnext%Z.ltb_ge. apply drop_ge. nia.
  - intros Hnext%Z.ltb_lt. rewrite length_take, length_drop. nia.
Qed.

(** X12. Filters that are set but empty, and dates that cannot be
    parsed, filter nothing: an empty status or agent id behaves like no
    filter, whatever the other filters and the date range are; a task
    whose creation date cannot be parsed passes every date range, and a
    range whose two ends cannot be parsed lets every task pass. *)
Theorem taskPasses_falsy_filters (parseDate : string → option Z)
    (st ag : option string) (dateRange : option (string * string))
    (range : string * string) (task : Types.Task) :
  OptimizedStore.taskPasses parseDate
      (OptimizedStore.mkTaskFilters (Some ""%string) ag dateRange) task
  = OptimizedStore.taskPasses parseDate (OptimizedStore.mkTaskFilters None ag dateRange) task
  ∧ OptimizedStore.taskPasses parseDate
      (OptimizedStore.mkTaskFilters st (Some ""%string) dateRange) task
    = OptimizedStore.taskPasses parseDate (OptimizedStore.mkTaskFilters st None dateRange) task
  ∧ (parseDate (Types.task_createdAt task) = None
     ∨ (parseDate range.1 = None ∧ parseDate range.2 = None) →
     OptimizedStore.taskPasses parseDate (OptimizedStore.mkTaskFilters st ag (Some range)) task
     = OptimizedStore.taskPasses parseDate (OptimizedStore.mkTaskFilters st ag None) task).
Proof.
  split; [done|]. split; [done|].
  intros Hdates. unfold OptimizedStore.taskPasses. simpl.
  destruct (OptimizedStore.truthy st && _); [done|].
  destruct (OptimizedStore.truthy ag && _); [done|].
  destruct range as [start end_]. simpl in Hdates.
  destruct Hdates as [-> | [-> ->]]; simpl.
  - by destruct (parseDate end_).
  - by destruct (parseDate (Types.task_createdAt task)).
Qed.

(* ===================================================================== *)
(** * The auth store's selectors *)
(* ===================================================================== *)

(** X13. For every stored user, and for none, the permissions nest:
    managing a team implies creating campaigns, which implies creating
    agents and is the same as accessing analytics; at least one agent is
    always allowed and the campaign limit is below the agent limit; who
    may create campaigns may create at least 10. Without a user the
    selector allows 100 agents and 50 campaigns but no campaign
    creation. *)
Theorem useUserPermissions_nest (s : Session.AuthState) :
  let p := AuthStore.useUserPermissions s in
  (AuthStore.canManageTeam p = true → AuthStore.canCreateCampaigns p = true)
  ∧ (AuthStore.canCreateCampaigns p = true → AuthStore.canCreateAgents p = true)
  ∧ AuthStore.canAccessAnalytics p = AuthStore.canCreateCampaigns p
  ∧ 1 ≤ AuthStore.maxAgents p
  ∧ AuthStore.maxCampaigns p < AuthStore.maxAgents p
  ∧ (AuthStore.canCreateCampaigns p = true → 10 ≤ AuthStore.maxCampaigns p)
  ∧ (Session.user s = None →
     AuthStore.canCreateAgents p = true ∧ AuthStore.canCreateCampaigns p = false
     ∧ AuthStore.maxAgents p = 100 ∧ AuthStore.maxCampaigns p = 50).
Proof.
  intros p. subst p. unfold AuthStore.useUserPermissions, AuthStore.proOrEnterprise.
  destruct (Session.user s) as [u|]; simpl; [|repeat split; done].
  destruct (String.eqb_spec (Session.subscription_type u) "pro") as [->|Hpro];
    [repeat split; done|].
  destruct (String.eqb_spec (Session.subscription_type u) "enterprise") as [->|Hent];
    [repeat split; done|].
  simpl. repeat case_bool_decide; simplify_eq; repeat split; done.
Qed.

(* ===================================================================== *)
(** * The response interceptor *)
(* ===================================================================== *)

Section InterceptorFacts.
Import Session.
Context {D : Type}.

Lemma handleGlobalError_effects (status : Z) (w : Client D) :
  authStore (handleGlobalError status w) = authStore w
  ∧ sessionState (handleGlobalError status w) = sessionState w
  ∧ queryCache (handleGlobalError status w) = queryCache w
  ∧ (∃ title, toasts (handleGlobalError status w) = toasts w ++ [title])
  ∧ (status ≠ 401 →
     localStorage (handleGlobalError status w) = localStorage w
     ∧ timeouts (handleGlobalError status w) = timeouts w)
  ∧ (status = 401 →
     localStorage (handleGlobalError status w) = removeAuthItems (localStorage w)
     ∧ timeouts (handleGlobalError status w) = timeouts w ++ [(2000, "/login"%string)]).
Proof.
  unfold handleGlobalError.
  destruct (Z.eqb_spec status 401) as [->|H401].
  - rewrite handleUnauthorized_unfold. simpl. repeat split; try done. by eexists.
  - repeat case_match; simpl; repeat split; try done; by eexists.
Qed.

(** [extractValidationMessage] throws exactly on a [detail] array that
    holds a null. *)
Lemma extractValidationMessage_throws toText errorData :
  extractValidationMessage toText errorData = None
  ↔ ∃ items, optField "detail" errorData = Some (JArray items) ∧ JNull ∈ items.
Proof.
  unfold extractValidationMessage.
  destruct (optField "detail" errorData) as [detail|] eqn:Hdetail; simpl.
  - destruct detail as [|b|n|str|items|fields]; simpl;
      try (split; [done | by intros (items' & [=] & _)]).
    + destruct b; simpl; (split; [done | by intros (items' & [=] & _)]).
    + destruct (negb (Qeq_bool n 0)); simpl; (split; [done | by intros (items' & [=] & _)]).
    + destruct (negb (String.eqb str "")); simpl; (split; [done | by intros (items' & [=] & _)]).
    + rewrite bind_None. split.
      * intros [Hnone | (parts & _ & [=])].
        apply mapM_None, Exists_exists in Hnone as (err & Hin & Herr).
        exists items. split; [done|]. by destruct err.
      * intros (items' & [= <-] & Hin). left.
        apply mapM_None, Exists_exists. by exists JNull.
  - split; [done | by intros (items' & [=] & _)].
Qed.

End InterceptorFacts.


(* ===================================================================== *)
(** * The session hook *)
(* ===================================================================== *)

Section SessionHookFacts.
Import Session UseSession.
Context {D : Type}.
Variable stringify : AuthUser → string.
Variable server : Server.

Lemma validateSession_no_token (r : Run D) :
  OptimizedStore.truthy (localStorage (client r) !! "auth_token"%string) = false →
  ∃ c, validateSession stringify server r = (mkRun c (requests r), inr tt)
       ∧ loggedOutWith "No token found" c
       ∧ toasts c = toasts (client r) ∧ queryCache c = queryCache (client r).
Proof.
  intros Htoken.
  unfold validateSession, tryCatch, bind, act, getItem, ret, throw. simpl.
  rewrite Htoken. simpl. eexists. split; [reflexivity|].
  split; [|done]. split; [done|]. split; [done|]. simpl.
  rewrite removeAuthItems_idemp. apply removeAuthItems_lookup.
Qed.

Lemma validateSession_rejected (r : Run D) (f : Failure) :
  OptimizedStore.truthy (localStorage (client r) !! "auth_token"%string) = true →
  me server (length (requests r)) = inl f →
  ∃ c, validateSession stringify server r
       = (mkRun c (requests r ++ [("GET", "/api/v1/auth/me")%string]), inr tt)
       ∧ loggedOutWith (messageOr (mkExn (fail_message f) (Some (fail_status f)))
                                  "Session validation failed") c
       ∧ queryCache c = queryCache (client r)
       ∧ ∃ title, toasts c = toasts (client r) ++ [title].
Proof.
  intros Htoken Hme.
  unfold validateSession, tryCatch, bind, act, getItem, ret, throw, apiRequest. simpl.
  rewrite Htoken. simpl. rewrite Hme. simpl.
  eexists. split; [reflexivity|].
  destruct (handleGlobalError_effects (fail_status f)
              (setSessionState (λ prev, mkSessionState true (session_isAuthenticated prev)
                                          (session_user prev) None) (client r)))
    as (_ & _ & Hq & Ht & _).
  split; [|split; [exact Hq | exact Ht]].
  split; [done|]. split; [done|]. simpl.
  rewrite removeAuthItems_idemp. apply removeAuthItems_lookup.
Qed.

Lemma validateSession_accepted (r : Run D) (u : AuthUser) :
  OptimizedStore.truthy (localStorage (client r) !! "auth_token"%string) = true →
  me server (length (requests r)) = inr u →
  ∃ c, validateSession stringify server r
       = (mkRun c (requests r ++ [("GET", "/api/v1/auth/me")%string]), inr tt)
       ∧ authStore c = mkAuthState true (Some u) (isLoading (authStore (client r))) None
       ∧ sessionState c = mkSessionState false true (Some u) None
       ∧ localStorage c = <["user_data"%string := stringify u]> (localStorage (client r))
       ∧ toasts c = toasts (client r) ∧ queryCache c = queryCache (client r).
Proof.
  intros Htoken Hme.
  unfold validateSession, tryCatch, bind, act, getItem, ret, throw, apiRequest. simpl.
  rewrite Htoken. simpl. rewrite Hme. simpl.
  eexists. split; [reflexivity|]. done.
Qed.

(** [validateSession] always returns: its [catch] handles every error. *)
Lemma validateSession_returns (r : Run D) :
  ∃ r', validateSession stringify server r = (r', inr tt)
        ∧ (requests r' = requests r
           ∨ requests r' = requests r ++ [("GET", "/api/v1/auth/me")%string]).
Proof.
  destruct (OptimizedStore.truthy (localStorage (client r) !! "auth_token"%string)) eqn:Htoken.
  - destruct (me server (length (requests r))) as [f|u] eqn:Hme.
    + destruct (validateSession_rejected r f Htoken Hme) as (c & -> & _).
      eexists. split; [done|]. by right.
    + destruct (validateSession_accepted r u Htoken Hme) as (c & -> & _).
      eexists. split; [done|]. by right.
  - destruct (validateSession_no_token r Htoken) as (c & -> & _).
    eexists. split; [done|]. by left.
Qed.

End SessionHookFacts.

(** X16. [validateSession] never throws, and afterwards the session state
    and the auth store agree on whether the user is signed in: they are
    signed in exactly when an access token was stored and the server
    accepted it, and then both hold the user the server returned, which
    is also written to storage. Without a stored token no request is sent
    and the client is signed out with the error 'No token found'. *)
Theorem validateSession_outcome {D : Type} (stringify : Session.AuthUser → string)
    (server : UseSession.Server) (r : UseSession.Run D) :
  let out := UseSession.validateSession stringify server r in
  let c := UseSession.client out.1 in
  let token := Session.localStorage (UseSession.client r) !! "auth_token"%string in
  out.2 = inr tt
  ∧ Session.session_isAuthenticated (Session.sessionState c)
    = Session.isAuthenticated (Session.authStore c)
  ∧ (Session.isAuthenticated (Session.authStore c) = true
     ↔ OptimizedStore.truthy token = true
       ∧ ∃ u, UseSession.me server (length (UseSession.requests r)) = inr u)
  ∧ (OptimizedStore.truthy token = false →
     UseSession.requests out.1 = UseSession.requests r
     ∧ UseSession.loggedOutWith "No token found" c)
  ∧ (∀ u, OptimizedStore.truthy token = true →
       UseSession.me server (length (UseSession.requests r)) = inr u →
       Session.user (Session.authStore c) = Some u
       ∧ Session.session_user (Session.sessionState c) = Some u
       ∧ Session.localStorage c !! "user_data"%string = Some (stringify u)
       ∧ Session.localStorage c !! "auth_token"%string = token).
Proof.
  intros out c token. subst out c token.
  destruct (OptimizedStore.truthy
              (Session.localStorage (UseSession.client r) !! "auth_token"%string)) eqn:Htoken.
  - destruct (UseSession.me server (length (UseSession.requests r))) as [f|u] eqn:Hme.
    + destruct (validateSession_rejected stringify server r f Htoken Hme)
        as (c & -> & (Ha & Hs & _) & _).
      simpl. rewrite Ha, Hs. simpl. repeat split; try done. by intros [_ [? ?]].
    + destruct (validateSession_accepted stringify server r u Htoken Hme)
        as (c & -> & Ha & Hs & Hl & _).
      simpl. rewrite Ha, Hs, Hl. simpl.
      split; [done|]. split; [done|]. split; [split; [|done]; eauto|].
      split; [done|]. intros u' _ [= <-].
      rewrite lookup_insert_eq, lookup_insert_ne by done. done.
  - destruct (validateSession_no_token stringify server r Htoken)
      as (c & -> & Hout & _).
    simpl. destruct Hout as (Ha & Hs & H1 & H2 & H3). rewrite Ha, Hs. simpl.
    repeat split; try done. by intros [? _].
Qed.

(** X17. [initializeSession] does exactly what [validateSession] does:
    because [validateSession] handles its own errors, the branch that
    would refresh the token after a 401 is never taken, and at most the
    one request for the current user is sent. *)
Theorem initializeSession_never_refreshes {D : Type} (stringify : Session.AuthUser → string)
    (server : UseSession.Server) (r : UseSession.Run D) :
  UseSession.initializeSession stringify server r
  = UseSession.validateSession stringify server r
  ∧ (UseSession.requests (UseSession.initializeSession stringify server r).1
     = UseSession.requests r
     ∨ UseSession.requests (UseSession.initializeSession stringify server r).1
       = UseSession.requests r ++ [("GET", "/api/v1/auth/me")%string]).
Proof.
  destruct (validateSession_returns stringify server r) as (r' & Hv & Hreq).
  assert (Heq : UseSession.initializeSession stringify server r
                = UseSession.validateSession stringify server r).
  { unfold UseSession.initializeSession, UseSession.tryCatch. by rewrite Hv. }
  split; [exact Heq|]. rewrite Heq, Hv. exact Hreq.
Qed.

(** X18. [refreshSession] without a stored refresh token sends no
    request, signs the client out with 'Session expired' and ends with
    the toast "Sessão Expirada". When the refresh request succeeds it
    always ends with the toast "Sessão Renovada", also when the
    validation that follows is rejected and the client ends signed
    out. *)
Theorem refreshSession_toasts {D : Type} (stringify : Session.AuthUser → string)
    (server : UseSession.Server) (r : UseSession.Run D) :
  let out := UseSession.refreshSession stringify server r in
  let c := UseSession.client out.1 in
  let stored := Session.localStorage (UseSession.client r) !! "refresh_token"%string in
  (OptimizedStore.truthy stored = false →
   out.2 = inr tt ∧ UseSession.requests out.1 = UseSession.requests r
   ∧ UseSession.loggedOutWith "Session expired" c
   ∧ last (Session.toasts c) = Some "Sessão Expirada"%string)
  ∧ (∀ t tokens, stored = Some t → OptimizedStore.truthy stored = true →
       UseSession.refresh server (length (UseSession.requests r)) t = inr tokens →
       out.2 = inr tt
       ∧ last (Session.toasts c) = Some "Sessão Renovada"%string
       ∧ (∀ f, OptimizedStore.truthy (Some (UseSession.access_token tokens)) = true →
            UseSession.me server (S (length (UseSession.requests r))) = inl f →
            Session.isAuthenticated (Session.authStore c) = false
            ∧ Session.session_isAuthenticated (Session.sessionState c) = false
            ∧ Session.localStorage c !! "auth_token"%string = None)).
Proof.
  intros out c stored. subst out c stored. split.
  - intros Hrt.
    unfold UseSession.refreshSession, UseSession.tryCatch, UseSession.bind,
      UseSession.act, UseSession.getItem, UseSession.ret, UseSession.throw. simpl.
    destruct (Session.localStorage (UseSession.client r) !! "refresh_token"%string)
      as [t|] eqn:Hl; simpl in Hrt |- *.
    + rewrite Hrt. simpl. rewrite last_snoc.
      split; [done|]. split; [done|]. split; [|done].
      split; [done|]. split; [done|]. simpl.
      rewrite removeAuthItems_idemp. apply removeAuthItems_lookup.
    + rewrite last_snoc.
      split; [done|]. split; [done|]. split; [|done].
      split; [done|]. split; [done|]. simpl.
      rewrite removeAuthItems_idemp. apply removeAuthItems_lookup.
  - intros t tokens Hl Hrt Hrefresh.
    unfold UseSession.refreshSession, UseSession.tryCatch, UseSession.bind,
      UseSession.act, UseSession.getItem, UseSession.ret, UseSession.throw,
      UseSession.apiRequest.
    simpl. rewrite Hl in Hrt |- *. simpl in Hrt |- *. rewrite Hrt. simpl.
    rewrite Hrefresh. simpl.
    match goal with
    | |- context [UseSession.validateSession _ _ ?x] => set (r1 := x)
    end.
    split; [|split].
    + destruct (validateSession_returns stringify server r1) as (r' & -> & _). done.
    + destruct (validateSession_returns stringify server r1) as (r' & -> & _).
      simpl. apply last_snoc.
    + intros f Haccess Hme.
      assert (Htoken : OptimizedStore.truthy
                (Session.localStorage (UseSession.client r1) !! "auth_token"%string) = true).
      { subst r1. simpl. by rewrite lookup_insert_eq. }
      assert (Hme' : UseSession.me server (length (UseSession.requests r1)) = inl f).
      { subst r1. simpl. rewrite length_app. simpl.
        by replace (length (UseSession.requests r) + 1)%nat
             with (S (length (UseSession.requests r))) by lia. }
      destruct (validateSession_rejected stringify server r1 f Htoken Hme')
        as (c & -> & (Ha & Hs & Ht & _) & _).
      simpl. by rewrite Ha, Hs.
Qed.

Lemma removeAuthItems_lookup_cases (ls : gmap string string) (k : string) :
  Session.removeAuthItems ls !! k = ls !! k ∨ Session.removeAuthItems ls !! k = None.
Proof.
  unfold Session.removeAuthItems. rewrite !lookup_delete.
  repeat case_decide; auto.
Qed.

(** X19. A rejected login returns the server's message, records it as
    the session error and leaves the auth store and the signed-in flag as
    they were; it never writes a token (a 401 even removes the stored
    ones). An accepted login stores both tokens and the user and signs
    the client in in both stores; the hook's logout afterwards removes
    the tokens and signs both out. *)
Theorem login_outcome {D : Type} (stringify : Session.AuthUser → string)
    (server : UseSession.Server) (email password : string) (r : UseSession.Run D) :
  let out := UseSession.login stringify server email password r in
  let c := UseSession.client out.1 in
  let answer := UseSession.authenticate server (length (UseSession.requests r))
                  email password in
  (∀ f, answer = inl f →
     out.2 = inr (inl (UseSession.fail_message f))
     ∧ Session.authStore c = Session.authStore (UseSession.client r)
     ∧ Session.session_isAuthenticated (Session.sessionState c)
       = Session.session_isAuthenticated (Session.sessionState (UseSession.client r))
     ∧ Session.session_error (Session.sessionState c) = Some (UseSession.fail_message f)
     ∧ ∀ k, Session.localStorage c !! k = Session.localStorage (UseSession.client r) !! k
            ∨ Session.localStorage c !! k = None)
  ∧ (∀ data, answer = inr data →
       out.2 = inr (inr (UseSession.login_user data))
       ∧ Session.localStorage c !! "auth_token"%string
         = Some (UseSession.access_token (UseSession.login_tokens data))
       ∧ Session.localStorage c !! "refresh_token"%string
         = Some (UseSession.refresh_token (UseSession.login_tokens data))
       ∧ Session.localStorage c !! "user_data"%string
         = Some (stringify (UseSession.login_user data))
       ∧ Session.isAuthenticated (Session.authStore c) = true
       ∧ Session.user (Session.authStore c) = Some (UseSession.login_user data)
       ∧ Session.session_isAuthenticated (Session.sessionState c) = true
       ∧ Session.localStorage (Session.logoutSession c) !! "auth_token"%string = None
       ∧ Session.localStorage (Session.logoutSession c) !! "refresh_token"%string = None
       ∧ Session.isAuthenticated (Session.authStore (Session.logoutSession c)) = false
       ∧ Session.session_isAuthenticated (Session.sessionState (Session.logoutSession c))
         = false).
Proof.
  intros out c answer. subst out c answer. split.
  - intros f Hf.
    unfold UseSession.login, UseSession.tryCatch, UseSession.bind, UseSession.act,
      UseSession.ret, UseSession.apiRequest. simpl. rewrite Hf. simpl.
    match goal with
    | |- context [Session.handleGlobalError ?st ?w] =>
        destruct (handleGlobalError_effects st w) as (Ha & Hs & _ & _ & Hne & Heq)
    end.
    rewrite Ha, Hs. simpl. repeat split; try done.
    intros k. destruct (decide (UseSession.fail_status f = 401)) as [H401|H401].
    + destruct (Heq H401) as [-> _]. simpl. apply removeAuthItems_lookup_cases.
    + destruct (Hne H401) as [-> _]. by left.
  - intros data Hd. rewrite !logoutSession_unfold.
    unfold UseSession.login, UseSession.tryCatch, UseSession.bind, UseSession.act,
      UseSession.ret, UseSession.apiRequest. simpl. rewrite Hd. simpl.
    repeat split; try done.
    + by rewrite lookup_insert_eq.
    + by rewrite !lookup_insert_ne, lookup_insert_eq by done.
    + by rewrite lookup_insert_ne, lookup_insert_eq by done.
    + apply removeAuthItems_lookup.
    + apply removeAuthItems_lookup.
Qed.

(* ===================================================================== *)
(** * Signals and intervals of a holder *)
(* ===================================================================== *)

(** X20. In a holder, after any sequence of calls: [getSignal] never
    aborts a controller; after the unmount clean-up it hands out the
    signal of the controller that was just aborted, not a fresh one;
    after [abort] it creates a new controller whose signal is not
    aborted. *)
Theorem getSignal_after_unmount_and_abort (ops : list UseAbortController.Op) :
  let h := UseAbortController.run ops UseAbortController.initHolder in
  (∀ j, UseAbortController.live h j →
        UseAbortController.live (UseAbortController.getSignal h).1 j)
  ∧ (∀ i, UseAbortController.current h = Some i →
       (UseAbortController.getSignal (UseAbortController.unmount h)).2 = i
       ∧ UseAbortController.controllers
           (UseAbortController.getSignal (UseAbortController.unmount h)).1 !! i = Some true)
  ∧ UseAbortController.live
      (UseAbortController.getSignal (UseAbortController.abort h)).1
      (UseAbortController.getSignal (UseAbortController.abort h)).2.
Proof.
  intros h.
  assert (Hwf : UseAbortController.wf h) by apply wf_run, wf_init.
  split; [|split].
  - intros j Hj. unfold UseAbortController.getSignal, UseAbortController.newController.
    destruct (UseAbortController.current h); [done|].
    unfold UseAbortController.live in *. simpl. by apply lookup_app_l_Some.
  - intros i Hi. unfold UseAbortController.unmount, UseAbortController.getSignal.
    rewrite Hi. simpl. split; [done|].
    apply abortAt_lookup_current. by apply Hwf.
  - unfold UseAbortController.live.
    destruct (UseAbortController.current h) as [i|] eqn:Hc.
    + unfold UseAbortController.abort. rewrite Hc.
      unfold UseAbortController.getSignal. simpl. apply newController_live.
    + unfold UseAbortController.abort. rewrite Hc.
      unfold UseAbortController.getSignal. rewrite Hc. simpl. apply newController_live.
Qed.

Section IntervalFacts.
Import UseAbortController UseAbortableInterval.

Lemma clearTimer_scheduled id ts k c :
  clearTimer id ts !! k = Some (true, c) → ts !! k = Some (true, c) ∧ k ≠ id.
Proof.
  unfold clearTimer. rewrite list_lookup_alter. case_decide as Hk.
  - subst. destruct (ts !! k) as [[a c']|]; simpl; [|done]. done.
  - done.
Qed.

Lemma only_current_clearCurrent s :
  only_current_scheduled s → only_current_scheduled (clearCurrent s).
Proof.
  intros Hs id [c Hc]. unfold clearCurrent in *.
  destruct (intervalRef s) as [cur|] eqn:Hcur; simpl in *.
  - apply clearTimer_scheduled in Hc as [Hc Hne].
    assert (intervalRef s = Some id) as Hid by (apply Hs; by exists c). congruence.
  - apply Hs. by exists c.
Qed.

Lemma nothing_scheduled_clearCurrent s :
  only_current_scheduled s → ∀ id, ¬ scheduled (clearCurrent s) id.
Proof.
  intros Hs id [c Hc]. unfold clearCurrent in *.
  destruct (intervalRef s) as [cur|] eqn:Hcur; simpl in *.
  - apply clearTimer_scheduled in Hc as [Hc Hne].
    assert (intervalRef s = Some id) as Hid by (apply Hs; by exists c). congruence.
  - assert (intervalRef s = Some id) as Hid by (apply Hs; by exists c). congruence.
Qed.

Lemma only_current_dispatchAbort c s :
  only_current_scheduled s → only_current_scheduled (dispatchAbort c s).
Proof.
  intros Hs. unfold dispatchAbort.
  apply (foldl_invariant only_current_scheduled); [|done].
  intros s' _ Hs'. by apply only_current_clearCurrent.
Qed.

Lemma only_current_with_holder s h :
  only_current_scheduled s →
  only_current_scheduled (mkIntervalHook h (intervalRef s) (timers s) (listeners s)).
Proof. intros Hs id Hid. by apply Hs. Qed.

Lemma only_current_holderCleanup s :
  only_current_scheduled s → only_current_scheduled (holderCleanup s).
Proof.
  intros Hs. unfold holderCleanup. destruct (current (holder s)); [|done].
  case_bool_decide.
  - by apply only_current_dispatchAbort, only_current_with_holder.
  - by apply only_current_with_holder.
Qed.

Lemma nothing_scheduled_intervalCleanup s :
  only_current_scheduled s → ∀ id, ¬ scheduled (intervalCleanup s) id.
Proof.
  intros Hs id [c Hc]. unfold intervalCleanup in *.
  destruct (intervalRef s) as [cur|] eqn:Hcur; simpl in *.
  - apply clearTimer_scheduled in Hc as [Hc Hne].
    assert (intervalRef s = Some id) as Hid by (apply Hs; by exists c). congruence.
  - assert (intervalRef s = Some id) as Hid by (apply Hs; by exists c). congruence.
Qed.

Lemma nothing_scheduled_unmountHook s :
  only_current_scheduled s → ∀ id, ¬ scheduled (unmountHook s) id.
Proof.
  intros Hs. apply nothing_scheduled_intervalCleanup. by apply only_current_holderCleanup.
Qed.

Lemma only_current_setAbortableInterval s :
  only_current_scheduled s → only_current_scheduled (setAbortableInterval s).
Proof.
  intros Hs. unfold setAbortableInterval.
  set (ts := match intervalRef s with
             | Some id => clearTimer id (timers s)
             | None => timers s
             end).
  assert (Hnone : ∀ k c, ts !! k ≠ Some (true, c)).
  { intros k c Hk. subst ts. destruct (intervalRef s) as [cur|] eqn:Hcur.
    - apply clearTimer_scheduled in Hk as [Hk Hne].
      assert (intervalRef s = Some k) as Hid by (apply Hs; by exists c). congruence.
    - assert (intervalRef s = Some k) as Hid by (apply Hs; by exists c). congruence. }
  destruct (getSignal (holder s)) as [h c]. intros id [c' Hc']. simpl in *.
  apply lookup_app_Some in Hc' as [Hc'|[Hlen Hc']]; [by apply Hnone in Hc'|].
  apply list_lookup_singleton_Some in Hc' as [Hid _]. f_equal. lia.
Qed.

Lemma only_current_step s o :
  only_current_scheduled s → only_current_scheduled (UseAbortableInterval.step s o).
Proof.
  intros Hs. destruct o; unfold UseAbortableInterval.step.
  - unfold render. by apply only_current_with_holder.
  - by apply only_current_setAbortableInterval.
  - by apply only_current_clearCurrent.
  - intros id Hid. by apply nothing_scheduled_unmountHook in Hid.
Qed.

Lemma only_current_mounted : only_current_scheduled mounted.
Proof. intros id [c Hc]. simpl in Hc. by rewrite lookup_nil in Hc. Qed.

End IntervalFacts.

(** X21. One instance of [useAbortableInterval], after any sequence of
    renders, [setAbortableInterval], [clearAbortableInterval] and
    unmounts: at most one interval is scheduled, and it is the one the
    ref points at; [clearAbortableInterval] and unmounting leave none
    scheduled. *)
Theorem useAbortableInterval_one_interval (ops : list UseAbortableInterval.Op) :
  let s := UseAbortableInterval.run ops UseAbortableInterval.mounted in
  (∀ i j, UseAbortableInterval.scheduled s i → UseAbortableInterval.scheduled s j → i = j)
  ∧ (∀ i, UseAbortableInterval.scheduled s i → UseAbortableInterval.intervalRef s = Some i)
  ∧ (∀ i, ¬ UseAbortableInterval.scheduled (UseAbortableInterval.clearAbortableInterval s) i)
  ∧ (∀ i, ¬ UseAbortableInterval.scheduled (UseAbortableInterval.unmountHook s) i)
  ∧ (∃ i, UseAbortableInterval.scheduled (UseAbortableInterval.setAbortableInterval s) i).
Proof.
  intros s.
  assert (Hs : UseAbortableInterval.only_current_scheduled s).
  { unfold s, UseAbortableInterval.run.
    apply (foldl_invariant UseAbortableInterval.only_current_scheduled);
      [intros; by apply only_current_step | apply only_current_mounted]. }
  split; [|split; [|split; [|split]]].
  - intros i j Hi Hj. apply Hs in Hi, Hj. congruence.
  - exact Hs.
  - by apply nothing_scheduled_clearCurrent.
  - by apply nothing_scheduled_unmountHook.
  - unfold UseAbortableInterval.setAbortableInterval.
    destruct (UseAbortController.getSignal (UseAbortableInterval.holder s)) as [h c].
    eexists. exists c. simpl. apply list_lookup_middle. done.
Qed.

Section TearDownFacts.
Import UseAbortController UseAbortableInterval.

Lemma holder_clearCurrent s : holder (clearCurrent s) = holder s.
Proof. unfold clearCurrent. by destruct (intervalRef s). Qed.

Lemma holder_dispatchAbort c s : holder (dispatchAbort c s) = holder s.
Proof.
  unfold dispatchAbort.
  apply (foldl_invariant (λ s', holder s' = holder s)); [|done].
  intros s' _ Hs'. by rewrite holder_clearCurrent.
Qed.

Lemma holder_intervalCleanup s : holder (intervalCleanup s) = holder s.
Proof. unfold intervalCleanup. by destruct (intervalRef s). Qed.

Lemma holder_holderCleanup s : holder (holderCleanup s) = unmount (holder s).
Proof.
  unfold holderCleanup. destruct (current (holder s)) eqn:Hc.
  - case_bool_decide; [by rewrite holder_dispatchAbort | done].
  - unfold unmount. by rewrite Hc.
Qed.

Lemma holder_unmountHook s : holder (unmountHook s) = unmount (holder s).
Proof.
  unfold unmountHook. by rewrite holder_intervalCleanup, holder_holderCleanup.
Qed.

Lemma abortAt_keeps_aborted i k cs : cs !! k = Some true → abortAt i cs !! k = Some true.
Proof.
  intros Hk. unfold abortAt. destruct (decide (i = k)) as [->|Hne].
  - rewrite list_lookup_insert_eq; [done|]. by eapply lookup_lt_Some.
  - by rewrite list_lookup_insert_ne.
Qed.

Lemma holder_ready_step s o : holder_ready s → holder_ready (UseAbortableInterval.step s o).
Proof.
  intros [Hwf [c Hc]]. destruct o; unfold UseAbortableInterval.step.
  - unfold render. simpl. split; [by apply wf_getSignal|].
    unfold getSignal. rewrite Hc. simpl. by eexists.
  - unfold setAbortableInterval, getSignal. rewrite Hc. simpl. split; [done | by eexists].
  - unfold clearAbortableInterval. unfold holder_ready.
    rewrite holder_clearCurrent. split; [done | by eexists].
  - unfold holder_ready. rewrite holder_unmountHook. split; [by apply wf_unmount|].
    unfold unmount. rewrite Hc. simpl. by eexists.
Qed.

Lemma holder_ready_mounted : holder_ready mounted.
Proof. split; [apply wf_getSignal, wf_init | by eexists]. Qed.

Lemma torn_down_clearCurrent s : torn_down s → torn_down (clearCurrent s).
Proof.
  intros [Hc Ht]. split; [by rewrite holder_clearCurrent|].
  intros id c. rewrite holder_clearCurrent. unfold clearCurrent.
  destruct (intervalRef s); simpl; [|apply Ht].
  intros [Hid _]%clearTimer_scheduled. by eapply Ht.
Qed.

Lemma torn_down_after_unmount s :
  holder_ready s → only_current_scheduled s → torn_down (unmountHook s).
Proof.
  intros [Hwf [c Hc]] Hs. split.
  - rewrite holder_unmountHook. exists c. unfold unmount. rewrite Hc. simpl.
    split; [done|]. apply abortAt_lookup_current. by apply Hwf.
  - intros id c' Hid. destruct (nothing_scheduled_unmountHook s Hs id). by exists c'.
Qed.

Lemma torn_down_step s o : torn_down s → torn_down (UseAbortableInterval.step s o).
Proof.
  intros Htd. pose proof Htd as [(c & Hc & Hab) Ht].
  destruct o; unfold UseAbortableInterval.step.
  - unfold render, getSignal. rewrite Hc. by destruct s.
  - unfold setAbortableInterval, getSignal. rewrite Hc. split; simpl; [by exists c|].
    intros id c' [Hid|[_ Hid]]%lookup_app_Some.
    + destruct (intervalRef s); [|by eapply Ht].
      apply clearTimer_scheduled in Hid as [Hid _]. by eapply Ht.
    + by apply list_lookup_singleton_Some in Hid as [_ [= <-]].
  - by apply torn_down_clearCurrent.
  - unfold unmountHook.
    assert (Hh : torn_down (holderCleanup s)).
    { unfold holderCleanup. rewrite Hc. rewrite bool_decide_false by congruence.
      unfold unmount. rewrite Hc. split; simpl.
      - exists c. split; [done|]. by apply abortAt_keeps_aborted.
      - intros id c' Hid. apply abortAt_keeps_aborted. by eapply Ht. }
    destruct Hh as [Hc' Ht']. unfold intervalCleanup.
    destruct (intervalRef (holderCleanup s)); [|done]. split; [done|]. simpl.
    intros id c' [Hid _]%clearTimer_scheduled. by eapply Ht'.
Qed.

Lemma torn_down_silent s id : torn_down s → callbackRuns s id = false.
Proof.
  intros [_ Ht]. unfold callbackRuns.
  destruct (timers s !! id) as [[[] c]|] eqn:Hid; [|done|done].
  rewrite bool_decide_false; [done|]. rewrite (Ht id c Hid). done.
Qed.

End TearDownFacts.

(** X22. Once an instance of [useAbortableInterval] has been unmounted,
    no interval callback runs any more, whatever was done with the hook
    before and whatever is still called on it afterwards: every interval
    scheduled before is cleared, and an interval scheduled afterwards
    finds its signal aborted. *)
Theorem useAbortableInterval_silent_after_unmount
    (before after : list UseAbortableInterval.Op) (id : nat) :
  UseAbortableInterval.callbackRuns
    (UseAbortableInterval.run (before ++ UseAbortableInterval.OpUnmountHook :: after)
                              UseAbortableInterval.mounted) id = false.
Proof.
  apply torn_down_silent. unfold UseAbortableInterval.run.
  rewrite foldl_app. simpl.
  apply (foldl_invariant UseAbortableInterval.torn_down).
  - intros s o. apply torn_down_step.
  - apply torn_down_after_unmount.
    + apply (foldl_invariant UseAbortableInterval.holder_ready);
        [intros s o; apply holder_ready_step | apply holder_ready_mounted].
    + apply (foldl_invariant UseAbortableInterval.only_current_scheduled);
        [intros s o; apply only_current_step | apply only_current_mounted].
Qed.

(* ===================================================================== *)
(** * Optimistic patches of the data hooks *)
(* ===================================================================== *)

Section PatchFacts.
Import QueryClient.
Context {D : Type}.

Lemma getQueryData_setQueriesData (c : gmap QueryKey (QueryState D)) prefix f k :
  getQueryData (setQueriesData prefix f c) k
  = if matchesKey prefix k
    then match c !! k with
         | Some q => match f (data q) with Some d => Some d | None => data q end
         | None => None
         end
    else getQueryData c k.
Proof.
  unfold getQueryData, setQueriesData. rewrite map_lookup_imap.
  destruct (c !! k) as [q|]; simpl; [|by destruct (matchesKey prefix k)].
  destruct (matchesKey prefix k); [|done].
  by destruct (f (data q)).
Qed.

Lemma getQueryData_invalidateQueries (c : gmap QueryKey (QueryState D)) prefix k :
  getQueryData (invalidateQueries prefix c) k = getQueryData c k.
Proof.
  unfold getQueryData, invalidateQueries. rewrite map_lookup_imap.
  destruct (c !! k) as [q|]; simpl; [|done].
  by destruct (matchesKey prefix k).
Qed.

End PatchFacts.

(** X23. The optimistic patch of a task status keeps every task and their
    order (the ids are unchanged), gives the new status to every task
    with the id and leaves the other tasks as they are; applying it twice
    is the same as applying it once; on a missing list it yields the
    empty list. *)
Theorem patchTasks_shape (taskId status : string) (l : list Types.Task) :
  ∃ l', OptimizedData.patchTasks taskId status (Some l) = Some l'
    ∧ Types.task_id <$> l' = Types.task_id <$> l
    ∧ (∀ i t, l !! i = Some t →
         l' !! i = Some (if String.eqb (Types.task_id t) taskId
                         then Types.taskWithStatus t status else t))
    ∧ OptimizedData.patchTasks taskId status (Some l') = Some l'
    ∧ OptimizedData.patchTasks taskId status None = Some [].
Proof.
  eexists. split; [reflexivity|]. split; [|split; [|split; [|done]]].
  - rewrite <- list_fmap_compose. apply list_fmap_ext. intros i t _. simpl.
    by destruct (String.eqb (Types.task_id t) taskId).
  - intros i t Ht. by rewrite list_lookup_fmap, Ht.
  - unfold OptimizedData.patchTasks. f_equal. rewrite <- list_fmap_compose.
    apply list_fmap_ext. intros i t _. simpl.
    destruct (String.eqb (Types.task_id t) taskId) eqn:Hid; simpl; by rewrite Hid.
Qed.

(** X24. A rejected task-status mutation, run through its rollback and
    [onSettled], never changes the data of a query whose key does not
    start with 'tasks'; and when the unfiltered task list was cached, the
    rollback gives it back exactly. *)
Theorem updateTaskStatus_rejected_scope (taskId status : string) (e : Retryer.ApiError)
    (c : gmap QueryClient.QueryKey (QueryClient.QueryState (list Types.Task))) :
  (∀ k, QueryClient.matchesKey ["tasks"%string] k = false →
     QueryClient.getQueryData
       (QueryClient.mutateRejectedSettled OptimizedData.updateTaskStatusMutation
          (taskId, status) e c) k
     = QueryClient.getQueryData c k)
  ∧ (∀ previousTasks,
       QueryClient.getQueryData c OptimizedData.QUERY_KEYS_tasks = Some previousTasks →
       QueryClient.getQueryData
         (QueryClient.mutateRejectedSettled OptimizedData.updateTaskStatusMutation
            (taskId, status) e c) OptimizedData.QUERY_KEYS_tasks
       = Some previousTasks).
Proof.
  unfold QueryClient.mutateRejectedSettled, QueryClient.mutateRejected. simpl. split.
  - intros k Hk. rewrite getQueryData_invalidateQueries.
    destruct (QueryClient.getQueryData c OptimizedData.QUERY_KEYS_tasks) as [prev|].
    + rewrite getQueryData_setQueryDataTo, getQueryData_setQueriesData, Hk.
      case_decide as Heq; [|done]. subst k. done.
    + by rewrite getQueryData_setQueriesData, Hk.
  - intros prev Hprev. rewrite getQueryData_invalidateQueries, Hprev.
    rewrite getQueryData_setQueryDataTo. by rewrite decide_True.
Qed.

(** X25. A rejected agent update, run through its rollback and
    [onSettled], leaves the data of every query as it was before the
    mutation started, whether or not the agent was cached. *)
Theorem useUpdateAgent_rejected_restores (now id : string) (data : AgentsData.UpdateAgentData)
    (e : Retryer.ApiError)
    (c : gmap QueryClient.QueryKey (QueryClient.QueryState AgentsData.Agent))
    (k : QueryClient.QueryKey) :
  QueryClient.getQueryData
    (QueryClient.mutateRejectedSettled (AgentsData.useUpdateAgent now) (id, data) e c) k
  = QueryClient.getQueryData c k.
Proof.
  unfold QueryClient.mutateRejectedSettled.
  change (QueryClient.onSettled _ _ (AgentsData.useUpdateAgent now) (id, data))
    with (QueryClient.invalidateQueries (D := AgentsData.Agent)
            (AgentsData.AGENTS_QUERY_KEYS_detail id)).
  rewrite getQueryData_invalidateQueries. apply useUpdateAgent_rollback.
Qed.

(** X26. The quick toggle of an agent's status, applied optimistically to
    a cached agent: the cached status becomes 'inactive' when it was
    'active' and 'active' in every other case; the id, the name and the
    creation date are kept and the update date is the clock's. Toggling
    the result once more gives 'active' only if the status was 'active'
    at the start, so an agent in another state ends 'inactive'. Without
    a cached agent the cache is not touched. *)
Theorem toggleStatus_optimistic (now id : string)
    (c : gmap QueryClient.QueryKey (QueryClient.QueryState AgentsData.Agent)) :
  let key := AgentsData.AGENTS_QUERY_KEYS_detail id in
  let toggled (c' : gmap QueryClient.QueryKey (QueryClient.QueryState AgentsData.Agent))
              (a : AgentsData.Agent) :=
    (QueryClient.onMutate _ _ (AgentsData.useUpdateAgent now)
       (AgentStatusActions.toggleStatus id (AgentsData.status a)) c').1 in
  (∀ a, QueryClient.getQueryData c key = Some a →
     ∃ a', QueryClient.getQueryData (toggled c a) key = Some a'
       ∧ AgentsData.status a'
         = (if String.eqb (AgentsData.status a) "active" then "inactive" else "active")%string
       ∧ AgentsData.id a' = AgentsData.id a
       ∧ AgentsData.name a' = AgentsData.name a
       ∧ AgentsData.createdAt a' = AgentsData.createdAt a
       ∧ AgentsData.updatedAt a' = now
       ∧ ∃ a'', QueryClient.getQueryData (toggled (toggled c a) a') key = Some a''
           ∧ AgentsData.status a''
             = (if String.eqb (AgentsData.status a) "active" then "active" else "inactive")%string)
  ∧ (QueryClient.getQueryData c key = None →
     ∀ a, toggled c a = c).
Proof.
  intros key toggled. subst key toggled. split.
  - intros a Ha. simpl. rewrite Ha. simpl.
    eexists. split; [by rewrite getQueryData_setQueryDataTo, decide_True|].
    simpl. repeat split.
    rewrite getQueryData_setQueryDataTo, decide_True by done.
    eexists. split; [by rewrite getQueryData_setQueryDataTo, decide_True|].
    simpl. by destruct (String.eqb (AgentsData.status a) "active").
  - intros Ha a. simpl. by rewrite Ha.
Qed.

(** Closes a goal about an explicit trace: it settles, within the bound
    on the invocations, and rejects only as its last event. *)
Ltac trace_settles :=
  eexists; split; [reflexivity | split; [cbv; lia | reflexivity]].

(** X27. The health check that threads an abort signal: its retry loop
    settles within at most four invocations; a failure named AbortError
    is never retried, whether it is the first failure or follows others:
    the retry predicate refuses it at every failure count, the query
    function is never invoked again after the invocation that met it,
    and the loop rejects with that error; any other failure, a 4xx
    included, is retried after a fixed 1 s, up to three times. *)
Theorem useApiHealthAbortable_retry {T : Type} (queryFn : nat → Retryer.ApiError + T)
    (k : nat) :
  let run := Hooks.runQueryFn (4 + k) Hooks.appProviderQueries
               Hooks.useApiHealthAbortable_options queryFn in
  (∃ tr, run = Some tr ∧ (Retryer.calls tr ≤ 4)%nat ∧ Retryer.earlyRejections tr = [])
  ∧ ((∃ r, Hooks.effectiveRetry Hooks.appProviderQueries Hooks.useApiHealthAbortable_options
           = Some r
           ∧ ∀ failureCount e, Retryer.name e = "AbortError"%string →
               Retryer.shouldRetry r failureCount e = false)
     ∧ (∀ n e, queryFn n = inl e → Retryer.name e = "AbortError"%string →
          ∃ tr, run = Some tr
                ∧ (Retryer.calls tr ≤ S n)%nat
                ∧ (Retryer.calls tr = S n → Retryer.rejection tr = Some e))
     ∧ (∀ e, queryFn 0%nat = inl e → Retryer.name e = "AbortError"%string →
          run = Some [Retryer.EvCall; Retryer.EvReject e]))
  ∧ (∀ e0 e1 e2 e3,
       queryFn 0%nat = inl e0 → queryFn 1%nat = inl e1 →
       queryFn 2%nat = inl e2 → queryFn 3%nat = inl e3 →
       Retryer.name e0 ≠ "AbortError"%string → Retryer.name e1 ≠ "AbortError"%string →
       Retryer.name e2 ≠ "AbortError"%string →
       run = Some [Retryer.EvCall; Retryer.EvSleep 1000; Retryer.EvCall; Retryer.EvSleep 1000;
                   Retryer.EvCall; Retryer.EvSleep 1000; Retryer.EvCall; Retryer.EvReject e3]).
Proof.
  intros run. subst run.
  assert (Hsettles : ∃ tr,
            Hooks.runQueryFn (4 + k) Hooks.appProviderQueries
              Hooks.useApiHealthAbortable_options queryFn = Some tr
            ∧ (Retryer.calls tr ≤ 4)%nat ∧ Retryer.earlyRejections tr = []).
  { unfold Hooks.runQueryFn. simpl. unfold Hooks.retryUnlessAborted.
    destruct (queryFn 0%nat) as [e0|d0]; [|trace_settles].
    destruct (String.eqb (Retryer.name e0) "AbortError"); [trace_settles|]. simpl.
    destruct (queryFn 1%nat) as [e1|d1]; [|trace_settles].
    destruct (String.eqb (Retryer.name e1) "AbortError"); [trace_settles|]. simpl.
    destruct (queryFn 2%nat) as [e2|d2]; [|trace_settles].
    destruct (String.eqb (Retryer.name e2) "AbortError"); [trace_settles|]. simpl.
    destruct (queryFn 3%nat) as [e3|d3]; [|trace_settles].
    destruct (String.eqb (Retryer.name e3) "AbortError"); trace_settles. }
  assert (Hrefuses : ∀ failureCount e, Retryer.name e = "AbortError"%string →
            Retryer.shouldRetry (Retryer.RetryFn Hooks.retryUnlessAborted) failureCount e
            = false).
  { intros failureCount e He. simpl. unfold Hooks.retryUnlessAborted. by rewrite He. }
  split; [exact Hsettles|]. split; [split; [|split]|].
  - eexists. split; [reflexivity|]. exact Hrefuses.
  - intros n e Hfn He. destruct Hsettles as (tr & Htr & _).
    exists tr. split; [done|].
    pose proof (attempt_stops_at _ _ _ _ _ n e tr Htr (Nat.le_0_l n) Hfn
                  (Hrefuses n e He)) as Hstop.
    by rewrite Nat.sub_0_r in Hstop.
  - unfold Hooks.runQueryFn. simpl. unfold Hooks.retryUnlessAborted.
    intros e -> ->. done.
  - unfold Hooks.runQueryFn. simpl. unfold Hooks.retryUnlessAborted.
    intros e0 e1 e2 e3 -> -> -> -> H0%String.eqb_neq H1%String.eqb_neq H2%String.eqb_neq.
    rewrite H0, H1, H2. simpl. by destruct (String.eqb (Retryer.name e3) "AbortError").
Qed.

(** X28. A rejected agent-status mutation, run through its rollback and
    [onSettled], never changes the data of any query other than the
    agents list; and when the agents list was cached, the rollback gives
    it back exactly. *)
Theorem updateAgentStatus_rejected_scope (agentId status : string) (e : Retryer.ApiError)
    (c : gmap QueryClient.QueryKey (QueryClient.QueryState (list Types.Agent))) :
  (∀ k, k ≠ OptimizedData.QUERY_KEYS_agents →
     QueryClient.getQueryData
       (QueryClient.mutateRejectedSettled OptimizedData.updateAgentStatusMutation
          (agentId, status) e c) k
     = QueryClient.getQueryData c k)
  ∧ (∀ previousAgents,
       QueryClient.getQueryData c OptimizedData.QUERY_KEYS_agents = Some previousAgents →
       QueryClient.getQueryData
         (QueryClient.mutateRejectedSettled OptimizedData.updateAgentStatusMutation
            (agentId, status) e c) OptimizedData.QUERY_KEYS_agents
       = Some previousAgents).
Proof.
  unfold QueryClient.mutateRejectedSettled.
  change (QueryClient.onSettled _ _ OptimizedData.updateAgentStatusMutation (agentId, status))
    with (QueryClient.invalidateQueries (D := list Types.Agent)
            OptimizedData.QUERY_KEYS_agents).
  split.
  - intros k Hk. rewrite getQueryData_invalidateQueries.
    unfold QueryClient.mutateRejected. simpl.
    destruct (QueryClient.getQueryData c OptimizedData.QUERY_KEYS_agents) as [prev|].
    + rewrite getQueryData_setQueryDataTo, getQueryData_setQueryData.
      by rewrite !decide_False by done.
    + rewrite getQueryData_setQueryData. by rewrite decide_False by done.
  - intros prev Hprev. rewrite getQueryData_invalidateQueries.
    by rewrite (updateAgentStatus_rollback_when_cached _ _ _ _ prev).
Qed.

(** X11 at a concrete store: three tasks, first page of two; the page
    holds the first two tasks and is full. *)
Lemma useFilteredTasks_pages_witness :
  let r := OptimizedStore.useFilteredTasks StoreExample.noDates StoreExample.firstPage in
  OptimizedStore.pageTasks r
  = [StoreExample.task "1" "completed"; StoreExample.task "2" "running"]
  ∧ (OptimizedStore.hasNext r = true → length (OptimizedStore.pageTasks r) = 2%nat).
Proof.
  destruct (useFilteredTasks_pages StoreExample.noDates StoreExample.firstPage
              ltac:(simpl; lia) ltac:(simpl; lia)) as (Hpage & _ & Hfull).
  split; [exact Hpage | exact Hfull].
Defined.

(* ===================================================================== *)
(** * Further theorems at concrete inputs *)
(* ===================================================================== *)

(** X3 at a concrete store: an agent added to an empty store and removed
    again. *)
Lemma removeAgent_round_trip_witness :
  AppStore.removeAgent "1" (AppStore.addAgent SessionExample.agent1 ExtraExample.emptyStore)
  = ExtraExample.emptyStore.
Proof.
  exact (proj2 (removeAgent_round_trip SessionExample.agent1 "1" ExtraExample.emptyStore)
               (Forall_nil_2 _)).
Defined.

(** X8 at a concrete store: of two notifications with distinct ids the
    expired one is removed. *)
Lemma cleanupExpired_removes_expired_witness :
  AppStore.notifications
    (AppStore.cleanupExpired ExtraExample.clock (Some 1500) ExtraExample.notified)
  = [ExtraExample.lasting].
Proof.
  assert (Hnodup : NoDup (AppStore.notif_id <$> AppStore.notifications ExtraExample.notified)).
  { apply NoDup_cons. split; [|apply NoDup_singleton].
    intros Hin%list_elem_of_singleton. discriminate Hin. }
  exact (eq_trans
           (proj2 (cleanupExpired_removes_expired ExtraExample.clock (Some 1500)
                     ExtraExample.notified) Hnodup)
           eq_refl).
Defined.

(** X16 at a concrete client: a stored token that the server accepts. *)
Lemma validateSession_outcome_witness :
  let c := UseSession.client
             (UseSession.validateSession ExtraExample.stringify ExtraExample.accepting
                ExtraExample.started).1 in
  Session.user (Session.authStore c) = Some SessionExample.john
  ∧ Session.session_user (Session.sessionState c) = Some SessionExample.john
  ∧ Session.localStorage c !! "user_data"%string = Some "user@example.com"%string
  ∧ Session.localStorage c !! "auth_token"%string = Some "access"%string.
Proof.
  exact (proj2 (proj2 (proj2 (proj2
           (validateSession_outcome ExtraExample.stringify ExtraExample.accepting
              ExtraExample.started))))
           SessionExample.john eq_refl eq_refl).
Defined.

(** X19 at a concrete client: an accepted login replaces the stored
    tokens. *)
Lemma login_outcome_witness :
  let out := UseSession.login ExtraExample.stringify ExtraExample.accepting
               "user@example.com" "secret" ExtraExample.started in
  out.2 = inr (inr SessionExample.john)
  ∧ Session.localStorage (UseSession.client out.1) !! "auth_token"%string
    = Some "access-2"%string.
Proof.
  destruct (proj2 (login_outcome ExtraExample.stringify ExtraExample.accepting
                     "user@example.com" "secret" ExtraExample.started)
              (UseSession.mkLoginData ExtraExample.tokens SessionExample.john) eq_refl)
    as (Hout & Htoken & _).
  split; [exact Hout | exact Htoken].
Defined.

(** X24 at a concrete cache: the unfiltered task list is restored. *)
Lemma updateTaskStatus_rejected_scope_witness :
  QueryClient.getQueryData
    (QueryClient.mutateRejectedSettled OptimizedData.updateTaskStatusMutation
       ("t1"%string, "completed"%string) RollbackExample.serverError
       RollbackExample.cachedTasks) OptimizedData.QUERY_KEYS_tasks
  = Some [RollbackExample.t1].
Proof.
  exact (proj2 (updateTaskStatus_rejected_scope "t1" "completed" RollbackExample.serverError
                  RollbackExample.cachedTasks) [RollbackExample.t1] eq_refl).
Defined.
